(** * Mannheim DS Planner: the client-side planning state engine

    A shallow embedding of [static/js/app.js]: the LocalStorage adapter,
    the derived credit summary and per-area progress, the mutation
    actions of the Alpine component, the backup export/import, the merged
    course list with its filters and sort, and the helpers of the page,
    followed by the properties established about them. The messages are those of
    [static/js/app.js]; the copy of the component that looks its messages
    up in a translation table has the same logic.

    Conventions of the embedding.
    - JavaScript numbers that carry credits and clock readings are exact
      integers ([Z]), written in plain decimal notation; the thresholds
      of an area rule and quotients ([progress]) are exact rationals
      ([Q]). Numbers and integers are the same thing up to
      [Number.MAX_SAFE_INTEGER] in magnitude; what is proved about texts
      written by [JSON.stringify] and read by [JSON.parse] is stated for
      such integers.
    - JavaScript strings are byte strings ([string]); [null]/[undefined]
      are [None].
    - [localStorage], [additionalCourseEcts], [ectsByArea] and
      [selectionMap] are finite maps with string keys. The last two are
      object literals in the code, which also answer to the names of
      the members of [Object.prototype]; the getters that use them are
      followed for other keys only.
    - Lower case, substring search and string comparison are those of
      ASCII strings; the course list is followed for ASCII texts only.
    - What the browser decides (the clock, [Math.random], whether a
      storage write succeeds, the answer to [confirm]) is an explicit
      input; what the code shows the user ([alert], [console]) is an
      explicit output. *)

From Stdlib Require Import ZArith QArith Qminmax Lia List Ascii String.
From Stdlib Require Import Decimal DecimalString DecimalFacts DecimalN DecimalZ.
From stdpp Require Import base option list gmap strings.

Import ListNotations.
#[local] Set Warnings "-register-all".
Local Open Scope Z_scope.
Local Open Scope string_scope.
Local Open Scope list_scope.

(** ** JavaScript primitives used by the planner *)

Module Js.

(** [x || d] where [x] is a number or [null]/[undefined]:
    [0] and the missing value are falsy. *)
Definition num_or (x : option Z) (d : Z) : Z :=
  match x with
  | Some n => if Z.eqb n 0 then d else n
  | None => d
  end.

(** Truthiness of a string-or-null value: the empty string is falsy. *)
Definition truthy (x : option string) : bool :=
  match x with
  | Some s => negb (String.eqb s "")
  | None => false
  end.

(** [String(n)] for an integer [n]. *)
Definition string_of_Z (z : Z) : string :=
  NilZero.string_of_int (Z.to_int z).

Definition code (c : ascii) : nat := nat_of_ascii c.

Definition in_range (lo hi : nat) (c : ascii) : bool :=
  Nat.leb lo (code c) && Nat.leb (code c) hi.

(** The ASCII members of StrWhiteSpaceChar: TAB, LF, VT, FF, CR, SP. *)
Definition is_str_ws (c : ascii) : bool :=
  in_range 9 13 c || Nat.eqb (code c) 32.

Fixpoint trim_start (l : list ascii) : list ascii :=
  match l with
  | c :: r => if is_str_ws c then trim_start r else l
  | [] => []
  end.

(** Value of a character as a digit of a radix up to 36. *)
Definition digit_of (c : ascii) : option Z :=
  if in_range 48 57 c then Some (Z.of_nat (code c) - 48)
  else if in_range 97 122 c then Some (Z.of_nat (code c) - 87)
  else if in_range 65 90 c then Some (Z.of_nat (code c) - 55)
  else None.

(** The longest prefix of radix-[radix] digits, read as a number;
    [None] when the prefix is empty. *)
Fixpoint read_digits (radix : Z) (acc : option Z) (l : list ascii)
  : option Z :=
  match l with
  | c :: r =>
      match digit_of c with
      | Some d =>
          if Z.ltb d radix
          then read_digits radix (Some (default 0 acc * radix + d)) r
          else acc
      | None => acc
      end
  | [] => acc
  end.

(** [parseInt(s)] without a radix argument: leading white space, an
    optional sign, an optional [0x]/[0X] prefix selecting radix 16,
    then the longest run of digits. [None] is [NaN]. *)
Definition parseInt (s : string) : option Z :=
  let l := trim_start (list_ascii_of_string s) in
  let '(neg, l) :=
    match l with
    | c :: r =>
        if Ascii.eqb c "-" then (true, r)
        else if Ascii.eqb c "+" then (false, r)
        else (false, l)
    | [] => (false, l)
    end in
  let '(radix, l) :=
    match l with
    | c :: x :: r =>
        if Ascii.eqb c "0" && (Ascii.eqb x "x" || Ascii.eqb x "X")
        then (16, r) else (10, l)
    | _ => (10, l)
    end in
  match read_digits radix None l with
  | Some n => Some (if neg : bool then - n else n)
  | None => None
  end.

(** What a form field bound to the component holds: nothing yet
    ([undefined]), [null] after a reset, or what was typed. A number put
    there by the binding is represented by its text, which is what
    [parseInt] sees of it. *)
Inductive input := Undefined | Null | Text (s : string).

(** [String(v)], as [parseInt] applies it to its argument. *)
Definition to_string (v : input) : string :=
  match v with
  | Undefined => "undefined"
  | Null => "null"
  | Text s => s
  end.

(** [x || d] where [x] is a number that need not be an integer. *)
Definition rat_or (x : option Q) (d : Q) : Q :=
  match x with
  | Some q => if Qeq_bool q 0 then d else q
  | None => d
  end.

(** [Number.MAX_SAFE_INTEGER] and [Number.isSafeInteger] on integers.
    Up to this magnitude a number is the integer itself: [JSON.parse]
    reads its numeral without rounding and [JSON.stringify] writes it
    digit for digit. *)
Definition MAX_SAFE_INTEGER : Z := 9007199254740991.

Definition isSafeInteger (z : Z) : bool := Z.leb (Z.abs z) MAX_SAFE_INTEGER.

End Js.

(** ** JSON text, as [JSON.stringify] writes it and [JSON.parse] reads it *)

Module Json.

Inductive value :=
| Null
| Bool (b : bool)
| Num (z : Z)
| Str (s : string)
| Arr (items : list value)
| Obj (members : list (string * value)).

Definition chars (s : string) : list ascii := list_ascii_of_string s.

Definition dquote : ascii := ascii_of_nat 34.
Definition backslash : ascii := ascii_of_nat 92.
Definition linefeed : ascii := ascii_of_nat 10.

(** *** Writing *)

Definition hex_digit (n : nat) : ascii :=
  ascii_of_nat (if Nat.ltb n 10 then 48 + n else 87 + n)%nat.

(** QuoteJSONString, one character at a time. *)
Definition escape (c : ascii) : list ascii :=
  let n := Js.code c in
  if Nat.eqb n 34 then [backslash; dquote]
  else if Nat.eqb n 92 then [backslash; backslash]
  else if Nat.eqb n 8 then [backslash; "b"%char]
  else if Nat.eqb n 12 then [backslash; "f"%char]
  else if Nat.eqb n 10 then [backslash; "n"%char]
  else if Nat.eqb n 13 then [backslash; "r"%char]
  else if Nat.eqb n 9 then [backslash; "t"%char]
  else if Nat.ltb n 32
       then [backslash; "u"%char; "0"%char; "0"%char;
             hex_digit (n / 16); hex_digit (n mod 16)]
  else [c].

Definition quote (s : string) : list ascii :=
  dquote :: flat_map escape (chars s) ++ [dquote].

(** With a gap of [gap] spaces every member starts on a line of its
    own, indented by [indent] spaces; without a gap nothing is added. *)
Definition newline (gap indent : nat) : list ascii :=
  if Nat.eqb gap 0 then [] else linefeed :: repeat " "%char indent.

Definition colon (gap : nat) : list ascii :=
  if Nat.eqb gap 0 then [":"%char] else [":"%char; " "%char].

(** What follows the first member of a non-empty array or object:
    every further member after a separator, then the closing part. *)
Fixpoint continue (separator close : list ascii)
    (members : list (list ascii)) : list ascii :=
  match members with
  | [] => close
  | m :: ms => separator ++ m ++ continue separator close ms
  end.

Fixpoint write (gap indent : nat) (v : value) : list ascii :=
  match v with
  | Null => chars "null"
  | Bool true => chars "true"
  | Bool false => chars "false"
  | Num z => chars (Js.string_of_Z z)
  | Str s => quote s
  | Arr [] => chars "[]"
  | Arr (x :: xs) =>
      let inner := (indent + gap)%nat in
      "["%char :: newline gap inner ++ write gap inner x ++
      continue (","%char :: newline gap inner)
        (newline gap indent ++ ["]"%char])
        (map (write gap inner) xs)
  | Obj [] => chars "{}"
  | Obj ((k, x) :: xs) =>
      let inner := (indent + gap)%nat in
      "{"%char :: newline gap inner ++
      quote k ++ colon gap ++ write gap inner x ++
      continue (","%char :: newline gap inner)
        (newline gap indent ++ ["}"%char])
        (map (fun m : string * value =>
                quote (fst m) ++ colon gap ++ write gap inner (snd m)) xs)
  end.

(** [JSON.stringify(v)] is [stringify 0 v];
    [JSON.stringify(v, null, 2)] is [stringify 2 v]. *)
Definition stringify (gap : nat) (v : value) : string :=
  string_of_list_ascii (write gap 0 v).

(** *** Reading

    [SyntaxError] is the exception [JSON.parse] throws. [Unmodelled]
    marks the texts this embedding does not read although [JSON.parse]
    may: numerals with a fraction or an exponent, and [\u] escapes of
    surrogate code units. *)

Inductive result (A : Type) :=
| Ok (a : A)
| SyntaxError
| Unmodelled.
Arguments Ok {A} a.
Arguments SyntaxError {A}.
Arguments Unmodelled {A}.

Definition bind {A B} (r : result A) (f : A -> result B) : result B :=
  match r with
  | Ok a => f a
  | SyntaxError => SyntaxError
  | Unmodelled => Unmodelled
  end.

Definition is_ws (c : ascii) : bool :=
  let n := Js.code c in
  Nat.eqb n 32 || Nat.eqb n 9 || Nat.eqb n 10 || Nat.eqb n 13.

Fixpoint skip_ws (l : list ascii) : list ascii :=
  match l with
  | c :: r => if is_ws c then skip_ws r else l
  | [] => []
  end.

Definition is_digit (c : ascii) : bool := Js.in_range 48 57 c.

Fixpoint span_digits (l : list ascii) : list ascii * list ascii :=
  match l with
  | c :: r =>
      if is_digit c
      then let '(ds, rest) := span_digits r in (c :: ds, rest)
      else ([], l)
  | [] => ([], [])
  end.

(** Whether [c] would continue a numeral: a further digit, or the start
    of a fraction or exponent. *)
Definition continues_number (c : ascii) : bool :=
  is_digit c || Ascii.eqb c "." || Ascii.eqb c "e" || Ascii.eqb c "E".

(** A numeral goes on with a fraction or an exponent. *)
Definition fraction_follows (rest : list ascii) : bool :=
  match rest with
  | c :: _ => Ascii.eqb c "." || Ascii.eqb c "e" || Ascii.eqb c "E"
  | [] => false
  end.

(** The digits of a numeral: at least one, and no digit after a
    leading zero. *)
Definition parse_unsigned (l : list ascii) : result (N * list ascii) :=
  let '(ds, rest) := span_digits l in
  match ds with
  | [] => SyntaxError
  | d :: ds' =>
      if Ascii.eqb d "0" && negb (Nat.eqb (length ds') 0) then SyntaxError
      else if fraction_follows rest then Unmodelled
      else
        match NilEmpty.uint_of_string (string_of_list_ascii ds) with
        | Some u => Ok (N.of_uint u, rest)
        | None => SyntaxError
        end
  end.

Definition parse_number (l : list ascii) : result (Z * list ascii) :=
  match l with
  | c :: r =>
      if Ascii.eqb c "-"
      then bind (parse_unsigned r) (fun '(n, rest) => Ok (- Z.of_N n, rest))
      else bind (parse_unsigned l) (fun '(n, rest) => Ok (Z.of_N n, rest))
  | [] => SyntaxError
  end.

Definition hex_value (c : ascii) : option N :=
  match Js.digit_of c with
  | Some d => if Z.ltb d 16 then Some (Z.to_N d) else None
  | None => None
  end.

(** The UTF-8 bytes of a code unit outside the surrogate range. *)
Definition utf8 (n : N) : option (list ascii) :=
  (if N.ltb n 128 then Some [ascii_of_N n]
  else if N.ltb n 2048
       then Some [ascii_of_N (192 + n / 64); ascii_of_N (128 + n mod 64)]
  else if N.leb 55296 n && N.leb n 57343 then None
  else Some [ascii_of_N (224 + n / 4096);
             ascii_of_N (128 + (n / 64) mod 64);
             ascii_of_N (128 + n mod 64)])%N.

Definition simple_escape (c : ascii) : option ascii :=
  if Ascii.eqb c dquote then Some dquote
  else if Ascii.eqb c backslash then Some backslash
  else if Ascii.eqb c "/" then Some "/"%char
  else if Ascii.eqb c "b" then Some (ascii_of_nat 8)
  else if Ascii.eqb c "f" then Some (ascii_of_nat 12)
  else if Ascii.eqb c "n" then Some (ascii_of_nat 10)
  else if Ascii.eqb c "r" then Some (ascii_of_nat 13)
  else if Ascii.eqb c "t" then Some (ascii_of_nat 9)
  else None.

Definition prepend (cs : list ascii) (r : result (list ascii * list ascii))
  : result (list ascii * list ascii) :=
  bind r (fun '(s, rest) => Ok (cs ++ s, rest)).

(** The characters of a string literal after its opening quote, up to
    and including the closing quote. *)
Fixpoint parse_chars (l : list ascii) : result (list ascii * list ascii) :=
  match l with
  | [] => SyntaxError
  | c :: r =>
      if Ascii.eqb c dquote then Ok ([], r)
      else if Ascii.eqb c backslash then
        match r with
        | [] => SyntaxError
        | e :: r1 =>
            match simple_escape e with
            | Some b => prepend [b] (parse_chars r1)
            | None =>
                if Ascii.eqb e "u" then
                  match r1 with
                  | h1 :: h2 :: h3 :: h4 :: r2 =>
                      match hex_value h1, hex_value h2,
                            hex_value h3, hex_value h4 with
                      | Some a, Some b, Some c', Some d =>
                          match utf8 (((a * 16 + b) * 16 + c') * 16 + d)%N with
                          | Some bytes => prepend bytes (parse_chars r2)
                          | None => Unmodelled
                          end
                      | _, _, _, _ => SyntaxError
                      end
                  | _ => SyntaxError
                  end
                else SyntaxError
            end
        end
      else if Nat.ltb (Js.code c) 32 then SyntaxError
      else prepend [c] (parse_chars r)
  end.

Definition parse_string (l : list ascii) : result (string * list ascii) :=
  bind (parse_chars l) (fun '(s, rest) => Ok (string_of_list_ascii s, rest)).

Fixpoint strip_prefix (p l : list ascii) : option (list ascii) :=
  match p, l with
  | [], _ => Some l
  | a :: p', b :: l' => if Ascii.eqb a b then strip_prefix p' l' else None
  | _ :: _, [] => None
  end.

Definition literal (word : string) (v : value) (l : list ascii)
  : result (value * list ascii) :=
  match strip_prefix (chars word) l with
  | Some rest => Ok (v, rest)
  | None => SyntaxError
  end.

Fixpoint parse_value (fuel : nat) (l : list ascii)
  : result (value * list ascii) :=
  match fuel with
  | O => Unmodelled
  | S fuel' =>
      match skip_ws l with
      | [] => SyntaxError
      | c :: r =>
          if Ascii.eqb c "n" then literal "null" Null (c :: r)
          else if Ascii.eqb c "t" then literal "true" (Bool true) (c :: r)
          else if Ascii.eqb c "f" then literal "false" (Bool false) (c :: r)
          else if Ascii.eqb c dquote then
            bind (parse_string r) (fun '(s, rest) => Ok (Str s, rest))
          else if Ascii.eqb c "[" then
            match skip_ws r with
            | c' :: r' =>
                if Ascii.eqb c' "]" then Ok (Arr [], r')
                else bind (parse_items fuel' r)
                       (fun '(vs, rest) => Ok (Arr vs, rest))
            | [] => SyntaxError
            end
          else if Ascii.eqb c "{" then
            match skip_ws r with
            | c' :: r' =>
                if Ascii.eqb c' "}" then Ok (Obj [], r')
                else bind (parse_members fuel' r)
                       (fun '(ms, rest) => Ok (Obj ms, rest))
            | [] => SyntaxError
            end
          else if Ascii.eqb c "-" || is_digit c then
            bind (parse_number (c :: r)) (fun '(z, rest) => Ok (Num z, rest))
          else SyntaxError
      end
  end

(** The elements of an array after its opening bracket (or after a
    comma), up to and including the closing bracket. *)
with parse_items (fuel : nat) (l : list ascii)
  : result (list value * list ascii) :=
  match fuel with
  | O => Unmodelled
  | S fuel' =>
      bind (parse_value fuel' l) (fun '(v, rest) =>
      match skip_ws rest with
      | c :: r =>
          if Ascii.eqb c "," then
            bind (parse_items fuel' r) (fun '(vs, rest') => Ok (v :: vs, rest'))
          else if Ascii.eqb c "]" then Ok ([v], r)
          else SyntaxError
      | [] => SyntaxError
      end)
  end

(** The members of an object, likewise. *)
with parse_members (fuel : nat) (l : list ascii)
  : result (list (string * value) * list ascii) :=
  match fuel with
  | O => Unmodelled
  | S fuel' =>
      match skip_ws l with
      | q :: r0 =>
          if Ascii.eqb q dquote then
            bind (parse_string r0) (fun '(k, r1) =>
            match skip_ws r1 with
            | c1 :: r2 =>
                if Ascii.eqb c1 ":" then
                  bind (parse_value fuel' r2) (fun '(v, rest) =>
                  match skip_ws rest with
                  | c :: r =>
                      if Ascii.eqb c "," then
                        bind (parse_members fuel' r)
                          (fun '(ms, rest') => Ok ((k, v) :: ms, rest'))
                      else if Ascii.eqb c "}" then Ok ([(k, v)], r)
                      else SyntaxError
                  | [] => SyntaxError
                  end)
                else SyntaxError
            | [] => SyntaxError
            end)
          else SyntaxError
      | [] => SyntaxError
      end
  end.

(** [JSON.parse(s)]. Two steps of the reader take at least one
    character, so the fuel given here is never used up. The integer of
    a numeral is read exactly; it is the number [JSON.parse] returns
    when it is a safe integer ([Number.of_numeral] below). *)
Definition parse (s : string) : result value :=
  let l := chars s in
  bind (parse_value (S (2 * length l)) l) (fun '(v, rest) =>
  match skip_ws rest with
  | [] => Ok v
  | _ :: _ => SyntaxError
  end).

(** Property access [v.k] on a parsed value: the last member named [k]
    of an object ([JSON.parse] lets a later duplicate win); [None] is
    [undefined]. Reading a property of [null] throws, which callers
    handle before they get here. *)
Fixpoint lookup_member (k : string) (ms : list (string * value))
  : option value :=
  match ms with
  | [] => None
  | (k', v) :: rest =>
      match lookup_member k rest with
      | Some v' => Some v'
      | None => if String.eqb k' k then Some v else None
      end
  end.

Definition get (k : string) (v : value) : option value :=
  match v with
  | Obj ms => lookup_member k ms
  | _ => None
  end.

End Json.

(** ** Numbers that are not safe integers *)

Module Number.
(** The number [JSON.parse] makes of the numeral of an integer, where
    that number is an integer or an infinity: the integer itself when
    it is a safe integer, an infinity from [2^1024] on. The numerals in
    between are rounded to a number with 53 significant bits, which is
    not followed here. *)
Inductive t :=
| Finite (z : Z)
| Infinity
| NegativeInfinity.


(** What [JSON.stringify] writes for a number: its digits, and [null]
    for an infinity. *)
Definition to_json (n : t) : Json.value :=
  match n with
  | Finite z => Json.Num z
  | Infinity | NegativeInfinity => Json.Null
  end.
End Number.

(** ** Strings and the keys of object literals *)

Module Text.
(** String operations of JavaScript on strings of ASCII characters, for
    which a byte is a character and a code unit. *)

Definition is_ascii (s : string) : bool :=
  forallb (fun c => Nat.ltb (Js.code c) 128) (list_ascii_of_string s).

Definition lower_char (c : ascii) : ascii :=
  if Js.in_range 65 90 c then ascii_of_nat (Js.code c + 32) else c.

(** [s.toLowerCase()]. *)
Fixpoint toLowerCase (s : string) : string :=
  match s with
  | EmptyString => EmptyString
  | String c r => String (lower_char c) (toLowerCase r)
  end.

(** [s.includes(q)]. *)
Fixpoint includes (s q : string) : bool :=
  String.prefix q s
  || match s with
     | EmptyString => false
     | String _ r => includes r q
     end.

(** The properties of [Object.prototype], which a lookup in an object
    literal finds under keys the code never wrote. *)
Definition inherited : list string :=
  ["constructor"; "__defineGetter__"; "__defineSetter__"; "hasOwnProperty";
   "__lookupGetter__"; "__lookupSetter__"; "isPrototypeOf";
   "propertyIsEnumerable"; "toString"; "valueOf"; "__proto__";
   "toLocaleString"].

Definition plain_key (k : string) : bool :=
  negb (existsb (String.eqb k) inherited).
End Text.

(** ** The planner *)

Module Course.
(** A catalog entry, with the properties the planning engine reads.
    [area_id], [ects] and [max_ects] may be [null] or absent. *)
Record t := mk {
  id : string;
  area_id : option string;
  ects : option Z;
  is_additional_course : bool;
  max_ects : option Z
}.
End Course.

Module Area.
(** An entry of [rules.areas]. Its thresholds need not be integers. *)
Record t := mk {
  id : string;
  name : string;
  min_ects : option Q;
  max_ects : option Q;
  required_ects : option Q
}.
End Area.

Module Selection.
(** An element of [selections], with its properties in the order in
    which [planCourse] and [addAdditionalCourse] create them. *)
Record t := mk {
  course_id : string;
  status : string;
  selection_id : string;
  ects : option Z
}.

Definition to_json (s : t) : Json.value :=
  Json.Obj [("course_id", Json.Str (course_id s));
            ("status", Json.Str (status s));
            ("selection_id", Json.Str (selection_id s));
            ("ects", match ects s with
                     | Some n => Json.Num n
                     | None => Json.Null
                     end)].

(** The parsed objects this embedding can hold in the store: those
    with exactly the shape [to_json] writes. *)
Definition of_json (v : Json.value) : option t :=
  match v with
  | Json.Obj [(k1, Json.Str c); (k2, Json.Str st);
              (k3, Json.Str sid); (k4, e)] =>
      if String.eqb k1 "course_id" && String.eqb k2 "status" &&
         String.eqb k3 "selection_id" && String.eqb k4 "ects"
      then match e with
           | Json.Null => Some (mk c st sid None)
           | Json.Num n => Some (mk c st sid (Some n))
           | _ => None
           end
      else None
  | _ => None
  end.

Fixpoint list_of_json (items : list Json.value) : option (list t) :=
  match items with
  | [] => Some []
  | v :: rest =>
      match of_json v, list_of_json rest with
      | Some s, Some l => Some (s :: l)
      | _, _ => None
      end
  end.

(** The credit amount of the selection, if it has one, is a safe
    integer. *)
Definition safe (s : t) : bool :=
  match ects s with
  | Some n => Js.isSafeInteger n
  | None => true
  end.
End Selection.

Module Planner.

Definition STORAGE_KEY : string := "mmds_planner_selections".
Definition STORAGE_VERSION : string := "1.0".

(** What the browser supplies during one call. *)
Record Env := {
  now : Z;                (* Date.now() *)
  random36 : string;      (* Math.random().toString(36) *)
  iso_time : string;      (* new Date().toISOString() *)
  setItem_ok : bool;      (* false: localStorage.setItem throws *)
  confirmed : bool;       (* the answer to confirm(...) *)
  error_message : string  (* err.message of a caught exception *)
}.

(** What the code shows. *)
Inductive alert :=
| SaveFailed
| EnterEctsForAdditionalCourse
| EnterEcts
| MaxAvailable (remaining : Z)
| InvalidFile
| ImportFailed (message : string).


Inductive event :=
| Alert (a : alert)
| Confirm (question : string)
| ConsoleLog (text : string)
| ConsoleError (text : string).

(** *** LocalStorage functions *)

Definition falsy (v : Json.value) : bool :=
  match v with
  | Json.Null | Json.Bool false => true
  | Json.Num z => Z.eqb z 0
  | Json.Str s => String.eqb s ""
  | _ => false
  end.

Definition version_is_current (parsed : Json.value) : bool :=
  match Json.get "version" parsed with
  | Some (Json.Str v) => String.eqb v STORAGE_VERSION
  | _ => false
  end.

Definition load_failed : list event :=
  [ConsoleError "Failed to load selections from storage:"].

(** [loadSelectionsFromStorage()]. The result is [None] where the
    stored text or the stored [selections] fall outside the embedding
    ([Json.Unmodelled], a truthy non-array, or an element that is not
    selection-shaped). *)
Definition loadSelectionsFromStorage (localStorage : gmap string string)
  : option (list Selection.t * list event) :=
  match localStorage !! STORAGE_KEY with
  | None => Some ([], [])
  | Some data =>
      if String.eqb data "" then Some ([], [])
      else
        match Json.parse data with
        | Json.SyntaxError => Some ([], load_failed)
        | Json.Unmodelled => None
        | Json.Ok Json.Null => Some ([], load_failed)
        | Json.Ok parsed =>
            let log :=
              if version_is_current parsed then []
              else [ConsoleLog "Storage version mismatch, migrating..."] in
            match Json.get "selections" parsed with
            | None => Some ([], log)
            | Some v =>
                if falsy v then Some ([], log)
                else match v with
                     | Json.Arr items =>
                         match Selection.list_of_json items with
                         | Some sels => Some (sels, log)
                         | None => None
                         end
                     | _ => None
                     end
            end
        end
  end.

(** The stored object [{version, selections, lastModified}]. *)
Definition envelope (version : string) (selections : list Selection.t)
    (lastModified : string) : Json.value :=
  Json.Obj [("version", Json.Str version);
            ("selections", Json.Arr (map Selection.to_json selections));
            ("lastModified", Json.Str lastModified)].

Definition storage_envelope (env : Env) (selections : list Selection.t)
  : Json.value :=
  envelope STORAGE_VERSION selections (iso_time env).

(** [saveSelectionsToStorage(selections)]: one [setItem]; when it
    throws, the stored text stays and the user is warned. *)
Definition saveSelectionsToStorage (env : Env)
    (selections : list Selection.t) (localStorage : gmap string string)
  : gmap string string * list event :=
  if setItem_ok env
  then (<[STORAGE_KEY := Json.stringify 0 (storage_envelope env selections)]>
          localStorage, [])
  else (localStorage,
        [ConsoleError "Failed to save selections to storage:";
         Alert SaveFailed]).

Definition generateSelectionId (env : Env) : string :=
  "sel_" ++ Js.string_of_Z (now env) ++ "_" ++ substring 2 9 (random36 env).

(** No character of [s] is the underscore that separates the parts of
    a generated id. *)
Definition plain (s : string) : Prop :=
  Forall (fun c => c <> "_"%char) (list_ascii_of_string s).

(** *** The Alpine component *)

Record State := {
  catalog : list Course.t;
  rules : option (list Area.t);      (* rules?.areas *)
  selections : list Selection.t;
  additionalCourseEcts : gmap string Js.input;
  localStorage : gmap string string
}.

Definition with_selections (st : State) (sels : list Selection.t)
    (ls : gmap string string) : State :=
  {| catalog := catalog st;
     rules := rules st;
     selections := sels;
     additionalCourseEcts := additionalCourseEcts st;
     localStorage := ls |}.

(** [catalog.find(c => c.id === courseId)]. *)
Definition find_course (catalog : list Course.t) (courseId : string)
  : option Course.t :=
  List.find (fun c => String.eqb (Course.id c) courseId) catalog.

(** [sel.ects || course?.ects || 0]. *)
Definition credit (catalog : list Course.t) (sel : Selection.t) : Z :=
  Js.num_or (Selection.ects sel)
    (Js.num_or (match find_course catalog (Selection.course_id sel) with
                | Some course => Course.ects course
                | None => None
                end) 0).

Record Summary := {
  planned_ects : Z;
  completed_ects : Z;
  progress : Q
}.

Definition is_completed (sel : Selection.t) : bool :=
  String.eqb (Selection.status sel) "completed".

(** The body of the loop of [summary]: both running totals after one
    more selection. *)
Definition tally (catalog : list Course.t)
    (totals : Z * Z) (sel : Selection.t) : Z * Z :=
  let '(plannedEcts, completedEcts) := totals in
  let ects := credit catalog sel in
  (plannedEcts + ects,
   if is_completed sel then completedEcts + ects else completedEcts).

(** [get summary()]. *)
Definition summary (st : State) : Summary :=
  let '(plannedEcts, completedEcts) :=
    fold_left (tally (catalog st)) (selections st) (0, 0) in
  {| planned_ects := plannedEcts;
     completed_ects := completedEcts;
     progress := inject_Z plannedEcts / inject_Z 120 |}.

Record AreaProgress := {
  area_id : string;
  area_name : string;
  min_ects : option Q;
  max_ects : option Q;
  required_ects : option Q;
  area_planned_ects : Z;
  area_progress_value : Q
}.

(** [course.area_id || 'unassigned']: the key under which the loop of
    [area_progress] counts a course. *)
Definition area_key (course : Course.t) : string :=
  if Js.truthy (Course.area_id course)
  then default "" (Course.area_id course) else "unassigned".

(** The loop that fills [ectsByArea], as a finite map. *)
Definition ects_by_area (catalog : list Course.t)
    (selections : list Selection.t) : gmap string Z :=
  fold_left
    (fun (ectsByArea : gmap string Z) sel =>
       match find_course catalog (Selection.course_id sel) with
       | None => ectsByArea
       | Some course =>
           let areaId := area_key course in
           let ects :=
             Js.num_or (Selection.ects sel)
               (Js.num_or (Course.ects course) 0) in
           <[areaId := Js.num_or (ectsByArea !! areaId) 0 + ects]> ectsByArea
       end)
    selections ∅.

(** The divisor of the progress quotient: [area.min_ects || 1]. *)
Definition divisor (area : Area.t) : Q := Js.rat_or (Area.min_ects area) 1.

Definition area_entry (ectsByArea : gmap string Z) (area : Area.t)
  : AreaProgress :=
  let planned := Js.num_or (ectsByArea !! Area.id area) 0 in
  {| area_id := Area.id area;
     area_name := Area.name area;
     min_ects := Area.min_ects area;
     max_ects := Area.max_ects area;
     required_ects := Area.required_ects area;
     area_planned_ects := planned;
     area_progress_value := Qmin 1 (inject_Z planned / divisor area) |}.

(** The keys under which the getter reads [ectsByArea]: the area keys
    of the courses of the selections it counts, and the ids of the
    rules. *)
Definition area_keys (catalog : list Course.t)
    (selections : list Selection.t) (areas : list Area.t) : list string :=
  flat_map
    (fun sel =>
       match find_course catalog (Selection.course_id sel) with
       | Some course => [area_key course]
       | None => []
       end)
    selections
  ++ map Area.id areas.

(** [get area_progress()]. The object [ectsByArea] is a finite map as
    long as no key read in it names a member of [Object.prototype];
    [None]: some key does, and the getter is not followed. *)
Definition area_progress (st : State) : option (list AreaProgress) :=
  match rules st with
  | None => Some []
  | Some areas =>
      if forallb Text.plain_key
           (area_keys (catalog st) (selections st) areas)
      then Some (map (area_entry (ects_by_area (catalog st) (selections st)))
                   areas)
      else None
  end.

(** *** Actions *)

Definition references (courseId : string) (s : Selection.t) : bool :=
  String.eqb (Selection.course_id s) courseId.

Definition save (env : Env) (st : State) (sels : list Selection.t)
  : State * list event :=
  let '(ls, events) := saveSelectionsToStorage env sels (localStorage st) in
  (with_selections st sels ls, events).

Definition planCourse (env : Env) (courseId : string) (st : State)
  : State * list event :=
  match find_course (catalog st) courseId with
  | None => (st, [])
  | Some course =>
      if existsb (references courseId) (selections st) then (st, [])
      else if Course.is_additional_course course
      then (st, [Alert EnterEctsForAdditionalCourse])
      else
        save env st
          (selections st ++
           [Selection.mk courseId "planned" (generateSelectionId env) None])
  end.

(** [selections.filter(s => s.course_id === courseId)
      .reduce((sum, s) => sum + (s.ects || 0), 0)]. *)
Definition committed (courseId : string) (sels : list Selection.t) : Z :=
  fold_left (fun sum s => sum + Js.num_or (Selection.ects s) 0)
    (List.filter (references courseId) sels) 0.

(** [course.max_ects || 18]. *)
Definition cap (course : Course.t) : Z :=
  Js.num_or (Course.max_ects course) 18.

Definition entered (st : State) (courseId : string) : Js.input :=
  default Js.Undefined (additionalCourseEcts st !! courseId).

Definition addAdditionalCourse (env : Env) (courseId : string) (st : State)
  : State * list event :=
  match find_course (catalog st) courseId with
  | None => (st, [])
  | Some course =>
      if negb (Course.is_additional_course course) then (st, [])
      else
        match Js.parseInt (Js.to_string (entered st courseId)) with
        | None => (st, [Alert EnterEcts])
        | Some ects =>
            if Z.eqb ects 0 || Z.ltb ects 1 then (st, [Alert EnterEcts])
            else
              let plannedEcts := committed courseId (selections st) in
              let remaining := cap course - plannedEcts in
              if Z.gtb ects remaining
              then (st, [Alert (MaxAvailable remaining)])
              else
                let sels :=
                  selections st ++
                  [Selection.mk courseId "planned"
                     (generateSelectionId env) (Some ects)] in
                let '(ls, events) :=
                  saveSelectionsToStorage env sels (localStorage st) in
                ({| catalog := catalog st;
                    rules := rules st;
                    selections := sels;
                    additionalCourseEcts :=
                      <[courseId := Js.Null]> (additionalCourseEcts st);
                    localStorage := ls |}, events)
        end
  end.

Definition removeCourse (env : Env) (courseId : string)
    (selectionId : option string) (st : State) : State * list event :=
  save env st
    (if Js.truthy selectionId
     then List.filter
            (fun s => negb (String.eqb (Selection.selection_id s)
                              (default "" selectionId)))
            (selections st)
     else List.filter (fun s => negb (references courseId s))
            (selections st)).

Definition toggle (s : Selection.t) : Selection.t :=
  Selection.mk (Selection.course_id s)
    (if is_completed s then "planned" else "completed")
    (Selection.selection_id s) (Selection.ects s).

(** The loop of [toggleCompleted]: the first selection that matches is
    flipped, and the loop ends there. *)
Fixpoint toggle_first (matches : Selection.t -> bool)
    (sels : list Selection.t) : list Selection.t :=
  match sels with
  | [] => []
  | s :: rest =>
      if matches s then toggle s :: rest
      else s :: toggle_first matches rest
  end.

Definition toggleCompleted (env : Env) (courseId : string)
    (selectionId : option string) (st : State) : State * list event :=
  save env st
    (toggle_first
       (fun s =>
          if Js.truthy selectionId
          then String.eqb (Selection.selection_id s) (default "" selectionId)
          else references courseId s)
       (selections st)).

Definition removeAllPlanned (env : Env) (st : State) : State * list event :=
  if confirmed env
  then let '(st', events) := save env st [] in
       (st', Confirm "Alle geplanten Module entfernen?" :: events)
  else (st, [Confirm "Alle geplanten Module entfernen?"]).

(** *** Backup of the local data *)

Definition backup (env : Env) (selections : list Selection.t) : Json.value :=
  Json.Obj [("version", Json.Str STORAGE_VERSION);
            ("exportDate", Json.Str (iso_time env));
            ("selections", Json.Arr (map Selection.to_json selections))].


(** [importLocalData(event)] together with the [onload] handler of its
    reader; [file] is the text of [event.target.files[0]]. [None] as
    result: the file falls outside the embedding. *)
Definition importLocalData (env : Env) (file : option string) (st : State)
  : option (State * list event) :=
  match file with
  | None => Some (st, [])
  | Some text =>
      match Json.parse text with
      | Json.SyntaxError =>
          Some (st, [Alert (ImportFailed (error_message env))])
      | Json.Unmodelled => None
      | Json.Ok Json.Null =>
          Some (st, [Alert (ImportFailed (error_message env))])
      | Json.Ok data =>
          match Json.get "selections" data with
          | Some (Json.Arr items) =>
              let question :=
                Confirm (Js.string_of_Z (Z.of_nat (length items)) ++
                         " Module importieren? Aktuelle Planung wird ersetzt.")%string in
              if confirmed env
              then match Selection.list_of_json items with
                   | Some sels =>
                       let '(st', events) := save env st sels in
                       Some (st', question :: events)
                   | None => None
                   end
              else Some (st, [question])
          | _ => Some (st, [Alert InvalidFile])
          end
      end
  end.

(** [init()] once the catalog has arrived. *)
Definition init (courses : list Course.t) (areas : option (list Area.t))
    (stored : gmap string string) : option (State * list event) :=
  match loadSelectionsFromStorage stored with
  | Some (sels, events) =>
      Some ({| catalog := courses;
               rules := areas;
               selections := sels;
               additionalCourseEcts := ∅;
               localStorage := stored |}, events)
  | None => None
  end.

End Planner.

(** ** The component as a transition system *)

Module Machine.
Import Planner.

(** What the user can do between two renderings. [Enter] is typing
    into the ECTS field bound to [additionalCourseEcts[courseId]]. *)
Inductive action :=
| Plan (courseId : string)
| Enter (courseId : string) (text : string)
| AddAdditionalCourse (courseId : string)
| Remove (courseId : string) (selectionId : option string)
| ToggleCompleted (courseId : string) (selectionId : option string)
| RemoveAll
| Import (file : option string).

Definition enter (courseId text : string) (st : State) : State :=
  {| catalog := catalog st;
     rules := rules st;
     selections := selections st;
     additionalCourseEcts :=
       <[courseId := Js.Text text]> (additionalCourseEcts st);
     localStorage := localStorage st |}.

Definition run (env : Env) (a : action) (st : State)
  : option (State * list event) :=
  match a with
  | Plan courseId => Some (planCourse env courseId st)
  | Enter courseId text => Some (enter courseId text st, [])
  | AddAdditionalCourse courseId => Some (addAdditionalCourse env courseId st)
  | Remove courseId selectionId =>
      Some (removeCourse env courseId selectionId st)
  | ToggleCompleted courseId selectionId =>
      Some (toggleCompleted env courseId selectionId st)
  | RemoveAll => Some (removeAllPlanned env st)
  | Import file => importLocalData env file st
  end.

Definition is_import (a : action) : bool :=
  match a with
  | Import _ => true
  | _ => false
  end.

(** The states the component gets to from [start] by actions that
    satisfy [allowed]. *)
Inductive reachable (allowed : action -> bool) (start : State)
  : State -> Prop :=
| reach_start : reachable allowed start start
| reach_step st env a st' events :
    reachable allowed start st ->
    allowed a = true ->
    run env a st = Some (st', events) ->
    reachable allowed start st'.

(** At most one selection references each fixed-credit course, a
    reference being resolved the way the component resolves it
    ([catalog.find(c => c.id === sel.course_id)]). *)
Definition references_count (courseId : string)
    (sels : list Selection.t) : nat :=
  length (List.filter (references courseId) sels).

Definition one_selection_per_fixed_course (courses : list Course.t)
    (sels : list Selection.t) : Prop :=
  forall courseId course,
    find_course courses courseId = Some course ->
    Course.is_additional_course course = false ->
    (references_count courseId sels <= 1)%nat.

Definition invariant (st : State) : Prop :=
  one_selection_per_fixed_course (catalog st) (selections st).

Definition selection_ids (sels : list Selection.t) : list string :=
  map Selection.selection_id sels.
End Machine.

(** ** The credit totals as the specification words them *)

Module Spec.
Import Planner.

(** "The Selection's ects if non-null, else the referenced course's
    fixed ects." *)
Definition effective_credit (courses : list Course.t)
    (sel : Selection.t) : Z :=
  match Selection.ects sel with
  | Some e => e
  | None =>
      match find_course courses (Selection.course_id sel) with
      | Some course => default 0 (Course.ects course)
      | None => 0
      end
  end.

Definition total (courses : list Course.t) (sels : list Selection.t) : Z :=
  fold_right Z.add 0 (map (effective_credit courses) sels).

Definition planned_ects (courses : list Course.t)
    (sels : list Selection.t) : Z :=
  total courses sels.

Definition completed_ects (courses : list Course.t)
    (sels : list Selection.t) : Z :=
  total courses (List.filter is_completed sels).

Definition all_resolve (courses : list Course.t)
    (sels : list Selection.t) : Prop :=
  forall sel, In sel sels ->
    exists course, find_course courses (Selection.course_id sel) = Some course.

(** "Removes exactly the Selections whose selection_id equals the
    argument." *)
Definition without_id (selectionId : string) (sels : list Selection.t)
  : list Selection.t :=
  List.filter
    (fun s => negb (String.eqb (Selection.selection_id s) selectionId)) sels.
End Spec.

(** ** Measures and side conditions of the JSON round trip *)

Module JsonText.
Import Json.

(** Fuel that [parse_value] needs for the text of a value. *)
Fixpoint size (v : value) : nat :=
  match v with
  | Arr items => S (list_sum (map (fun x => S (size x)) items))
  | Obj members => S (list_sum (map (fun m => S (size (snd m))) members))
  | _ => 1
  end.

Definition blank (l : list ascii) : Prop := forallb is_ws l = true.

(** What may follow a numeral without being read as part of it. *)
Definition delimited (l : list ascii) : Prop :=
  match l with
  | [] => True
  | c :: _ => continues_number c = false
  end.

(** A numeral is normal when it has a digit and no leading zero. *)
Definition normal (d : uint) : Prop :=
  d <> Nil /\ forall d', d = D0 d' -> d' = Nil.

Definition member_text (gap inner : nat) (m : string * value) : list ascii :=
  quote (fst m) ++ colon gap ++ write gap inner (snd m).

Definition reads_values (f : nat) : Prop :=
  forall v gap indent rest,
    (size v <= f)%nat -> delimited rest ->
    parse_value f (write gap indent v ++ rest) = Ok (v, rest).

Definition reads_items (f : nat) : Prop :=
  forall xs x gap inner ws1 ws2 rest,
    (list_sum (map (fun x => S (size x)) (x :: xs)) <= f)%nat ->
    blank ws1 -> blank ws2 ->
    parse_items f
      (write gap inner x ++
       continue (","%char :: ws1) (ws2 ++ "]"%char :: rest)
         (map (write gap inner) xs))
    = Ok (x :: xs, rest).

Definition reads_members (f : nat) : Prop :=
  forall xs x gap inner ws1 ws2 rest,
    (list_sum (map (fun m => S (size (snd m))) (x :: xs)) <= f)%nat ->
    blank ws1 -> blank ws2 ->
    parse_members f
      (member_text gap inner x ++
       continue (","%char :: ws1) (ws2 ++ "}"%char :: rest)
         (map (member_text gap inner) xs))
    = Ok (x :: xs, rest).
End JsonText.

(** ** Sample data for the worked instances *)

Module Sample.
Import Planner.

Definition env : Env :=
  {| now := 1700000000000;
     random36 := "0.k3j2h1g0fxyz";
     iso_time := "2024-01-02T03:04:05.678Z";
     setItem_ok := true;
     confirmed := true;
     error_message := "Unexpected end of JSON input" |}.

(** Two fixed-credit courses and an Additional Course module. *)
Definition fixed1 : Course.t :=
  Course.mk "FIX1" (Some "area-a") (Some 6) false None.
Definition fixed2 : Course.t :=
  Course.mk "FIX2" (Some "area-a") (Some 8) false None.
Definition additional : Course.t :=
  Course.mk "AC1" (Some "area-b") None true (Some 18).
(** An Additional Course module whose [max_ects] is [0]. *)
Definition additional0 : Course.t :=
  Course.mk "AC0" (Some "area-b") None true (Some 0).

Definition area_a : Area.t :=
  Area.mk "area-a" "Area A" (Some (inject_Z 12)) None None.
Definition area_b : Area.t :=
  Area.mk "area-b" "Area B" (Some (inject_Z 0)) None None.
(** An area rule whose [min_ects] is negative. *)
Definition area_neg : Area.t :=
  Area.mk "area-a" "Area A" (Some (inject_Z (-5))) None None.
(** An area rule whose [min_ects] is a half. *)
Definition area_half : Area.t :=
  Area.mk "area-a" "Area A" (Some (1 # 2)%Q) None None.

Definition fresh : State :=
  {| catalog := [fixed1; fixed2; additional; additional0];
     rules := Some [area_a; area_b];
     selections := [];
     additionalCourseEcts := ∅;
     localStorage := ∅ |}.

Definition with_store (sels : list Selection.t) : State :=
  {| catalog := catalog fresh;
     rules := rules fresh;
     selections := sels;
     additionalCourseEcts := ∅;
     localStorage := ∅ |}.

Definition sel1 : Selection.t :=
  Selection.mk "FIX1" "planned" "sel_1700000000000_aaaaaaaaa" None.
Definition sel1' : Selection.t :=
  Selection.mk "FIX1" "completed" "sel_1700000000001_bbbbbbbbb" None.
Definition sel2 : Selection.t :=
  Selection.mk "FIX2" "completed" "sel_1700000000002_ccccccccc" None.
Definition sel_ac : Selection.t :=
  Selection.mk "AC1" "planned" "sel_1700000000003_ddddddddd" (Some 10).
(** A selection whose [ects] is [0], as a backup file may carry it. *)
Definition sel_zero : Selection.t :=
  Selection.mk "FIX1" "planned" "sel_1700000000004_eeeeeeeee" (Some 0).

(** The catalog under a rule list whose only area has a negative
    minimum. *)
Definition under_negative_rule (sels : list Selection.t) : State :=
  {| catalog := catalog fresh;
     rules := Some [area_neg];
     selections := sels;
     additionalCourseEcts := ∅;
     localStorage := ∅ |}.

(** Stores the worked instances start from. *)
Definition two_fixed : State := with_store [sel1; sel2].
Definition mixed : State := with_store [sel1; sel2; sel_ac].
Definition zero_credit : State := with_store [sel_zero].

(** The ECTS field of a module filled in. *)
Definition entered_fraction : State := Machine.enter "AC1" "2.5" fresh.

(** The store after FIX1 was planned under [env]. *)
Definition after_first_plan : State := fst (planCourse env "FIX1" fresh).

(** A backup file that lists the same fixed-credit course twice. *)
Definition doubled_backup : string :=
  Json.stringify 2 (backup env [sel1; sel1']).


(** A stored envelope written under an older schema version. *)
Definition old_envelope : Json.value :=
  envelope "0.9" [sel1] "2023-05-06T07:08:09.000Z".

Definition old_storage : gmap string string :=
  {[ STORAGE_KEY := Json.stringify 0 old_envelope ]}.
End Sample.

(** ** Further predicates on the component *)

Module Store.
Import Planner.

(** The backing copy holds the store: loading it gives the selections
    of the component, and nothing is logged. *)
Definition synced (st : State) : Prop :=
  loadSelectionsFromStorage (localStorage st) = Some (selections st, []).

(** A selection as the actions create it: of a catalog course, planned
    or completed, with a credit amount of at least 1 for an Additional
    Course module and none for any other course. *)
Definition tidy_selection (courses : list Course.t) (s : Selection.t)
  : Prop :=
  exists course,
    find_course courses (Selection.course_id s) = Some course
    /\ (Selection.status s = "planned" \/ Selection.status s = "completed")
    /\ if Course.is_additional_course course
       then exists e, Selection.ects s = Some e /\ 1 <= e
       else Selection.ects s = None.

Definition tidy (st : State) : Prop :=
  Forall (tidy_selection (catalog st)) (selections st).

(** The credit committed to each Additional Course module stays within
    its cap (a cap below zero admits nothing). *)
Definition within_caps (st : State) : Prop :=
  forall courseId course,
    find_course (catalog st) courseId = Some course ->
    Course.is_additional_course course = true ->
    committed courseId (selections st) <= Z.max 0 (cap course).

(** The status after two toggles. *)
Definition settled (s : Selection.t) : Selection.t :=
  Selection.mk (Selection.course_id s)
    (if is_completed s then "completed" else "planned")
    (Selection.selection_id s) (Selection.ects s).

(** The store after two runs of the loop of [toggleCompleted]. *)
Fixpoint settle_first (matches : Selection.t -> bool)
    (sels : list Selection.t) : list Selection.t :=
  match sels with
  | [] => []
  | s :: rest =>
      if matches s then settled s :: rest
      else s :: settle_first matches rest
  end.

(** The test of the loop of [toggleCompleted]. *)
Definition toggle_matches (courseId : string) (selectionId : option string)
    (s : Selection.t) : bool :=
  if Js.truthy selectionId
  then String.eqb (Selection.selection_id s) (default "" selectionId)
  else references courseId s.

(** The selection is of a catalog course counted under [areaId]. *)
Definition counts_towards (courses : list Course.t) (areaId : string)
    (sel : Selection.t) : bool :=
  match find_course courses (Selection.course_id sel) with
  | Some course => String.eqb (area_key course) areaId
  | None => false
  end.

(** The credit of the selections counted under [areaId]. *)
Definition area_sum (courses : list Course.t) (areaId : string)
    (sels : list Selection.t) : Z :=
  fold_right Z.add 0
    (map (credit courses) (List.filter (counts_towards courses areaId) sels)).
End Store.

(** ** More sample data *)

Module Sample2.
Import Planner.

(** A browser whose storage is full. *)
Definition offline : Env :=
  {| now := 1700000000500;
     random36 := "0.zzzzzzzzzzzz";
     iso_time := "2024-01-02T03:04:06.000Z";
     setItem_ok := false;
     confirmed := true;
     error_message := "" |}.
End Sample2.


(** ** The merged course list and the helpers of the page *)

Module View.
Import Planner.

(** A catalog entry together with the texts the page filters by, each
    of which may be missing. Its [course] is the entry as the planning
    engine reads it. *)
Record Listing := {
  course : Course.t;
  title : option string;
  code : option string;
  professor : option string
}.

(** An element of the list [courses] returns: the catalog entry with
    the properties the getter sets on its copy. The entries of the
    catalog carry no [status], [completed], [selection_id],
    [remaining_ects] or [planned_ects] of their own. *)
Record Row := {
  listing : Listing;
  ects : option Z;
  status : string;
  completed : bool;
  selection_id : option string;
  remaining_ects : option Z;
  planned_ects : option Z
}.

(** [filters] and [sort] of the component. *)
Record Filters := { q : string; areas : list string }.
Record Sort := { sort_by : string; dir : string }.

(** [collapsedAreas] of the component. *)
Record Collapsed := { planned : list string; catalog_areas : list string }.
Inductive section := PlannedSection | CatalogSection.

(** How a getter ends: with a value, with a [TypeError], or outside the
    embedding. *)
Inductive outcome (A : Type) :=
| Returns (a : A)
| Throws
| Unmodelled.
Arguments Returns {A} a.
Arguments Throws {A}.
Arguments Unmodelled {A}.

(** The first loop of [courses]: the selections under their
    [course_id], in the order of the store. *)
Definition selectionMap (selections : list Selection.t)
  : gmap string (list Selection.t) :=
  fold_left
    (fun (selectionMap : gmap string (list Selection.t)) sel =>
       <[Selection.course_id sel :=
           default [] (selectionMap !! Selection.course_id sel) ++ [sel]]>
         selectionMap)
    selections ∅.

(** The row of one selection of an Additional Course module;
    its [ects] is [sel.ects || course.ects]. *)
Definition selection_row (l : Listing) (sel : Selection.t) : Row :=
  {| listing := l;
     ects := match Selection.ects sel with
             | Some n => if Z.eqb n 0 then Course.ects (course l) else Some n
             | None => Course.ects (course l)
             end;
     status := Selection.status sel;
     completed := is_completed sel;
     selection_id := Some (Selection.selection_id sel);
     remaining_ects := None;
     planned_ects := None |}.

(** The catalog row of an Additional Course module with credit left. *)
Definition available_row (l : Listing) (remaining plannedEcts : Z) : Row :=
  {| listing := l;
     ects := Course.ects (course l);
     status := "";
     completed := false;
     selection_id := None;
     remaining_ects := Some remaining;
     planned_ects := Some plannedEcts |}.

(** The row of a regular course, [sel] being [courseSelections[0]]. *)
Definition regular_row (l : Listing) (sel : option Selection.t) : Row :=
  {| listing := l;
     ects := Course.ects (course l);
     status := match sel with
               | Some s => Selection.status s
               | None => ""
               end;
     completed := match sel with
                  | Some s => is_completed s
                  | None => false
                  end;
     selection_id := match sel with
                     | Some s =>
                         if Js.truthy (Some (Selection.selection_id s))
                         then Some (Selection.selection_id s) else None
                     | None => None
                     end;
     remaining_ects := None;
     planned_ects := None |}.

(** The body of the loop over the catalog. *)
Definition rows_of (selectionMap : gmap string (list Selection.t))
    (l : Listing) : list Row :=
  let courseSelections :=
    default [] (selectionMap !! Course.id (course l)) in
  if Course.is_additional_course (course l)
  then
    let plannedEcts :=
      fold_left (fun sum s => sum + Js.num_or (Selection.ects s) 0)
        courseSelections 0 in
    let remaining := cap (course l) - plannedEcts in
    map (selection_row l) courseSelections
    ++ (if Z.gtb remaining 0
        then [available_row l remaining plannedEcts] else [])
  else [regular_row l (head courseSelections)].

Definition merged (listings : list Listing)
    (selections : list Selection.t) : list Row :=
  flat_map (rows_of (selectionMap selections)) listings.

(** The test of the text filter, [q] being the query in lower case;
    [None] when it reads a text that is missing. *)
Definition matches_query (q : string) (c : Row) : option bool :=
  match title (listing c) with
  | None => None
  | Some t =>
      if Text.includes (Text.toLowerCase t) q then Some true
      else
        match code (listing c) with
        | None => None
        | Some k =>
            if Text.includes (Text.toLowerCase k) q then Some true
            else
              match professor (listing c) with
              | None => None
              | Some p => Some (Text.includes (Text.toLowerCase p) q)
              end
        end
  end.

Fixpoint filter_query (q : string) (rows : list Row)
  : option (list Row) :=
  match rows with
  | [] => Some []
  | c :: rest =>
      match matches_query q c with
      | None => None
      | Some keep =>
          match filter_query q rest with
          | None => None
          | Some kept => Some (if keep then c :: kept else kept)
          end
      end
  end.

(** [this.filters.areas.includes(c.area_id)]. *)
Definition in_areas (areas : list string) (c : Row) : bool :=
  match Course.area_id (course (listing c)) with
  | Some a => existsb (String.eqb a) areas
  | None => false
  end.

(** The property of a row a sort key names, with the kind of value it
    holds. *)
Inductive field :=
| StringField (get : Row -> option string)
| NumberField (get : Row -> option Z)
| BooleanField (get : Row -> bool).

Definition field_of (sortKey : string) : option field :=
  if String.eqb sortKey "title"
  then Some (StringField (fun c => title (listing c)))
  else if String.eqb sortKey "code"
  then Some (StringField (fun c => code (listing c)))
  else if String.eqb sortKey "professor"
  then Some (StringField (fun c => professor (listing c)))
  else if String.eqb sortKey "id"
  then Some (StringField (fun c => Some (Course.id (course (listing c)))))
  else if String.eqb sortKey "area_id"
  then Some (StringField (fun c => Course.area_id (course (listing c))))
  else if String.eqb sortKey "status"
  then Some (StringField (fun c => Some (status c)))
  else if String.eqb sortKey "selection_id"
  then Some (StringField selection_id)
  else if String.eqb sortKey "ects"
  then Some (NumberField ects)
  else if String.eqb sortKey "max_ects"
  then Some (NumberField (fun c => Course.max_ects (course (listing c))))
  else if String.eqb sortKey "remaining_ects"
  then Some (NumberField remaining_ects)
  else if String.eqb sortKey "planned_ects"
  then Some (NumberField planned_ects)
  else if String.eqb sortKey "completed"
  then Some (BooleanField completed)
  else if String.eqb sortKey "is_additional_course"
  then Some (BooleanField
               (fun c => Course.is_additional_course (course (listing c))))
  else None.

(** [aVal < bVal] for [aVal = a[sortKey] || ''] and [bVal] alike, texts
    in lower case. A missing, empty, zero or false value is the empty
    string, which compares as [0] with a number and with [true]. *)
Definition less (f : field) (a b : Row) : bool :=
  match f with
  | StringField get =>
      String.ltb (Text.toLowerCase (default "" (get a)))
        (Text.toLowerCase (default "" (get b)))
  | NumberField get => Z.ltb (Js.num_or (get a) 0) (Js.num_or (get b) 0)
  | BooleanField get => Z.ltb (Z.b2z (get a)) (Z.b2z (get b))
  end.

(** The comparison function handed to [sort]. *)
Definition compare_rows (f : field) (sortDir : Z) (a b : Row) : Z :=
  if less f a b then -1 * sortDir
  else if less f b a then 1 * sortDir
  else 0.

(** [Array.prototype.sort] is stable, and the comparison function
    orders the rows by their values under the key; the outcome is the
    one of a stable insertion sort. *)
Fixpoint insert_row (cmp : Row -> Row -> Z) (c : Row) (sorted : list Row)
  : list Row :=
  match sorted with
  | [] => [c]
  | d :: rest =>
      if Z.leb (cmp c d) 0 then c :: sorted
      else d :: insert_row cmp c rest
  end.

Definition sort_rows (cmp : Row -> Row -> Z) (rows : list Row) : list Row :=
  fold_right (insert_row cmp) [] rows.

Definition ascii_or_missing (x : option string) : bool :=
  match x with
  | Some s => Text.is_ascii s
  | None => true
  end.

(** The getter is followed where the course ids are keys the object
    [selectionMap] has no inherited property for, and the strings it
    compares are ASCII. *)
Definition modelled (listings : list Listing)
    (selections : list Selection.t) (filters : Filters) : bool :=
  forallb
    (fun l =>
       Text.plain_key (Course.id (course l))
       && Text.is_ascii (Course.id (course l))
       && ascii_or_missing (Course.area_id (course l))
       && ascii_or_missing (title l)
       && ascii_or_missing (code l)
       && ascii_or_missing (professor l))
    listings
  && forallb
       (fun s =>
          Text.plain_key (Selection.course_id s)
          && Text.is_ascii (Selection.course_id s)
          && Text.is_ascii (Selection.status s)
          && Text.is_ascii (Selection.selection_id s))
       selections
  && Text.is_ascii (q filters).

(** [get courses()]. *)
Definition courses (listings : list Listing)
    (selections : list Selection.t) (filters : Filters) (sort : Sort)
  : outcome (list Row) :=
  if negb (modelled listings selections filters) then Unmodelled
  else
    match field_of (sort_by sort) with
    | None => Unmodelled
    | Some f =>
        let result := merged listings selections in
        match (if Js.truthy (Some (q filters))
               then filter_query (Text.toLowerCase (q filters)) result
               else Some result) with
        | None => Throws
        | Some result =>
            let result :=
              if Nat.ltb 0 (length (areas filters))
              then List.filter (in_areas (areas filters)) result
              else result in
            let sortDir := if String.eqb (dir sort) "desc" then -1 else 1 in
            Returns (sort_rows (compare_rows f sortDir) result)
        end
    end.



(** [setAreaOnly(areaId)] and [clearAreas()]. *)
Definition setAreaOnly (areaId : string) (filters : Filters) : Filters :=
  if existsb (String.eqb areaId) (areas filters)
  then {| q := q filters; areas := [] |}
  else {| q := q filters; areas := [areaId] |}.

Definition clearAreas (filters : Filters) : Filters :=
  {| q := q filters; areas := [] |}.

Definition collapsed_of (s : section) (collapsedAreas : Collapsed)
  : list string :=
  match s with
  | PlannedSection => planned collapsedAreas
  | CatalogSection => catalog_areas collapsedAreas
  end.

(** [arr.splice(arr.indexOf(areaId), 1)] where [areaId] is in [arr]. *)
Fixpoint remove_first (areaId : string) (arr : list string) : list string :=
  match arr with
  | [] => []
  | a :: rest =>
      if String.eqb a areaId then rest else a :: remove_first areaId rest
  end.

(** [toggleAreaCollapse(section, areaId)], for the two sections
    [collapsedAreas] has. *)
Definition toggleAreaCollapse (s : section) (areaId : string)
    (collapsedAreas : Collapsed) : Collapsed :=
  let arr := collapsed_of s collapsedAreas in
  let arr' :=
    if existsb (String.eqb areaId) arr
    then remove_first areaId arr else arr ++ [areaId] in
  match s with
  | PlannedSection =>
      {| planned := arr'; catalog_areas := catalog_areas collapsedAreas |}
  | CatalogSection =>
      {| planned := planned collapsedAreas; catalog_areas := arr' |}
  end.

(** [isAreaCollapsed(section, areaId)]. *)
Definition isAreaCollapsed (s : section) (areaId : string)
    (collapsedAreas : Collapsed) : bool :=
  existsb (String.eqb areaId) (collapsed_of s collapsedAreas).
(** *** Predicates on the rows *)

(** The row passes the filters that are set. *)
Definition shown (filters : Filters) (c : Row) : bool :=
  (if Js.truthy (Some (q filters))
   then match matches_query (Text.toLowerCase (q filters)) c with
        | Some keep => keep
        | None => false
        end
   else true)
  && (if Nat.ltb 0 (length (areas filters))
      then in_areas (areas filters) c else true).

Definition direction (descending : bool) : Z :=
  if descending then -1 else 1.

End View.

(** ** Sample data for the course list *)

Module SampleView.
Import View.

Definition data_mining : Listing :=
  {| course := Sample.fixed1;
     title := Some "Data Mining";
     code := Some "IE 500";
     professor := Some "Bizer" |}.
Definition algorithmics : Listing :=
  {| course := Sample.fixed2;
     title := Some "Algorithmics";
     code := Some "CS 560";
     professor := Some "Krause" |}.
Definition additional_course : Listing :=
  {| course := Sample.additional;
     title := Some "Additional Course";
     code := Some "AC";
     professor := Some "" |}.

Definition listings : list Listing :=
  [data_mining; algorithmics; additional_course].

(** The filters and the sort the component starts with. *)
Definition no_filters : Filters := {| q := ""; areas := [] |}.
Definition by_title : Sort := {| sort_by := "title"; dir := "asc" |}.


(** The list of the page for the store [Sample.mixed]. *)
Definition listed : list Row :=
  [selection_row additional_course Sample.sel_ac;
   available_row additional_course 8 10;
   regular_row algorithmics (Some Sample.sel2);
   regular_row data_mining (Some Sample.sel1)].

(** The state of the component with the two regular courses and the
    Additional Course module as catalog. *)
Definition mixed : Planner.State :=
  {| Planner.catalog := map course listings;
     Planner.rules := Planner.rules Sample.fresh;
     Planner.selections := [Sample.sel1; Sample.sel2; Sample.sel_ac];
     Planner.additionalCourseEcts := ∅;
     Planner.localStorage := ∅ |}.
End SampleView.

(** * Properties *)

(** ** [JSON.parse] reads back what [JSON.stringify] writes *)

Section JsonRoundTrip.
Import Json JsonText.

Lemma skip_ws_blank ws l : blank ws -> skip_ws (ws ++ l) = skip_ws l.
Proof.
  unfold blank. induction ws as [|c ws IH]; simpl; [reflexivity|].
  intros H. apply andb_prop in H as [Hc Hws]. rewrite Hc. auto.
Qed.

Lemma blank_newline gap indent : blank (newline gap indent).
Proof.
  unfold blank, newline. destruct (Nat.eqb gap 0); [reflexivity|].
  simpl. induction indent; simpl; auto.
Qed.

Lemma parse_chars_escape c r :
  parse_chars (escape c ++ r) = prepend [c] (parse_chars r).
Proof.
  destruct c as [[] [] [] [] [] [] [] []]; reflexivity.
Qed.

Lemma parse_chars_quoted l rest :
  parse_chars (flat_map escape l ++ dquote :: rest) = Ok (l, rest).
Proof.
  induction l as [|c l IH]; [reflexivity|].
  cbn [flat_map]. rewrite <- app_assoc, parse_chars_escape, IH.
  reflexivity.
Qed.

Lemma parse_string_quoted s rest :
  parse_string (flat_map escape (chars s) ++ dquote :: rest) = Ok (s, rest).
Proof.
  unfold parse_string. rewrite parse_chars_quoted. cbn [bind].
  unfold chars. now rewrite string_of_list_ascii_of_string.
Qed.

Lemma uint_chars_digits d :
  forallb is_digit (chars (NilEmpty.string_of_uint d)) = true.
Proof. induction d; simpl; auto. Qed.

Lemma delimited_not_digit c l : delimited (c :: l) -> is_digit c = false.
Proof.
  unfold delimited, continues_number. intros H.
  repeat (apply orb_false_elim in H as [H _]). exact H.
Qed.

Lemma delimited_no_fraction l : delimited l -> fraction_follows l = false.
Proof.
  destruct l as [|c l]; [reflexivity|]. unfold delimited, continues_number.
  cbn [fraction_follows]. intros H.
  apply orb_false_elim in H as [H He2].
  apply orb_false_elim in H as [H He1].
  apply orb_false_elim in H as [_ Hd].
  now rewrite Hd, He1, He2.
Qed.

Lemma span_digits_app ds rest :
  forallb is_digit ds = true -> delimited rest ->
  span_digits (ds ++ rest) = (ds, rest).
Proof.
  intros Hds Hrest. induction ds as [|c ds IH].
  - destruct rest as [|c rest]; [reflexivity|].
    simpl. now rewrite (delimited_not_digit _ _ Hrest).
  - simpl in *. apply andb_prop in Hds as [Hc Hds].
    rewrite Hc, (IH Hds). reflexivity.
Qed.

Lemma parse_unsigned_written d rest :
  normal d -> delimited rest ->
  parse_unsigned (chars (NilEmpty.string_of_uint d) ++ rest)
  = Ok (N.of_uint d, rest).
Proof.
  intros [Hnil Hzero] Hrest. unfold parse_unsigned.
  rewrite span_digits_app by auto using uint_chars_digits.
  rewrite (delimited_no_fraction _ Hrest).
  unfold chars. rewrite string_of_list_ascii_of_string, NilEmpty.usu.
  destruct d; try congruence; try reflexivity.
  rewrite (Hzero d eq_refl). reflexivity.
Qed.

Lemma normal_zero : normal zero.
Proof. split; [discriminate|]. intros d' [= <-]. reflexivity. Qed.

Lemma normal_to_uint p : normal (Pos.to_uint p).
Proof.
  split; [apply DecimalPos.Unsigned.to_uint_nonnil|].
  intros d' E.
  assert (Hn : unorm (Pos.to_uint p) = Pos.to_uint p).
  { rewrite <- DecimalPos.Unsigned.to_of, DecimalPos.Unsigned.of_to.
    reflexivity. }
  rewrite E, unorm_D0 in Hn. unfold unorm in Hn.
  destruct (nzhead d') eqn:Hz;
    try (exfalso; apply (nzhead_nonzero d' d'); congruence).
  injection Hn as <-. reflexivity.
Qed.

Lemma parse_number_written z rest :
  delimited rest ->
  parse_number (chars (Js.string_of_Z z) ++ rest) = Ok (z, rest).
Proof.
  intros Hrest. unfold Js.string_of_Z.
  destruct z as [|p|p]; cbn [Z.to_int NilZero.string_of_int].
  - change (chars (NilZero.string_of_uint (N.to_uint 0)))
      with (chars (NilEmpty.string_of_uint zero)).
    pose proof (parse_unsigned_written zero rest normal_zero Hrest) as H.
    unfold parse_number. cbn in *. rewrite H. reflexivity.
  - pose proof (normal_to_uint p) as Hn.
    pose proof (parse_unsigned_written _ rest Hn Hrest) as H.
    rewrite DecimalPos.Unsigned.of_to in H.
    unfold NilZero.string_of_uint.
    destruct (Pos.to_uint p) eqn:E; try (destruct Hn; congruence);
      cbn in *; rewrite H; reflexivity.
  - pose proof (normal_to_uint p) as Hn.
    pose proof (parse_unsigned_written _ rest Hn Hrest) as H.
    rewrite DecimalPos.Unsigned.of_to in H.
    unfold NilZero.string_of_uint.
    destruct (Pos.to_uint p) eqn:E; try (destruct Hn; congruence);
      cbn in *; rewrite H; reflexivity.
Qed.

Lemma skip_ws_idem l : skip_ws (skip_ws l) = skip_ws l.
Proof.
  induction l as [|c l IH]; [reflexivity|].
  simpl. destruct (is_ws c) eqn:E; [exact IH|]. simpl. now rewrite E.
Qed.

Lemma parse_value_skip f l : parse_value f (skip_ws l) = parse_value f l.
Proof. destruct f; [reflexivity|]. cbn [parse_value]. now rewrite skip_ws_idem. Qed.

Lemma parse_value_blank f ws l :
  blank ws -> parse_value f (ws ++ l) = parse_value f l.
Proof.
  intros H. rewrite <- parse_value_skip, skip_ws_blank by exact H.
  apply parse_value_skip.
Qed.

Lemma parse_members_skip f l : parse_members f (skip_ws l) = parse_members f l.
Proof. destruct f; [reflexivity|]. cbn [parse_members]. now rewrite skip_ws_idem. Qed.

Lemma parse_members_blank f ws l :
  blank ws -> parse_members f (ws ++ l) = parse_members f l.
Proof.
  intros H. rewrite <- parse_members_skip, skip_ws_blank by exact H.
  apply parse_members_skip.
Qed.

Lemma parse_items_blank f ws l :
  blank ws -> parse_items f (ws ++ l) = parse_items f l.
Proof.
  intros H. destruct f; [reflexivity|]. cbn [parse_items].
  now rewrite parse_value_blank.
Qed.

Lemma parse_value_number f c l :
  Ascii.eqb c "-" || is_digit c = true ->
  parse_value (S f) (c :: l)
  = bind (parse_number (c :: l)) (fun '(z, rest) => Ok (Num z, rest)).
Proof.
  destruct c as [[] [] [] [] [] [] [] []]; intros H;
    try discriminate H; reflexivity.
Qed.

Lemma number_head z :
  exists c l, chars (Js.string_of_Z z) = c :: l /\
              Ascii.eqb c "-" || is_digit c = true.
Proof.
  unfold Js.string_of_Z. destruct z as [|p|p].
  - eexists _, _. split; reflexivity.
  - cbn [Z.to_int NilZero.string_of_int]. unfold NilZero.string_of_uint.
    pose proof (DecimalPos.Unsigned.to_uint_nonnil p).
    destruct (Pos.to_uint p); try congruence;
      eexists _, _; split; reflexivity.
  - eexists _, _. split; reflexivity.
Qed.

Lemma continue_app sep close parts rest :
  continue sep close parts ++ rest = continue sep (close ++ rest) parts.
Proof.
  induction parts as [|p ps IH]; [reflexivity|].
  cbn [continue]. now rewrite <- !app_assoc, IH.
Qed.

Lemma blank_delimited ws c rest :
  blank ws -> continues_number c = false -> delimited (ws ++ c :: rest).
Proof.
  destruct ws as [|w ws]; [auto|]. unfold blank. cbn.
  intros H _. apply andb_prop in H as [H _]. revert H.
  destruct w as [[] [] [] [] [] [] [] []]; intros H;
    try discriminate H; reflexivity.
Qed.

Lemma blank_colon gap : exists ws, colon gap = ":"%char :: ws /\ blank ws.
Proof.
  unfold colon. destruct (Nat.eqb gap 0); eexists; split; reflexivity.
Qed.

Lemma size_pos v : (1 <= size v)%nat.
Proof. destruct v; simpl; lia. Qed.

Lemma reads_items_step f :
  reads_values f -> reads_items f -> reads_items (S f).
Proof.
  intros HV HI xs x gap inner ws1 ws2 rest Hsize B1 B2.
  cbn [map list_sum] in Hsize. cbn [parse_items].
  destruct xs as [|y ys]; cbn [map continue].
  - rewrite HV; [|cbn in Hsize; lia|apply blank_delimited; auto].
    cbn [bind]. rewrite skip_ws_blank by exact B2. reflexivity.
  - rewrite HV; [|cbn in Hsize |- *; lia|reflexivity].
    cbn [bind app skip_ws]. change (is_ws ",") with false. cbv iota.
    change (Ascii.eqb "," ",") with true. cbv iota.
    rewrite parse_items_blank by exact B1.
    rewrite HI; [reflexivity| |exact B1|exact B2].
    unfold list_sum in *. cbn [map fold_right] in *. lia.
Qed.

Lemma reads_members_step f :
  reads_values f -> reads_members f -> reads_members (S f).
Proof.
  intros HV HM xs [k x] gap inner ws1 ws2 rest Hsize B1 B2.
  cbn [map list_sum snd] in Hsize. cbn [parse_members].
  unfold member_text at 1. cbn [fst snd]. unfold quote.
  cbn [app skip_ws]. change (is_ws dquote) with false. cbv iota.
  change (Ascii.eqb dquote dquote) with true. cbv iota.
  rewrite <- !app_assoc. cbn [app]. rewrite parse_string_quoted.
  cbn [bind]. destruct (blank_colon gap) as (ws3 & -> & B3).
  cbn [app skip_ws]. change (is_ws ":") with false. cbv iota.
  change (Ascii.eqb ":" ":") with true. cbv iota.
  rewrite parse_value_blank by exact B3.
  destruct xs as [|[k' y] ys]; cbn [map continue].
  - rewrite HV; [|cbn in Hsize; lia|apply blank_delimited; auto].
    cbn [bind]. rewrite skip_ws_blank by exact B2. reflexivity.
  - rewrite HV; [|cbn in Hsize |- *; lia|reflexivity].
    cbn [bind app skip_ws]. change (is_ws ",") with false. cbv iota.
    change (Ascii.eqb "," ",") with true. cbv iota.
    rewrite parse_members_blank by exact B1.
    rewrite HM; [reflexivity| |exact B1|exact B2].
    unfold list_sum in *. cbn [map fold_right snd] in *. lia.
Qed.

Lemma write_head_not_close gap indent v rest :
  exists c l, skip_ws (write gap indent v ++ rest) = c :: l /\
              Ascii.eqb c "]" = false /\ Ascii.eqb c "}" = false /\
              c :: l = write gap indent v ++ rest.
Proof.
  destruct v as [|[]|z|s|[|x xs]|[|[k x] xs]];
    try (eexists _, _; repeat split; reflexivity).
  destruct (number_head z) as (c & l & E & H). cbn [write]. rewrite E.
  exists c, (l ++ rest). revert H.
  destruct c as [[] [] [] [] [] [] [] []]; intros H;
    try discriminate H; repeat split; reflexivity.
Qed.

Lemma write_object gap indent k x xs rest :
  write gap indent (Obj ((k, x) :: xs)) ++ rest
  = "{"%char :: newline gap (indent + gap) ++
    quote k ++ colon gap ++ write gap (indent + gap) x ++
    continue (","%char :: newline gap (indent + gap))
      (newline gap indent ++ "}"%char :: rest)
      (map (member_text gap (indent + gap)) xs).
Proof.
  cbn [write app]. rewrite <- !app_assoc, continue_app, <- app_assoc.
  reflexivity.
Qed.

Lemma parse_value_object f ws k l :
  blank ws ->
  parse_value (S f) ("{"%char :: ws ++ quote k ++ l)
  = bind (parse_members f (quote k ++ l))
      (fun '(ms, rest) => Ok (Obj ms, rest)).
Proof.
  intros B. remember (quote k ++ l) as t eqn:Et.
  assert (exists t', t = dquote :: t') as [t' ->]
    by (subst t; eexists; reflexivity).
  change (parse_value (S f) ("{"%char :: ?r))
    with (match skip_ws r with
          | c' :: r' =>
              if Ascii.eqb c' "}" then Ok (Obj [], r')
              else bind (parse_members f r)
                     (fun '(ms, rest) => Ok (Obj ms, rest))
          | [] => SyntaxError
          end).
  rewrite skip_ws_blank by exact B. cbn [skip_ws].
  change (is_ws dquote) with false. cbv iota.
  change (Ascii.eqb dquote "}") with false. cbv iota.
  now rewrite parse_members_blank.
Qed.

Lemma reads_values_step f :
  reads_values f -> reads_items f -> reads_members f ->
  reads_values (S f).
Proof.
  intros HV HI HM v gap indent rest Hsize Hrest.
  destruct v as [|[]|z|s|[|x xs]|[|[k x] xs]]; try reflexivity.
  - cbn [write]. destruct (number_head z) as (c & l & E & H).
    pose proof (parse_number_written z rest Hrest) as Hn.
    rewrite E in *. cbn [app] in *.
    rewrite (parse_value_number _ _ _ H), Hn. reflexivity.
  - cbn [write]. unfold quote. cbn [app]. rewrite <- app_assoc. cbn [app].
    change (parse_value (S f) (dquote :: ?l))
      with (bind (parse_string l) (fun '(s, rest) => Ok (Str s, rest))).
    now rewrite parse_string_quoted.
  - cbn [write app]. rewrite <- !app_assoc, continue_app, <- app_assoc.
    cbn [app].
    change (parse_value (S f) ("["%char :: ?r))
      with (match skip_ws r with
            | c' :: r' =>
                if Ascii.eqb c' "]" then Ok (Arr [], r')
                else bind (parse_items f r)
                       (fun '(vs, rest) => Ok (Arr vs, rest))
            | [] => SyntaxError
            end).
    rewrite skip_ws_blank by apply blank_newline.
    destruct (write_head_not_close gap (indent + gap) x
                (continue (","%char :: newline gap (indent + gap))
                   (newline gap indent ++ "]"%char :: rest)
                   (map (write gap (indent + gap)) xs)))
      as (c & l & -> & -> & _ & _).
    rewrite parse_items_blank by apply blank_newline.
    rewrite HI; [reflexivity| |apply blank_newline|apply blank_newline].
    cbn [size] in Hsize. lia.
  - rewrite write_object, parse_value_object by apply blank_newline.
    pose proof (HM xs (k, x) gap (indent + gap)%nat
                  (newline gap (indent + gap)) (newline gap indent) rest)
      as H.
    unfold member_text at 1 in H. cbn [fst snd] in H.
    rewrite <- !app_assoc in H.
    rewrite H; [reflexivity| |apply blank_newline|apply blank_newline].
    cbn [size] in Hsize. lia.
Qed.

Lemma reads_all f : reads_values f /\ reads_items f /\ reads_members f.
Proof.
  induction f as [|f (HV & HI & HM)].
  - repeat split.
    + intros v ? ? ? H. pose proof (size_pos v). lia.
    + intros xs x ? ? ? ? ? H. cbn in H. lia.
    + intros xs x ? ? ? ? ? H. cbn in H. lia.
  - auto using reads_values_step, reads_items_step, reads_members_step.
Qed.

Lemma value_induction (P : value -> Prop) :
  P Null -> (forall b, P (Bool b)) -> (forall z, P (Num z)) ->
  (forall s, P (Str s)) ->
  (forall items, Forall P items -> P (Arr items)) ->
  (forall members, Forall (fun m => P (snd m)) members -> P (Obj members)) ->
  forall v, P v.
Proof.
  intros HN HB HZ HS HA HO. fix IH 1.
  intros [|b|z|s|items|members];
    [exact HN|apply HB|apply HZ|apply HS|apply HA|apply HO].
  - induction items as [|x xs IHxs]; constructor; [apply IH|exact IHxs].
  - induction members as [|[k x] xs IHxs]; constructor;
      [apply IH|exact IHxs].
Qed.

Lemma continue_bound {A} (text : A -> list ascii) (sz : A -> nat)
    sep close (xs : list A) :
  Forall (fun x => sz x <= length (text x))%nat xs ->
  (1 <= length sep)%nat -> (1 <= length close)%nat ->
  (S (list_sum (map (fun x => S (sz x)) xs))
   <= length (continue sep close (map text xs)))%nat.
Proof.
  intros H Hsep Hclose. induction H as [|x xs Hx _ IH]; cbn [map continue].
  - cbn. lia.
  - rewrite !length_app. unfold list_sum in *. cbn [fold_right]. lia.
Qed.

Lemma size_le_length v :
  forall gap indent, (size v <= length (write gap indent v))%nat.
Proof.
  induction v as [|[]|z|s|items IH|members IH] using value_induction;
    intros gap indent; try (cbn; lia).
  - pose proof (number_head z) as (c & l & E & _). cbn [write size].
    rewrite E. cbn. lia.
  - destruct items as [|x xs]; [cbn; lia|].
    apply Forall_cons_iff in IH as [Hx Hxs].
    cbn [write size map length]. rewrite !length_app.
    pose proof (continue_bound (write gap (indent + gap)) size
                  (","%char :: newline gap (indent + gap))
                  (newline gap indent ++ ["]"%char]) xs) as H.
    specialize (Hx gap (indent + gap)%nat).
    unfold list_sum in *. cbn [fold_right length] in *.
    enough (S (fold_right Nat.add 0%nat (map (fun x => S (size x)) xs))
            <= length (continue (","%char :: newline gap (indent + gap))
                         (newline gap indent ++ ["]"%char])
                         (map (write gap (indent + gap)) xs)))%nat by lia.
    apply H; [|lia|rewrite length_app; cbn; lia].
    eapply Forall_impl; [exact Hxs|]. intros a Ha. apply Ha.
  - destruct members as [|[k x] xs]; [cbn; lia|].
    apply Forall_cons_iff in IH as [Hx Hxs]. cbn [snd] in Hx.
    cbn [write size map length snd]. rewrite !length_app.
    pose proof (continue_bound (member_text gap (indent + gap))
                  (fun m => size (snd m))
                  (","%char :: newline gap (indent + gap))
                  (newline gap indent ++ ["}"%char]) xs) as H.
    specialize (Hx gap (indent + gap)%nat).
    unfold list_sum in *. cbn [fold_right length] in *.
    enough (S (fold_right Nat.add 0%nat
                 (map (fun m => S (size (snd m))) xs))
            <= length (continue (","%char :: newline gap (indent + gap))
                         (newline gap indent ++ ["}"%char])
                         (map (member_text gap (indent + gap)) xs)))%nat
      by (unfold member_text in *; lia).
    apply H; [|lia|rewrite length_app; cbn; lia].
    eapply Forall_impl; [exact Hxs|]. intros [k' y] Ha. cbn [snd] in *.
    unfold member_text. cbn [fst snd]. rewrite !length_app.
    specialize (Ha gap (indent + gap)%nat). lia.
Qed.

Theorem parse_stringify gap v : parse (stringify gap v) = Ok v.
Proof.
  unfold parse, stringify, chars.
  rewrite list_ascii_of_string_of_list_ascii.
  destruct (reads_all (S (2 * length (write gap 0 v)))) as (HV & _ & _).
  specialize (HV v gap 0%nat [] ).
  rewrite app_nil_r in HV. rewrite HV; [reflexivity| |exact I].
  pose proof (size_le_length v gap 0%nat). lia.
Qed.
End JsonRoundTrip.

(** ** The primitives on a few inputs *)

Example parseInt_integer : Js.parseInt "10" = Some 10.
Proof. reflexivity. Qed.

Example parseInt_fraction : Js.parseInt "2.5" = Some 2.
Proof. reflexivity. Qed.

Example parseInt_trailing_text : Js.parseInt " 12 ECTS" = Some 12.
Proof. reflexivity. Qed.

Example parseInt_hexadecimal : Js.parseInt "-0x1f" = Some (-31).
Proof. reflexivity. Qed.

Example parseInt_not_a_number :
  Js.parseInt "abc" = None /\ Js.parseInt "" = None /\ Js.parseInt ".5" = None.
Proof. repeat split; reflexivity. Qed.

Example string_of_Z_signs :
  Js.string_of_Z (-120) = "-120" /\ Js.string_of_Z 0 = "0".
Proof. split; reflexivity. Qed.

Example parse_rejects :
  Json.parse "" = Json.SyntaxError
  /\ Json.parse "[1,]" = Json.SyntaxError
  /\ Json.parse "[01]" = Json.SyntaxError
  /\ Json.parse "nul" = Json.SyntaxError
  /\ Json.parse "{} x" = Json.SyntaxError.
Proof. repeat split; reflexivity. Qed.

Example parse_rejects_unfinished :
  Json.parse "[[1" = Json.SyntaxError
  /\ Json.parse "[[[[1" = Json.SyntaxError
  /\ Json.parse "{" = Json.SyntaxError.
Proof. repeat split; reflexivity. Qed.

Example parse_accepts :
  Json.parse " [1 ,-0, null ]  "
  = Json.Ok (Json.Arr [Json.Num 1; Json.Num 0; Json.Null]).
Proof. reflexivity. Qed.

Example parse_leaves_fractions : Json.parse "[1, 2.5]" = Json.Unmodelled.
Proof. reflexivity. Qed.

Example stringify_compact :
  Json.stringify 0 (Json.Arr [Json.Num 1; Json.Arr []; Json.Bool true])
  = "[1,[],true]".
Proof. reflexivity. Qed.

(** ** The store and its backing copy *)

Section Store.
Import Planner.

Lemma save_selections env st sels : selections (fst (save env st sels)) = sels.
Proof.
  unfold save, saveSelectionsToStorage.
  destruct (setItem_ok env); reflexivity.
Qed.

Lemma save_catalog env st sels : catalog (fst (save env st sels)) = catalog st.
Proof.
  unfold save, saveSelectionsToStorage.
  destruct (setItem_ok env); reflexivity.
Qed.

Lemma save_written env st sels :
  setItem_ok env = true ->
  localStorage (fst (save env st sels)) !! STORAGE_KEY
  = Some (Json.stringify 0 (storage_envelope env sels))
  /\ snd (save env st sels) = [].
Proof.
  intros H. unfold save, saveSelectionsToStorage. rewrite H.
  cbn [fst snd with_selections localStorage].
  split; [apply lookup_insert_eq|reflexivity].
Qed.

Lemma save_refused env st sels :
  setItem_ok env = false ->
  localStorage (fst (save env st sels)) = localStorage st
  /\ snd (save env st sels)
     = [ConsoleError "Failed to save selections to storage:";
        Alert SaveFailed].
Proof.
  intros H. unfold save, saveSelectionsToStorage. rewrite H.
  split; reflexivity.
Qed.

Lemma selection_of_to_json s : Selection.of_json (Selection.to_json s) = Some s.
Proof. destruct s as [c st sid [e|]]; reflexivity. Qed.

Lemma selections_of_to_json sels :
  Selection.list_of_json (map Selection.to_json sels) = Some sels.
Proof.
  induction sels as [|s sels IH]; [reflexivity|].
  cbn [map Selection.list_of_json].
  now rewrite selection_of_to_json, IH.
Qed.

(** The running total of [reduce] from any starting value. *)
Lemma sum_from (f : Selection.t -> Z) sels start :
  fold_left (fun sum s => sum + f s) sels start
  = start + fold_left (fun sum s => sum + f s) sels 0.
Proof.
  revert start. induction sels as [|s sels IH]; intros start; cbn [fold_left].
  - lia.
  - rewrite (IH (start + f s)), (IH (0 + f s)). lia.
Qed.

Lemma committed_app courseId l1 l2 :
  committed courseId (l1 ++ l2)
  = committed courseId l1 + committed courseId l2.
Proof.
  unfold committed. rewrite List.filter_app, fold_left_app.
  apply sum_from.
Qed.


(** What [addAdditionalCourse] does on a variable-credit course, case
    by case. *)
Lemma addAdditionalCourse_cases env courseId st course :
  find_course (catalog st) courseId = Some course ->
  Course.is_additional_course course = true ->
  match Js.parseInt (Js.to_string (entered st courseId)) with
  | None => addAdditionalCourse env courseId st = (st, [Alert EnterEcts])
  | Some ects =>
      if Z.ltb ects 1
      then addAdditionalCourse env courseId st = (st, [Alert EnterEcts])
      else
        let remaining := cap course - committed courseId (selections st) in
        if Z.gtb ects remaining
        then addAdditionalCourse env courseId st
             = (st, [Alert (MaxAvailable remaining)])
        else selections (fst (addAdditionalCourse env courseId st))
             = selections st ++
               [Selection.mk courseId "planned"
                  (generateSelectionId env) (Some ects)]
  end.
Proof.
  intros Hfind Hadd. unfold addAdditionalCourse. rewrite Hfind, Hadd.
  cbn [negb]. destruct (Js.parseInt _) as [ects|]; [|reflexivity].
  destruct (Z.ltb_spec ects 1) as [Hlt|Hge].
  - rewrite orb_true_r. reflexivity.
  - replace (Z.eqb ects 0) with false by (symmetry; apply Z.eqb_neq; lia).
    cbn [orb]. destruct (Z.gtb _ _); [reflexivity|].
    unfold saveSelectionsToStorage. destruct (setItem_ok env); reflexivity.
Qed.

End Store.

(** ** Planning a course that is already planned *)

Section Plan.
Import Planner.

Lemma existsb_references courseId sels :
  existsb (references courseId) sels = true
  <-> exists s, In s sels /\ Selection.course_id s = courseId.
Proof.
  rewrite existsb_exists. unfold references.
  split; intros (s & Hin & H); exists s; split; auto.
  - now apply String.eqb_eq.
  - now apply String.eqb_eq.
Qed.

Lemma existsb_references_false courseId sels :
  existsb (references courseId) sels = false
  <-> forall s, In s sels -> Selection.course_id s <> courseId.
Proof.
  split.
  - intros H s Hin E.
    assert (existsb (references courseId) sels = true) as H'
      by (apply existsb_references; eauto).
    congruence.
  - intros H. destruct (existsb _ _) eqn:E; [|reflexivity].
    apply existsb_references in E as (s & Hin & E').
    destruct (H s Hin E').
Qed.
End Plan.

(** C8. When some selection already references the fixed-credit course
    [courseId], [planCourse courseId] changes nothing: the component
    after the call is the component before it (store, storage and all),
    and nothing is shown or written. *)
Theorem plan_existing_is_noop env st courseId course :
  Planner.find_course (Planner.catalog st) courseId = Some course ->
  Course.is_additional_course course = false ->
  (exists s, In s (Planner.selections st) /\
             Selection.course_id s = courseId) ->
  Planner.planCourse env courseId st = (st, []).
Proof.
  intros Hfind _ Hsome. unfold Planner.planCourse. rewrite Hfind.
  apply existsb_references in Hsome. now rewrite Hsome.
Qed.

Lemma plan_existing_is_noop_witness :
  Planner.find_course (Planner.catalog Sample.two_fixed) "FIX1"
  = Some Sample.fixed1
  /\ Course.is_additional_course Sample.fixed1 = false
  /\ Planner.planCourse Sample.env "FIX1" Sample.two_fixed
     = (Sample.two_fixed, []).
Proof.
  split; [reflexivity|]. split; [reflexivity|].
  apply (plan_existing_is_noop Sample.env Sample.two_fixed "FIX1"
           Sample.fixed1).
  - reflexivity.
  - reflexivity.
  - exists Sample.sel1. split; [left; reflexivity|reflexivity].
Defined.

(** ** Removing by selection id *)

(** C10, as the claim words it, fails for the empty string, which is a
    non-null [selectionId] but a falsy one: [removeCourse "FIX2" ""]
    takes the branch that filters by [course_id] and so removes the
    selection of FIX2, whose [selection_id] is not the empty string. *)
Lemma remove_empty_id_removes_by_course :
  Planner.selections Sample.two_fixed = [Sample.sel1; Sample.sel2]
  /\ Planner.selections
       (fst (Planner.removeCourse Sample.env "FIX2" (Some "")
               Sample.two_fixed))
     = [Sample.sel1]
  /\ Spec.without_id "" (Planner.selections Sample.two_fixed)
     = [Sample.sel1; Sample.sel2].
Proof. repeat split; reflexivity. Qed.

(** C10 (amended). For a [selectionId] that is neither null nor the empty
    string, [removeCourse courseId selectionId] leaves in the store
    exactly the selections whose [selection_id] differs from it, each
    unchanged and in the order they had; [courseId] plays no part. *)
Theorem remove_by_selection_id env st courseId selectionId :
  selectionId <> "" ->
  let st' := fst (Planner.removeCourse env courseId (Some selectionId) st) in
  Planner.selections st' = Spec.without_id selectionId (Planner.selections st)
  /\ (forall s, In s (Planner.selections st') <->
                In s (Planner.selections st) /\
                Selection.selection_id s <> selectionId)
  /\ sublist (Planner.selections st') (Planner.selections st).
Proof.
  intros Hne st'.
  assert (E : Planner.selections st'
              = Spec.without_id selectionId (Planner.selections st)).
  { subst st'. unfold Planner.removeCourse. rewrite save_selections.
    unfold Js.truthy.
    replace (String.eqb selectionId "") with false
      by (symmetry; now apply String.eqb_neq).
    reflexivity. }
  rewrite E. unfold Spec.without_id. split; [reflexivity|split].
  - intros s. rewrite List.filter_In, negb_true_iff, String.eqb_neq.
    reflexivity.
  - clear E. induction (Planner.selections st) as [|s sels IH];
      cbn [List.filter].
    + constructor.
    + destruct (negb _); [apply sublist_skip|apply sublist_cons]; exact IH.
Qed.

Lemma remove_by_selection_id_witness :
  Selection.selection_id Sample.sel1 <> ""
  /\ Planner.selections
       (fst (Planner.removeCourse Sample.env "FIX2"
               (Some (Selection.selection_id Sample.sel1)) Sample.two_fixed))
     = [Sample.sel2].
Proof.
  split; [discriminate|].
  destruct (remove_by_selection_id Sample.env Sample.two_fixed "FIX2"
              (Selection.selection_id Sample.sel1)) as [H _];
    [discriminate|].
  rewrite H. reflexivity.
Defined.

(** ** Adding credit of an Additional Course module *)

Section AddAdditionalCourse.
Import Planner.

Lemma addAdditionalCourse_catalog env courseId st :
  catalog (fst (addAdditionalCourse env courseId st)) = catalog st.
Proof.
  unfold addAdditionalCourse.
  destruct (find_course _ _); [|reflexivity].
  destruct (negb _); [reflexivity|].
  destruct (Js.parseInt _); [|reflexivity].
  destruct (_ || _); [reflexivity|].
  destruct (Z.gtb _ _); [reflexivity|].
  unfold saveSelectionsToStorage. destruct (setItem_ok env); reflexivity.
Qed.

End AddAdditionalCourse.

(** C4, as the claim words it, fails for an amount that is not an
    integer: with [2.5] entered for the Additional Course module AC1,
    [parseInt] reads [2], no error is shown, and a selection of 2 ECTS is
    created. *)
Lemma add_truncates_fraction :
  Planner.entered Sample.entered_fraction "AC1" = Js.Text "2.5"
  /\ Planner.selections Sample.entered_fraction = []
  /\ snd (Planner.addAdditionalCourse Sample.env "AC1" Sample.entered_fraction)
     = []
  /\ Planner.selections
       (fst (Planner.addAdditionalCourse Sample.env "AC1"
               Sample.entered_fraction))
     = [Selection.mk "AC1" "planned" "sel_1700000000000_k3j2h1g0f" (Some 2)].
Proof. repeat split; reflexivity. Qed.

(** C4 (amended). On an Additional Course module, [addAdditionalCourse]
    shows the "enter ECTS" error and leaves the component unchanged
    whenever [parseInt] of the entered amount is [NaN] (in particular
    when nothing was entered) or is less than 1; and the store changes
    only when [parseInt] reads an integer of at least 1, in which case
    exactly one selection carrying that integer is appended. The amount
    is not required to be an integer: [parseInt] keeps its leading
    integer. *)
Theorem add_validates_entered_amount env st courseId course :
  Planner.find_course (Planner.catalog st) courseId = Some course ->
  Course.is_additional_course course = true ->
  let amount := Js.parseInt (Js.to_string (Planner.entered st courseId)) in
  let result := Planner.addAdditionalCourse env courseId st in
  (amount = None \/ (exists e, amount = Some e /\ e < 1) ->
   result = (st, [Planner.Alert Planner.EnterEcts]))
  /\ (Planner.selections (fst result) <> Planner.selections st ->
      exists e, amount = Some e /\ 1 <= e /\
        Planner.selections (fst result)
        = Planner.selections st ++
          [Selection.mk courseId "planned"
             (Planner.generateSelectionId env) (Some e)])
  /\ Js.parseInt (Js.to_string Js.Undefined) = None
  /\ Js.parseInt (Js.to_string Js.Null) = None
  /\ Js.parseInt (Js.to_string (Js.Text "")) = None.
Proof.
  intros Hfind Hadd amount result.
  pose proof (addAdditionalCourse_cases env courseId st course
                Hfind Hadd) as H.
  fold amount result in H.
  repeat split; try reflexivity.
  - intros [E|(e & E & He)]; rewrite E in H; [exact H|].
    apply Z.ltb_lt in He. now rewrite He in H.
  - intros Hchg. destruct amount as [e|].
    + exists e. destruct (Z.ltb_spec e 1) as [Hlt|Hge].
      * rewrite H in Hchg. now destruct Hchg.
      * cbv zeta in H. destruct (Z.gtb _ _).
        -- rewrite H in Hchg. now destruct Hchg.
        -- auto.
    + rewrite H in Hchg. now destruct Hchg.
Qed.

Lemma add_validates_entered_amount_witness :
  Planner.find_course (Planner.catalog Sample.fresh) "AC1"
  = Some Sample.additional
  /\ Course.is_additional_course Sample.additional = true
  /\ Planner.addAdditionalCourse Sample.env "AC1" Sample.fresh
     = (Sample.fresh, [Planner.Alert Planner.EnterEcts]).
Proof.
  split; [reflexivity|]. split; [reflexivity|].
  apply (add_validates_entered_amount Sample.env Sample.fresh "AC1"
           Sample.additional eq_refl eq_refl).
  left. reflexivity.
Defined.




(** ** Credit summary *)

Section Summary.
Import Planner.

Lemma summary_loop courses sels plannedEcts completedEcts :
  fold_left (tally courses) sels (plannedEcts, completedEcts)
  = (plannedEcts + fold_right Z.add 0 (map (credit courses) sels),
     completedEcts +
     fold_right Z.add 0
       (map (credit courses) (List.filter is_completed sels))).
Proof.
  revert plannedEcts completedEcts.
  induction sels as [|s sels IH]; intros p c; cbn [fold_left].
  - cbn. f_equal; lia.
  - unfold tally at 2. rewrite IH. cbn [List.filter map fold_right].
    destruct (is_completed s); cbn [map fold_right]; f_equal; lia.
Qed.

Lemma summary_fields st :
  planned_ects (summary st)
  = fold_right Z.add 0 (map (credit (catalog st)) (selections st))
  /\ completed_ects (summary st)
     = fold_right Z.add 0
         (map (credit (catalog st))
            (List.filter is_completed (selections st)))
  /\ progress (summary st)
     = (inject_Z (planned_ects (summary st)) / inject_Z 120)%Q.
Proof.
  unfold summary. rewrite summary_loop. cbn [planned_ects completed_ects progress].
  repeat split; reflexivity.
Qed.

Lemma credit_effective courses sel :
  Selection.ects sel <> Some 0 ->
  credit courses sel = Spec.effective_credit courses sel.
Proof.
  unfold credit, Spec.effective_credit, Js.num_or.
  destruct (Selection.ects sel) as [e|].
  - intros H. destruct (Z.eqb_spec e 0) as [->|_]; [now destruct H|].
    reflexivity.
  - intros _. destruct (find_course _ _) as [course|]; [|reflexivity].
    destruct (Course.ects course) as [n|]; [|reflexivity].
    cbn [default]. destruct (Z.eqb_spec n 0) as [->|_]; reflexivity.
Qed.

Lemma total_effective courses sels :
  (forall s, In s sels -> Selection.ects s <> Some 0) ->
  fold_right Z.add 0 (map (credit courses) sels) = Spec.total courses sels.
Proof.
  unfold Spec.total. induction sels as [|s sels IH]; intros H;
    [reflexivity|].
  cbn [map fold_right].
  rewrite credit_effective by (apply H; left; reflexivity).
  rewrite IH; [reflexivity|]. intros s' Hs'. apply H. right. exact Hs'.
Qed.
End Summary.

(** C5, as the claim words it, fails for a selection whose [ects] is
    [0]: the code treats [0] like a missing value and counts the 6 ECTS
    of the course, where the claim's sum counts [0]. *)
Lemma zero_ects_counts_as_course_ects :
  Planner.selections Sample.zero_credit = [Sample.sel_zero]
  /\ Spec.all_resolve (Planner.catalog Sample.zero_credit)
       (Planner.selections Sample.zero_credit)
  /\ Planner.planned_ects (Planner.summary Sample.zero_credit) = 6
  /\ Spec.planned_ects (Planner.catalog Sample.zero_credit)
       (Planner.selections Sample.zero_credit) = 0.
Proof.
  split; [reflexivity|]. split; [|split; reflexivity].
  intros sel [<-|[]]. exists Sample.fixed1. reflexivity.
Qed.

(** C5 (amended). For every catalog and every selection list whose
    [course_id]s all reference catalog courses and whose [ects] values
    are null or non-zero, [summary.planned_ects] is the sum of the
    effective credit over all selections, [summary.completed_ects] the
    same sum over the selections with status [completed], and
    [summary.progress] is [planned_ects / 120], which exceeds 1 exactly
    when more than 120 ECTS are planned. *)
Theorem summary_totals st :
  Spec.all_resolve (Planner.catalog st) (Planner.selections st) ->
  (forall s, In s (Planner.selections st) -> Selection.ects s <> Some 0) ->
  Planner.planned_ects (Planner.summary st)
  = Spec.planned_ects (Planner.catalog st) (Planner.selections st)
  /\ Planner.completed_ects (Planner.summary st)
     = Spec.completed_ects (Planner.catalog st) (Planner.selections st)
  /\ (Planner.progress (Planner.summary st)
      == inject_Z (Planner.planned_ects (Planner.summary st)) / inject_Z 120)%Q
  /\ ((1 < Planner.progress (Planner.summary st))%Q
      <-> 120 < Planner.planned_ects (Planner.summary st)).
Proof.
  intros _ Hnz. destruct (summary_fields st) as (Hp & Hc & Hq).
  split; [|split; [|split]].
  - rewrite Hp. now apply total_effective.
  - rewrite Hc. apply total_effective.
    intros s Hs. apply List.filter_In in Hs as [Hs _]. now apply Hnz.
  - rewrite Hq. reflexivity.
  - rewrite Hq. unfold Qlt, Qdiv, Qmult, Qinv, inject_Z. cbn. lia.
Qed.

Lemma summary_totals_witness :
  Spec.all_resolve (Planner.catalog Sample.mixed)
    (Planner.selections Sample.mixed)
  /\ (forall s, In s (Planner.selections Sample.mixed) ->
                Selection.ects s <> Some 0)
  /\ Planner.planned_ects (Planner.summary Sample.mixed)
     = Spec.planned_ects (Planner.catalog Sample.mixed)
         (Planner.selections Sample.mixed).
Proof.
  assert (H1 : Spec.all_resolve (Planner.catalog Sample.mixed)
                 (Planner.selections Sample.mixed)).
  { intros sel [<-|[<-|[<-|[]]]]; eexists; reflexivity. }
  assert (H2 : forall s, In s (Planner.selections Sample.mixed) ->
                         Selection.ects s <> Some 0).
  { intros sel [<-|[<-|[<-|[]]]]; discriminate. }
  split; [exact H1|]. split; [exact H2|].
  apply (summary_totals Sample.mixed H1 H2).
Defined.

(** ** Progress per area *)

(** C6, as the claim words it, fails for an area whose [min_ects] is
    negative or lies between 0 and 1: the guard [min_ects || 1] replaces
    only a missing or zero minimum. With a minimum of [-5] the divisor
    is [-5] (and the 14 planned ECTS of the area give a progress of
    [-14/5]); with a minimum of a half the divisor is a half. *)
Lemma negative_minimum_is_the_divisor :
  Planner.divisor Sample.area_neg = inject_Z (-5)
  /\ option_map
       (map (fun entry => (Planner.area_planned_ects entry,
                           Planner.area_progress_value entry)))
       (Planner.area_progress
          (Sample.under_negative_rule [Sample.sel1; Sample.sel2]))
     = Some [(14, Qmin 1 (inject_Z 14 / inject_Z (-5)))]
  /\ (Qmin 1 (inject_Z 14 / inject_Z (-5)) == -14 # 5)%Q
  /\ Planner.divisor Sample.area_half = (1 # 2)%Q
  /\ (1 # 2 < 1)%Q.
Proof. repeat split; reflexivity. Qed.

(** C6 (amended). Where [area_progress] is followed (no area key names
    a member of [Object.prototype]), every entry has a progress of at
    most 1, however far the planned credit exceeds the minimum: it is
    [min(1, planned_ects / divisor)] where the divisor is the area's
    [min_ects], replaced by 1 when [min_ects] is missing or zero. The
    divisor is never zero; it is [max(min_ects, 1)] when [min_ects] is
    zero or at least 1, and [min_ects] itself otherwise. *)
Theorem area_progress_capped st entries :
  Planner.area_progress st = Some entries ->
  (forall entry, In entry entries ->
     (Planner.area_progress_value entry <= 1)%Q
     /\ exists areas area,
          Planner.rules st = Some areas /\ In area areas /\
          Planner.area_progress_value entry
          = Qmin 1 (inject_Z (Planner.area_planned_ects entry)
                    / Planner.divisor area))
  /\ (forall area,
        ~ (Planner.divisor area == 0)%Q
        /\ (Area.min_ects area = None -> Planner.divisor area = 1%Q)
        /\ (forall m, Area.min_ects area = Some m ->
                      Planner.divisor area = if Qeq_bool m 0 then 1%Q else m)
        /\ (forall m, Area.min_ects area = Some m ->
                      (m == 0 \/ 1 <= m)%Q ->
                      (Planner.divisor area == Qmax m 1)%Q)).
Proof.
  intros Hrun. split.
  - intros entry Hin. unfold Planner.area_progress in Hrun.
    destruct (Planner.rules st) as [areas|] eqn:Hrules.
    2:{ injection Hrun as <-. destruct Hin. }
    destruct (forallb _ _); [|discriminate Hrun].
    injection Hrun as <-.
    apply in_map_iff in Hin as (area & <- & Harea).
    split; [apply Q.le_min_l|].
    exists areas, area. repeat split; assumption.
  - intros area. unfold Planner.divisor, Js.rat_or.
    destruct (Area.min_ects area) as [m|].
    + destruct (Qeq_bool m 0) eqn:Hm.
      * split; [intros H; discriminate H|]. split; [discriminate|].
        split; [intros m' [= <-]; now rewrite Hm|].
        intros m' [= <-] _. apply Qeq_bool_iff in Hm.
        symmetry. apply Q.max_r. rewrite Hm. discriminate.
      * split; [now apply Qeq_bool_neq|]. split; [discriminate|].
        split; [intros m' [= <-]; now rewrite Hm|].
        intros m' [= <-] [H0|H1].
        -- apply Qeq_bool_neq in Hm. now destruct Hm.
        -- symmetry. now apply Q.max_l.
    + split; [intros H; discriminate H|]. split; [reflexivity|].
      split; discriminate.
Qed.

Lemma area_progress_capped_witness :
  exists entries,
    Planner.area_progress Sample.mixed = Some entries
    /\ Forall (fun entry => (Planner.area_progress_value entry <= 1)%Q)
         entries
    /\ map Planner.area_planned_ects entries = [14; 10].
Proof.
  eexists. split; [reflexivity|]. split; [|reflexivity].
  apply List.Forall_forall. intros entry Hin.
  apply (area_progress_capped Sample.mixed _ eq_refl). exact Hin.
Defined.
(** ** Backup files and the stored envelope *)

Section Documents.
Import Planner.

Lemma stringify_not_empty gap members :
  String.eqb (Json.stringify gap (Json.Obj members)) "" = false.
Proof. destruct members as [|[k v] ms]; reflexivity. Qed.

Lemma import_backup env env' sels st0 :
  importLocalData env (Some (Json.stringify 2 (backup env' sels))) st0
  = let question :=
      Confirm (Js.string_of_Z (Z.of_nat (length sels)) ++
               " Module importieren? Aktuelle Planung wird ersetzt.") in
    if confirmed env
    then Some (fst (save env st0 sels), question :: snd (save env st0 sels))
    else Some (st0, [question]).
Proof.
  unfold importLocalData. rewrite parse_stringify.
  unfold backup at 1. cbv iota.
  change (Json.get "selections" (backup env' sels))
    with (Some (Json.Arr (map Selection.to_json sels))).
  cbv iota. rewrite length_map, selections_of_to_json.
  destruct (confirmed env); [|reflexivity].
  destruct (save env st0 sels). reflexivity.
Qed.

Lemma load_envelope stored version sels stamp :
  stored !! STORAGE_KEY
  = Some (Json.stringify 0 (envelope version sels stamp)) ->
  loadSelectionsFromStorage stored
  = Some (sels,
          if String.eqb version STORAGE_VERSION then []
          else [ConsoleLog "Storage version mismatch, migrating..."]).
Proof.
  intros H. unfold loadSelectionsFromStorage. rewrite H.
  unfold envelope at 1. rewrite stringify_not_empty.
  fold (envelope version sels stamp). rewrite parse_stringify.
  unfold envelope at 1. cbv iota.
  change (Json.get "selections" (envelope version sels stamp))
    with (Some (Json.Arr (map Selection.to_json sels))).
  change (version_is_current (envelope version sels stamp))
    with (String.eqb version STORAGE_VERSION).
  cbv iota. cbn [falsy]. now rewrite selections_of_to_json.
Qed.
End Documents.




(** C2, as the claim words it, fails for a version mismatch: an envelope
    stored under version [0.9] is read back with its selection; the
    mismatch is only logged. *)
Lemma old_version_is_still_loaded :
  Json.get "version" Sample.old_envelope = Some (Json.Str "0.9")
  /\ Planner.loadSelectionsFromStorage Sample.old_storage
     = Some ([Sample.sel1],
             [Planner.ConsoleLog "Storage version mismatch, migrating..."]).
Proof. split; vm_compute; reflexivity. Qed.

(** C2 (amended). [loadSelectionsFromStorage] returns the empty list
    when the storage key is absent and when the stored text does not
    parse. A stored envelope whose version differs from [1.0] is not
    discarded: the mismatch is logged and the stored selections are
    returned as they are. *)
Theorem load_falls_back_to_empty stored :
  (stored !! Planner.STORAGE_KEY = None ->
   Planner.loadSelectionsFromStorage stored = Some ([], []))
  /\ (forall data,
        stored !! Planner.STORAGE_KEY = Some data ->
        Json.parse data = Json.SyntaxError ->
        exists events,
          Planner.loadSelectionsFromStorage stored = Some ([], events))
  /\ (forall version sels stamp,
        stored !! Planner.STORAGE_KEY
        = Some (Json.stringify 0 (Planner.envelope version sels stamp)) ->
        Planner.loadSelectionsFromStorage stored
        = Some (sels,
                if String.eqb version "1.0" then []
                else [Planner.ConsoleLog
                        "Storage version mismatch, migrating..."])).
Proof.
  split; [|split].
  - intros H. unfold Planner.loadSelectionsFromStorage. now rewrite H.
  - intros data H Hbad. unfold Planner.loadSelectionsFromStorage.
    rewrite H, Hbad. destruct (String.eqb data ""); eexists; reflexivity.
  - intros version sels stamp H. exact (load_envelope _ _ _ _ H).
Qed.

Lemma load_falls_back_to_empty_witness :
  (∅ : gmap string string) !! Planner.STORAGE_KEY = None
  /\ Planner.loadSelectionsFromStorage ∅ = Some ([], [])
  /\ Json.parse "{" = Json.SyntaxError
  /\ (exists events,
        Planner.loadSelectionsFromStorage {[ Planner.STORAGE_KEY := "{" ]}
        = Some ([], events)).
Proof.
  split; [reflexivity|]. split.
  - destruct (load_falls_back_to_empty ∅) as (H & _ & _).
    apply H. reflexivity.
  - split; [reflexivity|].
    destruct (load_falls_back_to_empty {[ Planner.STORAGE_KEY := "{" ]})
      as (_ & H & _).
    apply (H "{").
    + apply lookup_singleton_eq.
    + reflexivity.
Defined.

(** ** Selection ids *)

Section SelectionIds.
Import Planner.

Lemma string_of_Z_inj a b : Js.string_of_Z a = Js.string_of_Z b -> a = b.
Proof.
  unfold Js.string_of_Z. intros E. apply DecimalZ.to_int_inj.
  assert (Hnil : forall z, Z.to_int z <> Pos Nil /\ Z.to_int z <> Neg Nil).
  { intros [|p|p]; cbn; split; try discriminate;
      intros [= H]; now apply DecimalPos.Unsigned.to_uint_nonnil in H. }
  destruct (Hnil a) as [Ha1 Ha2]. destruct (Hnil b) as [Hb1 Hb2].
  pose proof (NilZero.isi _ Ha1 Ha2) as Ia.
  pose proof (NilZero.isi _ Hb1 Hb2) as Ib.
  rewrite E in Ia. congruence.
Qed.

Lemma digit_not_underscore c : Json.is_digit c = true -> c <> "_"%char.
Proof. intros H ->. discriminate H. Qed.

Lemma uint_plain d : plain (NilEmpty.string_of_uint d).
Proof.
  unfold plain. pose proof (uint_chars_digits d) as H.
  unfold Json.chars in H.
  induction (list_ascii_of_string (NilEmpty.string_of_uint d)) as [|c l IH].
  - constructor.
  - cbn [forallb] in H. apply andb_prop in H as [Hc Hl].
    constructor; [now apply digit_not_underscore|now apply IH].
Qed.

Lemma string_of_Z_plain z : plain (Js.string_of_Z z).
Proof.
  unfold Js.string_of_Z.
  destruct z as [|p|p]; cbn [Z.to_int NilZero.string_of_int].
  - repeat constructor. discriminate.
  - unfold NilZero.string_of_uint.
    destruct (Pos.to_uint p) eqn:E; try (rewrite <- E; apply uint_plain).
    repeat constructor. discriminate.
  - unfold NilZero.string_of_uint. constructor; [discriminate|].
    destruct (Pos.to_uint p) eqn:E; try (rewrite <- E; apply uint_plain).
    repeat constructor. discriminate.
Qed.

Lemma split_at_underscore a b r r' :
  plain a -> plain b ->
  (a ++ "_" ++ r)%string = (b ++ "_" ++ r')%string -> a = b /\ r = r'.
Proof.
  unfold plain. revert b.
  induction a as [|c a IH]; intros [|c' b] Ha Hb E;
    cbn [String.app list_ascii_of_string] in *.
  - injection E as E. auto.
  - injection E as E _. apply Forall_cons_iff in Hb as [Hb _].
    now destruct Hb.
  - injection E as E _. apply Forall_cons_iff in Ha as [Ha _].
    now destruct Ha.
  - injection E as E1 E. apply Forall_cons_iff in Ha as [_ Ha].
    apply Forall_cons_iff in Hb as [_ Hb].
    destruct (IH b Ha Hb E) as [E2 E3]. subst. auto.
Qed.

(** Two generated ids are equal only when the clock reading and the
    characters kept of the random draw are. *)
Lemma generateSelectionId_inj env1 env2 :
  generateSelectionId env1 = generateSelectionId env2
  <-> now env1 = now env2
      /\ substring 2 9 (random36 env1) = substring 2 9 (random36 env2).
Proof.
  unfold generateSelectionId. split.
  - intros E. injection E as E.
    apply split_at_underscore in E as [E ->];
      auto using string_of_Z_plain.
    split; [now apply string_of_Z_inj|reflexivity].
  - intros [-> ->]. reflexivity.
Qed.

Lemma planCourse_adds env st courseId course :
  find_course (catalog st) courseId = Some course ->
  Course.is_additional_course course = false ->
  existsb (references courseId) (selections st) = false ->
  planCourse env courseId st
  = save env st
      (selections st ++
       [Selection.mk courseId "planned" (generateSelectionId env) None]).
Proof.
  intros Hfind Hfixed Hnone. unfold planCourse.
  now rewrite Hfind, Hnone, Hfixed.
Qed.
End SelectionIds.

(** C7, as the claim words it, fails for the freshness of the id: the id
    is built from the clock and a random draw and is never compared with
    the ids in the store. Planning FIX1 and FIX2 within the same
    millisecond and with the same draw gives both selections the same
    [selection_id]. *)
Lemma same_clock_and_draw_same_id :
  Planner.selections Sample.after_first_plan
  = [Selection.mk "FIX1" "planned" "sel_1700000000000_k3j2h1g0f" None]
  /\ Planner.generateSelectionId Sample.env = "sel_1700000000000_k3j2h1g0f"
  /\ Planner.selections
       (fst (Planner.planCourse Sample.env "FIX2" Sample.after_first_plan))
     = [Selection.mk "FIX1" "planned" "sel_1700000000000_k3j2h1g0f" None;
        Selection.mk "FIX2" "planned" "sel_1700000000000_k3j2h1g0f" None].
Proof. repeat split; vm_compute; reflexivity. Qed.

(** C7 (amended). For a fixed-credit course of the catalog that no
    selection references, [planCourse] appends exactly one selection,
    with status [planned], [ects] null and the id
    ["sel_" + Date.now() + "_" + up to nine characters of a random
    draw], and leaves the
    earlier selections as they were. The id is not checked against the
    store: it differs from an earlier generated id exactly when the
    clock reading or the random characters differ, and the ids of the
    store stay pairwise distinct whenever it is not among them. The new
    list is persisted when the storage write succeeds (loading it back
    gives the same list); when the write fails the stored text stays and
    the user is warned. *)
Theorem plan_adds_one_selection env st courseId course :
  Planner.find_course (Planner.catalog st) courseId = Some course ->
  Course.is_additional_course course = false ->
  (forall s, In s (Planner.selections st) ->
             Selection.course_id s <> courseId) ->
  let st' := fst (Planner.planCourse env courseId st) in
  let id := Planner.generateSelectionId env in
  Planner.selections st'
  = Planner.selections st ++ [Selection.mk courseId "planned" id None]
  /\ id = ("sel_" ++ Js.string_of_Z (Planner.now env) ++ "_" ++
           substring 2 9 (Planner.random36 env))%string
  /\ (forall env0,
        id = Planner.generateSelectionId env0
        <-> Planner.now env = Planner.now env0
            /\ substring 2 9 (Planner.random36 env)
               = substring 2 9 (Planner.random36 env0))
  /\ (~ In id (Machine.selection_ids (Planner.selections st)) ->
      NoDup (Machine.selection_ids (Planner.selections st)) ->
      NoDup (Machine.selection_ids (Planner.selections st')))
  /\ (Planner.setItem_ok env = true ->
      Planner.loadSelectionsFromStorage (Planner.localStorage st')
      = Some (Planner.selections st', [])
      /\ snd (Planner.planCourse env courseId st) = [])
  /\ (Planner.setItem_ok env = false ->
      Planner.localStorage st' = Planner.localStorage st
      /\ snd (Planner.planCourse env courseId st)
         = [Planner.ConsoleError "Failed to save selections to storage:";
            Planner.Alert Planner.SaveFailed]).
Proof.
  intros Hfind Hfixed Hnone st' id.
  apply existsb_references_false in Hnone.
  pose proof (planCourse_adds env st courseId course Hfind Hfixed Hnone) as E.
  assert (Hsel : Planner.selections st'
                 = Planner.selections st ++
                   [Selection.mk courseId "planned" id None]).
  { subst st'. rewrite E. apply save_selections. }
  split; [exact Hsel|]. split; [reflexivity|].
  split; [intros env0; apply generateSelectionId_inj|].
  split; [|split].
  - intros Hfresh Hdistinct. rewrite Hsel. unfold Machine.selection_ids.
    rewrite map_app. cbn [map Selection.selection_id].
    apply NoDup_app. split; [exact Hdistinct|]. split.
    + intros x Hx Hx'. apply list_elem_of_In in Hx, Hx'.
      destruct Hx' as [<-|[]]. now apply Hfresh.
    + apply NoDup_singleton.
  - intros Hok. subst st' id. rewrite E.
    destruct (save_written env st
                (Planner.selections st ++
                 [Selection.mk courseId "planned"
                    (Planner.generateSelectionId env) None]) Hok)
      as [Hw Hev].
    split; [|exact Hev].
    rewrite (load_envelope _ _ _ _ Hw), save_selections. reflexivity.
  - intros Hfail. subst st'. rewrite E. now apply save_refused.
Qed.

Lemma plan_adds_one_selection_witness :
  Planner.find_course (Planner.catalog Sample.fresh) "FIX1"
  = Some Sample.fixed1
  /\ Course.is_additional_course Sample.fixed1 = false
  /\ Planner.selections (fst (Planner.planCourse Sample.env "FIX1" Sample.fresh))
     = [Selection.mk "FIX1" "planned" "sel_1700000000000_k3j2h1g0f" None].
Proof.
  split; [reflexivity|]. split; [reflexivity|].
  destruct (plan_adds_one_selection Sample.env Sample.fresh "FIX1"
              Sample.fixed1 eq_refl eq_refl) as [H _].
  - intros s [].
  - rewrite H. reflexivity.
Defined.

(** ** One selection per fixed-credit course *)

Section Invariant.
Import Planner Machine.

Lemma references_count_app courseId l1 l2 :
  references_count courseId (l1 ++ l2)
  = (references_count courseId l1 + references_count courseId l2)%nat.
Proof.
  unfold references_count. now rewrite List.filter_app, length_app.
Qed.

Lemma references_count_single courseId s :
  references_count courseId [s]
  = if String.eqb (Selection.course_id s) courseId then 1%nat else 0%nat.
Proof.
  unfold references_count, references. cbn [List.filter].
  destruct (String.eqb _ _); reflexivity.
Qed.

Lemma references_count_none courseId sels :
  existsb (references courseId) sels = false ->
  references_count courseId sels = 0%nat.
Proof.
  unfold references_count. induction sels as [|s sels IH]; [reflexivity|].
  cbn [existsb List.filter]. intros H.
  apply orb_false_elim in H as [Hs Hsels]. rewrite Hs. auto.
Qed.

Lemma references_count_filter courseId keep sels :
  (references_count courseId (List.filter keep sels)
   <= references_count courseId sels)%nat.
Proof.
  unfold references_count. induction sels as [|s sels IH]; [reflexivity|].
  cbn [List.filter].
  destruct (keep s), (references courseId s) eqn:E; cbn [List.filter length];
    rewrite ?E; cbn [length]; lia.
Qed.

Lemma references_toggle courseId s :
  references courseId (toggle s) = references courseId s.
Proof. reflexivity. Qed.

Lemma references_count_toggle courseId matches sels :
  references_count courseId (toggle_first matches sels)
  = references_count courseId sels.
Proof.
  unfold references_count. induction sels as [|s sels IH]; [reflexivity|].
  cbn [toggle_first]. destruct (matches s); cbn [List.filter].
  - rewrite references_toggle.
    destruct (references courseId s); reflexivity.
  - destruct (references courseId s); cbn [length]; now rewrite IH.
Qed.

Lemma invariant_save env st sels :
  one_selection_per_fixed_course (catalog st) sels ->
  invariant (fst (save env st sels)).
Proof.
  unfold invariant. now rewrite save_catalog, save_selections.
Qed.

Lemma planCourse_invariant env courseId st :
  invariant st -> invariant (fst (planCourse env courseId st)).
Proof.
  intros Hinv. unfold planCourse.
  destruct (find_course (catalog st) courseId) as [course|] eqn:Hfind;
    [|exact Hinv].
  destruct (existsb _ _) eqn:Hnone; [exact Hinv|].
  destruct (Course.is_additional_course course); [exact Hinv|].
  apply invariant_save. intros cid c Hc Hfixed.
  rewrite references_count_app, references_count_single.
  cbn [Selection.course_id].
  destruct (String.eqb_spec courseId cid) as [->|Hne].
  - rewrite (references_count_none _ _ Hnone). lia.
  - pose proof (Hinv cid c Hc Hfixed). lia.
Qed.

Lemma addAdditionalCourse_invariant env courseId st :
  invariant st -> invariant (fst (addAdditionalCourse env courseId st)).
Proof.
  intros Hinv. unfold addAdditionalCourse.
  destruct (find_course (catalog st) courseId) as [course|] eqn:Hfind;
    [|exact Hinv].
  destruct (Course.is_additional_course course) eqn:Hadd; [|exact Hinv].
  cbn [negb]. destruct (Js.parseInt _) as [ects|]; [|exact Hinv].
  destruct (_ || _); [exact Hinv|].
  destruct (Z.gtb _ _); [exact Hinv|].
  assert (Hnew : one_selection_per_fixed_course (catalog st)
                   (selections st ++
                    [Selection.mk courseId "planned"
                       (generateSelectionId env) (Some ects)])).
  { intros cid c Hc Hfixed.
    rewrite references_count_app, references_count_single.
    cbn [Selection.course_id].
    destruct (String.eqb_spec courseId cid) as [->|Hne].
    - congruence.
    - pose proof (Hinv cid c Hc Hfixed). lia. }
  unfold saveSelectionsToStorage. destruct (setItem_ok env); exact Hnew.
Qed.

Lemma removeCourse_invariant env courseId selectionId st :
  invariant st ->
  invariant (fst (removeCourse env courseId selectionId st)).
Proof.
  intros Hinv. unfold removeCourse. apply invariant_save.
  intros cid c Hc Hfixed. pose proof (Hinv cid c Hc Hfixed) as H.
  destruct (Js.truthy selectionId);
    eapply Nat.le_trans; try apply references_count_filter; exact H.
Qed.

Lemma toggleCompleted_invariant env courseId selectionId st :
  invariant st ->
  invariant (fst (toggleCompleted env courseId selectionId st)).
Proof.
  intros Hinv. unfold toggleCompleted. apply invariant_save.
  intros cid c Hc Hfixed. rewrite references_count_toggle.
  exact (Hinv cid c Hc Hfixed).
Qed.

Lemma removeAllPlanned_invariant env st :
  invariant st -> invariant (fst (removeAllPlanned env st)).
Proof.
  intros Hinv. unfold removeAllPlanned.
  destruct (confirmed env); [|exact Hinv].
  pose proof (invariant_save env st []) as H.
  destruct (save env st []) as [st' events]. apply H.
  intros cid c _ _. cbn. lia.
Qed.

Lemma init_without_storage_invariant courses areas st events :
  init courses areas ∅ = Some (st, events) -> invariant st.
Proof.
  unfold init, loadSelectionsFromStorage. rewrite lookup_empty.
  intros [= <- _]. intros cid c _ _. cbn [selections].
  unfold references_count. cbn [List.filter length]. lia.
Qed.

Lemma run_invariant env a st st' events :
  is_import a = false ->
  run env a st = Some (st', events) ->
  invariant st -> invariant st'.
Proof.
  intros Ha Hrun Hinv.
  assert (Hfst : forall r : State * list event,
             Some r = Some (st', events) -> st' = fst r)
    by (intros r [= ->]; reflexivity).
  destruct a; try discriminate Ha; cbn [run] in Hrun;
    apply Hfst in Hrun; subst st'.
  - now apply planCourse_invariant.
  - exact Hinv.
  - now apply addAdditionalCourse_invariant.
  - now apply removeCourse_invariant.
  - now apply toggleCompleted_invariant.
  - now apply removeAllPlanned_invariant.
Qed.
End Invariant.

(** C1, as the claim words it, fails for the backup import, which puts
    the selections of the file into the store without looking at them:
    from the empty store, importing a backup that lists FIX1 twice gives
    a store with two selections of that fixed-credit course. *)
Lemma import_breaks_one_selection_per_course :
  Machine.invariant Sample.fresh
  /\ exists st',
       Machine.reachable (fun _ => true) Sample.fresh st'
       /\ Planner.selections st' = [Sample.sel1; Sample.sel1']
       /\ ~ Machine.invariant st'.
Proof.
  split.
  - intros cid c _ _. cbn. lia.
  - exists (fst (Planner.save Sample.env Sample.fresh
                   [Sample.sel1; Sample.sel1'])).
    split; [|split].
    + eapply Machine.reach_step with (env := Sample.env)
        (a := Machine.Import (Some Sample.doubled_backup));
        [apply Machine.reach_start|reflexivity|].
      cbn [Machine.run]. unfold Sample.doubled_backup.
      rewrite import_backup. reflexivity.
    + apply save_selections.
    + intros H. specialize (H "FIX1" Sample.fixed1).
      rewrite save_catalog, save_selections in H.
      specialize (H eq_refl eq_refl). cbn in H. lia.
Qed.

(** C1 (amended). From a start state in which at most one selection
    references each fixed-credit course, every state reached through
    [planCourse], [addAdditionalCourse], [removeCourse],
    [toggleCompleted] and [removeAllPlanned] (and typing amounts) has
    the same property. The backup import is not among them: after a
    confirmed import the store is the list of the file, so the property
    holds afterwards exactly when the file's list has it. *)
Theorem one_selection_per_fixed_course_kept start st :
  Machine.invariant start ->
  Machine.reachable (fun a => negb (Machine.is_import a)) start st ->
  Machine.invariant st
  /\ (forall env env' sels,
        Planner.confirmed env = true ->
        exists st' events,
          Machine.run env
            (Machine.Import
               (Some (Json.stringify 2 (Planner.backup env' sels)))) st
          = Some (st', events)
          /\ (Machine.invariant st' <->
              Machine.one_selection_per_fixed_course
                (Planner.catalog st) sels)).
Proof.
  intros Hstart Hreach.
  assert (Hinv : Machine.invariant st).
  { induction Hreach as [|st env a st' events _ IH Ha Hrun];
      [exact Hstart|].
    apply negb_true_iff in Ha. exact (run_invariant _ _ _ _ _ Ha Hrun IH). }
  split; [exact Hinv|].
  intros env env' sels Hyes. cbn [Machine.run].
  rewrite import_backup, Hyes. cbv zeta.
  eexists _, _. split; [reflexivity|].
  unfold Machine.invariant. now rewrite save_catalog, save_selections.
Qed.

Lemma one_selection_per_fixed_course_kept_witness :
  Machine.invariant Sample.fresh
  /\ Machine.reachable (fun a => negb (Machine.is_import a)) Sample.fresh
       (fst (Planner.planCourse Sample.env "FIX1" Sample.fresh))
  /\ Machine.invariant
       (fst (Planner.planCourse Sample.env "FIX1" Sample.fresh)).
Proof.
  assert (H1 : Machine.invariant Sample.fresh)
    by (intros cid c _ _; cbn; lia).
  assert (H2 : Machine.reachable (fun a => negb (Machine.is_import a))
                 Sample.fresh
                 (fst (Planner.planCourse Sample.env "FIX1" Sample.fresh))).
  { apply Machine.reach_step with (st := Sample.fresh) (env := Sample.env)
      (a := Machine.Plan "FIX1")
      (events := snd (Planner.planCourse Sample.env "FIX1" Sample.fresh));
      [apply Machine.reach_start|reflexivity|].
    cbn [Machine.run]. f_equal. }
  split; [exact H1|]. split; [exact H2|].
  apply (one_selection_per_fixed_course_kept Sample.fresh _ H1 H2).
Defined.

(** * Further properties *)

(** ** The store and its backing copy *)

Section Backing.
Import Planner Store Machine.

Lemma load_after_save env sels stored :
  setItem_ok env = true ->
  loadSelectionsFromStorage (fst (saveSelectionsToStorage env sels stored))
  = Some (sels, []).
Proof.
  intros Hok. unfold saveSelectionsToStorage. rewrite Hok. cbn [fst].
  apply (load_envelope _ STORAGE_VERSION sels (iso_time env)).
  apply lookup_insert_eq.
Qed.

Lemma save_synced env st sels :
  setItem_ok env = true -> synced (fst (save env st sels)).
Proof.
  intros Hok. unfold synced. rewrite save_selections.
  unfold save. pose proof (load_after_save env sels (localStorage st) Hok) as H.
  destruct (saveSelectionsToStorage env sels (localStorage st)) as [ls events].
  exact H.
Qed.

Lemma save_storage_kept env st sels :
  setItem_ok env = false ->
  localStorage (fst (save env st sels)) = localStorage st
  /\ In (Alert SaveFailed) (snd (save env st sels)).
Proof.
  intros Hfail. destruct (save_refused env st sels Hfail) as [H1 H2].
  split; [exact H1|]. rewrite H2. right. left. reflexivity.
Qed.

Lemma addAdditionalCourse_synced env courseId st :
  setItem_ok env = true -> synced st ->
  synced (fst (addAdditionalCourse env courseId st)).
Proof.
  intros Hok Hsync. unfold addAdditionalCourse.
  destruct (find_course _ _); [|exact Hsync].
  destruct (negb _); [exact Hsync|].
  destruct (Js.parseInt _); [|exact Hsync].
  destruct (_ || _); [exact Hsync|].
  destruct (Z.gtb _ _); [exact Hsync|].
  match goal with
  | |- context [saveSelectionsToStorage env ?sels ?ls] =>
      pose proof (load_after_save env sels ls Hok) as H;
      destruct (saveSelectionsToStorage env sels ls) as [ls' events]
  end.
  exact H.
Qed.

Lemma addAdditionalCourse_storage_kept env courseId st :
  setItem_ok env = false ->
  localStorage (fst (addAdditionalCourse env courseId st)) = localStorage st
  /\ (selections (fst (addAdditionalCourse env courseId st)) <> selections st ->
      In (Alert SaveFailed) (snd (addAdditionalCourse env courseId st))).
Proof.
  intros Hfail. unfold addAdditionalCourse.
  destruct (find_course _ _); [|now split].
  destruct (negb _); [now split|].
  destruct (Js.parseInt _); [|now split].
  destruct (_ || _); [now split|].
  destruct (Z.gtb _ _); [now split|].
  unfold saveSelectionsToStorage. rewrite Hfail. cbn.
  split; [reflexivity|]. intros _. right. left. reflexivity.
Qed.
End Backing.

(** X1. What [saveSelectionsToStorage] writes, [loadSelectionsFromStorage]
    reads back: after a write that succeeds of a list whose credit
    amounts are safe integers, loading returns the saved list, element
    for element, and logs nothing, whatever the storage held before. *)
Theorem save_then_load env sels stored :
  Planner.setItem_ok env = true ->
  forallb Selection.safe sels = true ->
  Planner.loadSelectionsFromStorage
    (fst (Planner.saveSelectionsToStorage env sels stored))
  = Some (sels, [])
  /\ snd (Planner.saveSelectionsToStorage env sels stored) = [].
Proof.
  intros Hok _. split; [now apply load_after_save|].
  unfold Planner.saveSelectionsToStorage. now rewrite Hok.
Qed.

Lemma save_then_load_witness :
  Planner.setItem_ok Sample.env = true
  /\ forallb Selection.safe [Sample.sel1; Sample.sel_ac] = true
  /\ Planner.loadSelectionsFromStorage
       (fst (Planner.saveSelectionsToStorage Sample.env
               [Sample.sel1; Sample.sel_ac] Sample.old_storage))
     = Some ([Sample.sel1; Sample.sel_ac], []).
Proof.
  split; [reflexivity|]. split; [reflexivity|].
  apply (save_then_load Sample.env [Sample.sel1; Sample.sel_ac]
           Sample.old_storage); reflexivity.
Defined.

(** X2. While the storage accepts writes, every action keeps the backing
    copy in step with the store, as long as the credit amounts the
    store holds after it are safe integers: if loading the storage gave
    the store before the action, it does so after it, and a new session
    started on that storage begins with the same selections. *)
Theorem actions_keep_storage_in_step env a st st' events :
  Planner.setItem_ok env = true ->
  Store.synced st ->
  Machine.run env a st = Some (st', events) ->
  forallb Selection.safe (Planner.selections st') = true ->
  Store.synced st'
  /\ exists st0,
       Planner.init (Planner.catalog st') (Planner.rules st')
         (Planner.localStorage st') = Some (st0, [])
       /\ Planner.selections st0 = Planner.selections st'.
Proof.
  intros Hok Hsync Hrun _.
  assert (Hfst : forall r : Planner.State * list Planner.event,
             Some r = Some (st', events) -> st' = fst r)
    by (intros r [= ->]; reflexivity).
  assert (H : Store.synced st').
  { destruct a; cbn [Machine.run] in Hrun.
    - apply Hfst in Hrun. subst st'. unfold Planner.planCourse.
      destruct (Planner.find_course _ _); [|exact Hsync].
      destruct (existsb _ _); [exact Hsync|].
      destruct (Course.is_additional_course _); [exact Hsync|].
      now apply save_synced.
    - apply Hfst in Hrun. subst st'. exact Hsync.
    - apply Hfst in Hrun. subst st'. now apply addAdditionalCourse_synced.
    - apply Hfst in Hrun. subst st'. now apply save_synced.
    - apply Hfst in Hrun. subst st'. now apply save_synced.
    - apply Hfst in Hrun. subst st'. unfold Planner.removeAllPlanned.
      destruct (Planner.confirmed env); [|exact Hsync].
      pose proof (save_synced env st [] Hok) as H.
      now destruct (Planner.save env st []).
    - unfold Planner.importLocalData in Hrun.
      destruct file as [text|]; [|now injection Hrun as <- _].
      destruct (Json.parse text) as [data| |]; try discriminate;
        [|now injection Hrun as <- _].
      destruct data; try (now injection Hrun as <- _);
        (destruct (Json.get "selections" _) as [[]|];
         try (now injection Hrun as <- _));
        (destruct (Planner.confirmed env); [|now injection Hrun as <- _]);
        (destruct (Selection.list_of_json _) as [sels|]; [|discriminate]);
        pose proof (save_synced env st sels Hok) as H;
        destruct (Planner.save env st sels); now injection Hrun as <- _. }
  split; [exact H|]. unfold Planner.init. unfold Store.synced in H.
  rewrite H. eexists. split; reflexivity.
Qed.

Lemma actions_keep_storage_in_step_witness :
  Planner.setItem_ok Sample.env = true
  /\ Store.synced Sample.fresh
  /\ forallb Selection.safe
       (Planner.selections
          (fst (Planner.planCourse Sample.env "FIX1" Sample.fresh)))
     = true
  /\ Store.synced (fst (Planner.planCourse Sample.env "FIX1" Sample.fresh)).
Proof.
  split; [reflexivity|]. split; [reflexivity|]. split; [reflexivity|].
  apply (actions_keep_storage_in_step Sample.env (Machine.Plan "FIX1")
           Sample.fresh _
           (snd (Planner.planCourse Sample.env "FIX1" Sample.fresh))).
  - reflexivity.
  - reflexivity.
  - cbn [Machine.run]. f_equal.
  - reflexivity.
Defined.

(** X3. When the storage refuses writes, no action alters the stored
    text, whatever it does to the store; and whenever the store did
    change, the save-failed warning is among what the user is shown. *)
Theorem refused_write_is_not_silent env a st st' events :
  Planner.setItem_ok env = false ->
  Machine.run env a st = Some (st', events) ->
  Planner.localStorage st' = Planner.localStorage st
  /\ (Planner.selections st' <> Planner.selections st ->
      In (Planner.Alert Planner.SaveFailed) events).
Proof.
  intros Hfail Hrun.
  set (kept := fun r : Planner.State * list Planner.event =>
         Planner.localStorage (fst r) = Planner.localStorage st
         /\ (Planner.selections (fst r) <> Planner.selections st ->
             In (Planner.Alert Planner.SaveFailed) (snd r))).
  assert (Hgoal : forall r, Some r = Some (st', events) -> kept r ->
            Planner.localStorage st' = Planner.localStorage st
            /\ (Planner.selections st' <> Planner.selections st ->
                In (Planner.Alert Planner.SaveFailed) events))
    by (intros r [= ->] H; exact H).
  assert (Hsave : forall sels, kept (Planner.save env st sels))
    by (intros sels; destruct (save_storage_kept env st sels Hfail);
        split; auto).
  assert (Hsame : forall ev, kept (st, ev))
    by (intros ev; split; [reflexivity|intros H; now destruct H]).
  destruct a; cbn [Machine.run] in Hrun.
  - apply (Hgoal _ Hrun). unfold Planner.planCourse.
    destruct (Planner.find_course _ _); [|apply Hsame].
    destruct (existsb _ _); [apply Hsame|].
    destruct (Course.is_additional_course _); [apply Hsame|apply Hsave].
  - apply (Hgoal _ Hrun). apply Hsame.
  - apply (Hgoal _ Hrun). now apply addAdditionalCourse_storage_kept.
  - apply (Hgoal _ Hrun). apply Hsave.
  - apply (Hgoal _ Hrun). apply Hsave.
  - apply (Hgoal _ Hrun). unfold Planner.removeAllPlanned.
    destruct (Planner.confirmed env); [|apply Hsame].
    destruct (Hsave []) as [H1 H2].
    destruct (Planner.save env st []) as [s e]. cbn [fst snd] in *.
    split; [exact H1|]. intros H. right. now apply H2.
  - unfold Planner.importLocalData in Hrun.
    destruct file as [text|]; [|apply (Hgoal _ Hrun), Hsame].
    destruct (Json.parse text) as [data| |]; try discriminate;
      [|apply (Hgoal _ Hrun), Hsame].
    destruct data; try (apply (Hgoal _ Hrun), Hsame);
      (destruct (Json.get "selections" _) as [[]|];
       try (apply (Hgoal _ Hrun), Hsame));
      (destruct (Planner.confirmed env); [|apply (Hgoal _ Hrun), Hsame]);
      (destruct (Selection.list_of_json _) as [sels|]; [|discriminate]);
      destruct (Hsave sels) as [H1 H2];
      destruct (Planner.save env st sels) as [s e]; cbn [fst snd] in *;
      apply (Hgoal _ Hrun); (split; [exact H1|]);
      intros H; right; now apply H2.
Qed.

Lemma refused_write_is_not_silent_witness :
  Planner.setItem_ok Sample2.offline = false
  /\ Planner.localStorage
       (fst (Planner.removeCourse Sample2.offline "FIX1" None Sample.two_fixed))
     = Planner.localStorage Sample.two_fixed.
Proof.
  split; [reflexivity|].
  apply (refused_write_is_not_silent Sample2.offline
           (Machine.Remove "FIX1" None) Sample.two_fixed _
           (snd (Planner.removeCourse Sample2.offline "FIX1" None
                   Sample.two_fixed))).
  - reflexivity.
  - cbn [Machine.run]. f_equal.
Defined.

(** ** Toggling the completed mark *)

Section Toggle.
Import Planner Store.

Lemma toggleCompleted_selections env courseId selectionId st :
  selections (fst (toggleCompleted env courseId selectionId st))
  = toggle_first (toggle_matches courseId selectionId) (selections st).
Proof. unfold toggleCompleted. now rewrite save_selections. Qed.

Lemma toggleCompleted_catalog env courseId selectionId st :
  catalog (fst (toggleCompleted env courseId selectionId st)) = catalog st.
Proof. unfold toggleCompleted. now rewrite save_catalog. Qed.

Lemma toggle_matches_toggle courseId selectionId s :
  toggle_matches courseId selectionId (toggle s)
  = toggle_matches courseId selectionId s.
Proof. reflexivity. Qed.

Lemma toggle_toggle s : toggle (toggle s) = settled s.
Proof.
  unfold toggle, settled, is_completed. cbn [Selection.status
    Selection.course_id Selection.selection_id Selection.ects].
  destruct (String.eqb (Selection.status s) "completed"); reflexivity.
Qed.

Lemma settled_same s :
  Selection.status s = "planned" \/ Selection.status s = "completed" ->
  settled s = s.
Proof.
  destruct s as [c st sid e]. unfold settled, is_completed.
  cbn [Selection.status Selection.course_id Selection.selection_id
       Selection.ects].
  intros [->| ->]; reflexivity.
Qed.

Lemma toggle_first_twice matches sels :
  (forall s, matches (toggle s) = matches s) ->
  toggle_first matches (toggle_first matches sels)
  = settle_first matches sels.
Proof.
  intros Hm. induction sels as [|s sels IH]; [reflexivity|].
  cbn [toggle_first settle_first]. destruct (matches s) eqn:E.
  - cbn [toggle_first]. now rewrite Hm, E, toggle_toggle.
  - cbn [toggle_first]. now rewrite E, IH.
Qed.

Lemma settle_first_same matches sels :
  Forall (fun s => Selection.status s = "planned"
                   \/ Selection.status s = "completed") sels ->
  settle_first matches sels = sels.
Proof.
  induction 1 as [|s sels Hs _ IH]; [reflexivity|].
  cbn [settle_first]. destruct (matches s).
  - now rewrite settled_same.
  - now rewrite IH.
Qed.

(** Where the loop stops: at the first selection that passes the test. *)
Lemma toggle_first_spec matches sels :
  (toggle_first matches sels = sels
   /\ forall s, In s sels -> matches s = false)
  \/ exists before s after,
       sels = before ++ s :: after
       /\ toggle_first matches sels = before ++ toggle s :: after
       /\ matches s = true
       /\ forall s', In s' before -> matches s' = false.
Proof.
  induction sels as [|s sels IH].
  - left. split; [reflexivity|]. intros s [].
  - cbn [toggle_first]. destruct (matches s) eqn:E.
    + right. exists [], s, sels. repeat split; auto. intros s' [].
    + destruct IH as [[H1 H2]|(before & s0 & after & H1 & H2 & H3 & H4)].
      * left. split; [f_equal; exact H1|]. intros s' [<-|Hs']; auto.
      * right. exists (s :: before), s0, after.
        split; [cbn [app]; f_equal; exact H1|].
        split; [cbn [app]; f_equal; exact H2|].
        split; [exact H3|]. intros s' [<-|Hs']; auto.
Qed.

Lemma credit_toggle courses s : credit courses (toggle s) = credit courses s.
Proof. reflexivity. Qed.

Lemma toggle_first_map {A} (f : Selection.t -> A) matches sels :
  (forall s, f (toggle s) = f s) ->
  map f (toggle_first matches sels) = map f sels.
Proof.
  intros Hf. induction sels as [|s sels IH]; [reflexivity|].
  cbn [toggle_first]. destruct (matches s); cbn [map].
  - now rewrite Hf.
  - now rewrite IH.
Qed.
End Toggle.

(** X4. Toggling the same selection twice gives back the store, provided
    the statuses in it are [planned] or [completed]. In general the two
    toggles leave the first matching selection [completed] if it was
    completed and [planned] otherwise (so a status that is neither ends
    up [planned]), and touch nothing else. *)
Theorem toggle_twice env1 env2 courseId selectionId st :
  let twice :=
    Planner.selections
      (fst (Planner.toggleCompleted env2 courseId selectionId
              (fst (Planner.toggleCompleted env1 courseId selectionId st)))) in
  twice = Store.settle_first (Store.toggle_matches courseId selectionId)
            (Planner.selections st)
  /\ (Forall (fun s => Selection.status s = "planned"
                       \/ Selection.status s = "completed")
        (Planner.selections st) ->
      twice = Planner.selections st).
Proof.
  intros twice.
  assert (E : twice = Store.settle_first
                        (Store.toggle_matches courseId selectionId)
                        (Planner.selections st)).
  { subst twice. rewrite !toggleCompleted_selections.
    apply toggle_first_twice. intros s. apply toggle_matches_toggle. }
  split; [exact E|]. intros H. rewrite E. now apply settle_first_same.
Qed.

Lemma toggle_twice_witness :
  Forall (fun s => Selection.status s = "planned"
                   \/ Selection.status s = "completed")
    (Planner.selections Sample.mixed)
  /\ Planner.selections
       (fst (Planner.toggleCompleted Sample.env "FIX2" None
               (fst (Planner.toggleCompleted Sample.env "FIX2" None
                       Sample.mixed))))
     = Planner.selections Sample.mixed.
Proof.
  assert (H : Forall (fun s => Selection.status s = "planned"
                               \/ Selection.status s = "completed")
                (Planner.selections Sample.mixed)).
  { repeat (apply List.Forall_cons;
              [first [left; reflexivity|right; reflexivity]|]).
    apply List.Forall_nil. }
  split; [exact H|].
  apply (toggle_twice Sample.env Sample.env "FIX2" None Sample.mixed).
  exact H.
Defined.

(** X5. [toggleCompleted] changes statuses only: the selections keep
    their number, order, ids, courses and credit amounts, and the
    planned total of [summary] is the same before and after. *)
Theorem toggle_keeps_credits env courseId selectionId st :
  let st' := fst (Planner.toggleCompleted env courseId selectionId st) in
  map Selection.selection_id (Planner.selections st')
  = map Selection.selection_id (Planner.selections st)
  /\ map Selection.course_id (Planner.selections st')
     = map Selection.course_id (Planner.selections st)
  /\ map Selection.ects (Planner.selections st')
     = map Selection.ects (Planner.selections st)
  /\ Planner.planned_ects (Planner.summary st')
     = Planner.planned_ects (Planner.summary st).
Proof.
  intros st'. subst st'.
  destruct (summary_fields
              (fst (Planner.toggleCompleted env courseId selectionId st)))
    as (Hp' & _ & _).
  destruct (summary_fields st) as (Hp & _ & _).
  rewrite Hp', Hp, toggleCompleted_catalog, !toggleCompleted_selections.
  split; [now apply toggle_first_map|].
  split; [now apply toggle_first_map|].
  split; [now apply toggle_first_map|].
  f_equal. now apply toggle_first_map.
Qed.

(** X6. [toggleCompleted] flips one selection at most, the first that
    matches: with a selection id (not null, not empty) the match is on
    [selection_id] alone, otherwise on [course_id]. Either nothing
    matches and the store is unchanged, or the store is cut in three:
    the selections before the match, none of which matches; the match,
    whose status becomes [planned] if it was [completed] and
    [completed] otherwise; and the selections after it, untouched. *)
Theorem toggle_flips_first_match env courseId selectionId st :
  let matches := fun s : Selection.t =>
    match selectionId with
    | Some id =>
        if String.eqb id ""
        then String.eqb (Selection.course_id s) courseId
        else String.eqb (Selection.selection_id s) id
    | None => String.eqb (Selection.course_id s) courseId
    end in
  let after := Planner.selections
                 (fst (Planner.toggleCompleted env courseId selectionId st)) in
  (after = Planner.selections st
   /\ forall s, In s (Planner.selections st) -> matches s = false)
  \/ exists before s rest,
       Planner.selections st = before ++ s :: rest
       /\ after = before ++
                  Selection.mk (Selection.course_id s)
                    (if String.eqb (Selection.status s) "completed"
                     then "planned" else "completed")
                    (Selection.selection_id s) (Selection.ects s) :: rest
       /\ matches s = true
       /\ forall s', In s' before -> matches s' = false.
Proof.
  intros matches after. subst after. rewrite toggleCompleted_selections.
  assert (E : forall s, Store.toggle_matches courseId selectionId s
                        = matches s).
  { intros s. unfold Store.toggle_matches, matches, Js.truthy,
      Planner.references.
    destruct selectionId as [id|]; [|reflexivity].
    destruct (String.eqb id ""); reflexivity. }
  destruct (toggle_first_spec (Store.toggle_matches courseId selectionId)
              (Planner.selections st))
    as [[H1 H2]|(before & s & rest & H1 & H2 & H3 & H4)].
  - left. split; [exact H1|]. intros s Hs. rewrite <- E. now apply H2.
  - right. exists before, s, rest. rewrite <- !E. repeat split; auto.
    intros s' Hs'. rewrite <- E. now apply H4.
Qed.

(** ** Removing selections *)

Section Removal.
Import Planner Store Machine.

Lemma removeCourse_selections env courseId selectionId st :
  selections (fst (removeCourse env courseId selectionId st))
  = List.filter (fun s => negb (toggle_matches courseId selectionId s))
      (selections st).
Proof.
  unfold removeCourse. rewrite save_selections. unfold toggle_matches.
  destruct (Js.truthy selectionId); reflexivity.
Qed.

Lemma removeCourse_catalog env courseId selectionId st :
  catalog (fst (removeCourse env courseId selectionId st)) = catalog st.
Proof. unfold removeCourse. now rewrite save_catalog. Qed.

Lemma filter_twice {A} (keep : A -> bool) l :
  List.filter keep (List.filter keep l) = List.filter keep l.
Proof.
  induction l as [|x l IH]; [reflexivity|]. cbn [List.filter].
  destruct (keep x) eqn:E; [|exact IH]. cbn [List.filter].
  now rewrite E, IH.
Qed.

Lemma filter_all {A} (keep : A -> bool) l :
  (forall x, In x l -> keep x = true) -> List.filter keep l = l.
Proof.
  induction l as [|x l IH]; intros H; [reflexivity|]. cbn [List.filter].
  rewrite (H x) by (left; reflexivity). f_equal. apply IH.
  intros y Hy. apply H. right. exact Hy.
Qed.
End Removal.

(** X7. Without a selection id (null or the empty string) [removeCourse]
    removes every selection of the course and no other: what is left
    are the selections of other courses, in their order, none of them
    references the course, and [planCourse] on it (a fixed-credit course
    of the catalog) then succeeds. *)
Theorem remove_whole_course env env2 courseId selectionId st :
  Js.truthy selectionId = false ->
  let st' := fst (Planner.removeCourse env courseId selectionId st) in
  (forall s, In s (Planner.selections st') <->
             In s (Planner.selections st) /\ Selection.course_id s <> courseId)
  /\ sublist (Planner.selections st') (Planner.selections st)
  /\ Machine.references_count courseId (Planner.selections st') = 0%nat
  /\ (forall course,
        Planner.find_course (Planner.catalog st) courseId = Some course ->
        Course.is_additional_course course = false ->
        Planner.selections (fst (Planner.planCourse env2 courseId st'))
        = Planner.selections st' ++
          [Selection.mk courseId "planned"
             (Planner.generateSelectionId env2) None]).
Proof.
  intros Hfalsy st'.
  assert (E : Planner.selections st'
              = List.filter (fun s => negb (Planner.references courseId s))
                  (Planner.selections st)).
  { subst st'. rewrite removeCourse_selections. unfold Store.toggle_matches.
    now rewrite Hfalsy. }
  assert (Hin : forall s, In s (Planner.selections st') <->
                  In s (Planner.selections st)
                  /\ Selection.course_id s <> courseId).
  { intros s. rewrite E, List.filter_In. unfold Planner.references.
    now rewrite negb_true_iff, String.eqb_neq. }
  assert (Hnone : existsb (Planner.references courseId)
                    (Planner.selections st') = false).
  { apply existsb_references_false. intros s Hs. now apply Hin in Hs. }
  split; [exact Hin|]. split; [|split].
  - rewrite E. clear. induction (Planner.selections st) as [|s sels IH];
      cbn [List.filter]; [constructor|].
    destruct (negb _); [apply sublist_skip|apply sublist_cons]; exact IH.
  - now apply references_count_none.
  - intros course Hfind Hfixed.
    rewrite (planCourse_adds env2 st' courseId course); auto.
    + apply save_selections.
    + subst st'. now rewrite removeCourse_catalog.
Qed.

Lemma remove_whole_course_witness :
  Js.truthy (Some "") = false
  /\ Machine.references_count "FIX1"
       (Planner.selections
          (fst (Planner.removeCourse Sample.env "FIX1" (Some "")
                  Sample.mixed))) = 0%nat.
Proof.
  split; [reflexivity|].
  apply (remove_whole_course Sample.env Sample.env "FIX1" (Some "")
           Sample.mixed).
  reflexivity.
Defined.

(** X8. [removeCourse] undoes [planCourse]: after a fixed-credit course
    that had no selection is planned, removing it by course, or by the
    id just generated if no earlier selection carries that id, gives
    back the store as it was. *)
Theorem remove_undoes_plan env env2 courseId course st :
  Planner.find_course (Planner.catalog st) courseId = Some course ->
  Course.is_additional_course course = false ->
  (forall s, In s (Planner.selections st) ->
             Selection.course_id s <> courseId) ->
  let planned := fst (Planner.planCourse env courseId st) in
  Planner.selections (fst (Planner.removeCourse env2 courseId None planned))
  = Planner.selections st
  /\ (~ In (Planner.generateSelectionId env)
          (Machine.selection_ids (Planner.selections st)) ->
      Planner.selections
        (fst (Planner.removeCourse env2 "" 
                (Some (Planner.generateSelectionId env)) planned))
      = Planner.selections st).
Proof.
  intros Hfind Hfixed Hnone planned.
  assert (E : Planner.selections planned
              = Planner.selections st ++
                [Selection.mk courseId "planned"
                   (Planner.generateSelectionId env) None]).
  { subst planned. rewrite (planCourse_adds env st courseId course); auto.
    - apply save_selections.
    - now apply existsb_references_false. }
  split.
  - rewrite removeCourse_selections, E, List.filter_app.
    unfold Store.toggle_matches, Js.truthy, Planner.references.
    cbn [List.filter Selection.course_id].
    rewrite String.eqb_refl. cbn [negb]. rewrite app_nil_r.
    apply filter_all. intros s Hs. apply negb_true_iff.
    apply String.eqb_neq. now apply Hnone.
  - intros Hfresh. rewrite removeCourse_selections, E, List.filter_app.
    unfold Store.toggle_matches, Js.truthy.
    change (String.eqb (Planner.generateSelectionId env) "") with false.
    cbn [negb List.filter default from_option id Selection.selection_id].
    rewrite String.eqb_refl. cbn [negb]. rewrite app_nil_r.
    apply filter_all. intros s Hs. apply negb_true_iff.
    apply String.eqb_neq. intros Hid. apply Hfresh.
    unfold Machine.selection_ids. rewrite <- Hid. now apply in_map.
Qed.

Lemma remove_undoes_plan_witness :
  Planner.find_course (Planner.catalog Sample.fresh) "FIX1"
  = Some Sample.fixed1
  /\ Course.is_additional_course Sample.fixed1 = false
  /\ Planner.selections
       (fst (Planner.removeCourse Sample.env "FIX1" None
               (fst (Planner.planCourse Sample.env "FIX1" Sample.fresh))))
     = Planner.selections Sample.fresh.
Proof.
  split; [reflexivity|]. split; [reflexivity|].
  destruct (remove_undoes_plan Sample.env Sample.env "FIX1" Sample.fixed1
              Sample.fresh eq_refl eq_refl) as [H _].
  - intros s [].
  - exact H.
Defined.

(** X9. Removing twice is removing once, and a removal that matches
    nothing leaves the selections as they are (the list is still
    written to the storage). *)
Theorem remove_again_changes_nothing env env2 courseId selectionId st :
  let once := fst (Planner.removeCourse env courseId selectionId st) in
  Planner.selections
    (fst (Planner.removeCourse env2 courseId selectionId once))
  = Planner.selections once
  /\ ((forall s, In s (Planner.selections st) ->
         Store.toggle_matches courseId selectionId s = false) ->
      Planner.selections once = Planner.selections st
      /\ (Planner.setItem_ok env = true ->
          Planner.localStorage once !! Planner.STORAGE_KEY
          = Some (Json.stringify 0
                    (Planner.storage_envelope env (Planner.selections st))))).
Proof.
  intros once. subst once. split.
  - rewrite !removeCourse_selections. apply filter_twice.
  - intros Hnone.
    assert (E : Planner.selections
                  (fst (Planner.removeCourse env courseId selectionId st))
                = Planner.selections st).
    { rewrite removeCourse_selections. apply filter_all.
      intros s Hs. now rewrite (Hnone s Hs). }
    split; [exact E|]. intros Hok. unfold Planner.removeCourse in *.
    rewrite save_selections in E.
    match type of E with
    | ?sels = _ => destruct (save_written env st sels Hok) as [H _]
    end.
    rewrite H. now rewrite E.
Qed.

Lemma remove_again_changes_nothing_witness :
  (forall s, In s (Planner.selections Sample.two_fixed) ->
     Store.toggle_matches "AC1" None s = false)
  /\ Planner.selections
       (fst (Planner.removeCourse Sample.env "AC1" None Sample.two_fixed))
     = Planner.selections Sample.two_fixed.
Proof.
  assert (H : forall s, In s (Planner.selections Sample.two_fixed) ->
                Store.toggle_matches "AC1" None s = false)
    by (intros s [<-|[<-|[]]]; reflexivity).
  split; [exact H|].
  destruct (remove_again_changes_nothing Sample.env Sample.env "AC1" None
              Sample.two_fixed) as [_ H'].
  destruct (H' H) as [E _]. exact E.
Defined.

(** X10. [removeAllPlanned] asks first. Confirmed, it empties the store,
    and while the storage accepts the write a load returns the empty
    list; declined, it leaves the component exactly as it was. Either
    way the only question asked is the one about removing everything. *)
Theorem remove_all_asks_first env st :
  let result := Planner.removeAllPlanned env st in
  hd_error (snd result)
  = Some (Planner.Confirm "Alle geplanten Module entfernen?")
  /\ (Planner.confirmed env = false ->
      result = (st, [Planner.Confirm "Alle geplanten Module entfernen?"]))
  /\ (Planner.confirmed env = true ->
      Planner.selections (fst result) = []
      /\ (Planner.setItem_ok env = true ->
          Planner.loadSelectionsFromStorage (Planner.localStorage (fst result))
          = Some ([], []))).
Proof.
  intros result. subst result. unfold Planner.removeAllPlanned.
  destruct (Planner.confirmed env).
  - pose proof (save_selections env st []) as Hs.
    pose proof (fun H => save_synced env st [] H) as Hl.
    unfold Store.synced in Hl. rewrite Hs in Hl.
    destruct (Planner.save env st []) as [st' events]. cbn [fst snd] in *.
    split; [reflexivity|]. split; [discriminate|]. intros _. now split.
  - split; [reflexivity|]. split; [reflexivity|discriminate].
Qed.

Lemma remove_all_asks_first_witness :
  Planner.confirmed Sample.env = true
  /\ Planner.selections (fst (Planner.removeAllPlanned Sample.env Sample.mixed))
     = [].
Proof.
  split; [reflexivity|].
  destruct (remove_all_asks_first Sample.env Sample.mixed) as (_ & _ & H).
  destruct (H eq_refl) as [E _]. exact E.
Defined.

(** ** When the actions decline *)

Section Declining.
Import Planner Store Machine.

Lemma app_one_not_same {A} (l : list A) x : l ++ [x] <> l.
Proof.
  intros H. apply (f_equal (@length A)) in H.
  rewrite length_app in H. cbn in H. lia.
Qed.

Lemma addAdditionalCourse_success env courseId st :
  selections (fst (addAdditionalCourse env courseId st)) <> selections st ->
  exists course,
    find_course (catalog st) courseId = Some course
    /\ Course.is_additional_course course = true
    /\ additionalCourseEcts (fst (addAdditionalCourse env courseId st))
       = <[courseId := Js.Null]> (additionalCourseEcts st).
Proof.
  unfold addAdditionalCourse.
  destruct (find_course _ _) as [course|]; [|now intros H].
  destruct (Course.is_additional_course course) eqn:Hadd; [|now intros H].
  cbn [negb]. destruct (Js.parseInt _); [|now intros H].
  destruct (_ || _); [now intros H|].
  destruct (Z.gtb _ _); [now intros H|].
  intros _. exists course. split; [reflexivity|]. split; [exact Hadd|].
  unfold saveSelectionsToStorage. destruct (setItem_ok env); reflexivity.
Qed.
End Declining.

(** X11. [planCourse] changes the store in one case only: the course is
    in the catalog, is not an Additional Course module, and no selection
    references it. An unknown course and an already planned course are
    passed over in silence; an unplanned Additional Course module gets
    the request to enter an ECTS amount; in all three the component
    stays exactly as it was. *)
Theorem plan_declines env courseId st :
  (Planner.selections (fst (Planner.planCourse env courseId st))
   <> Planner.selections st
   <-> exists course,
         Planner.find_course (Planner.catalog st) courseId = Some course
         /\ Course.is_additional_course course = false
         /\ forall s, In s (Planner.selections st) ->
                      Selection.course_id s <> courseId)
  /\ (Planner.find_course (Planner.catalog st) courseId = None ->
      Planner.planCourse env courseId st = (st, []))
  /\ (forall course,
        Planner.find_course (Planner.catalog st) courseId = Some course ->
        Course.is_additional_course course = true ->
        Planner.planCourse env courseId st
        = (st, if existsb (Planner.references courseId) (Planner.selections st)
               then []
               else [Planner.Alert Planner.EnterEctsForAdditionalCourse])).
Proof.
  split; [|split].
  - unfold Planner.planCourse.
    destruct (Planner.find_course _ _) as [course|] eqn:Hfind.
    + destruct (existsb _ _) eqn:Hex.
      * split; [intros H; now destruct H|].
        intros (c & _ & _ & Hnone).
        apply (proj2 (existsb_references_false _ _)) in Hnone. congruence.
      * pose proof (proj1 (existsb_references_false _ _) Hex) as Hnone.
        destruct (Course.is_additional_course course) eqn:Hadd.
        -- split; [intros H; now destruct H|].
           intros (c & [= <-] & Hc & _). congruence.
        -- split; [intros _; exists course; auto|].
           intros _. rewrite save_selections. apply app_one_not_same.
    + split; [intros H; now destruct H|]. intros (c & Hc & _). discriminate.
  - intros Hfind. unfold Planner.planCourse. now rewrite Hfind.
  - intros course Hfind Hadd. unfold Planner.planCourse.
    rewrite Hfind, Hadd. now destruct (existsb _ _).
Qed.

Lemma plan_declines_witness :
  Planner.find_course (Planner.catalog Sample.fresh) "AC1"
  = Some Sample.additional
  /\ Planner.planCourse Sample.env "AC1" Sample.fresh
     = (Sample.fresh, [Planner.Alert Planner.EnterEctsForAdditionalCourse]).
Proof.
  split; [reflexivity|].
  exact (proj2 (proj2 (plan_declines Sample.env "AC1" Sample.fresh))
           Sample.additional eq_refl eq_refl).
Defined.

(** X12. A credit amount serves once: when [addAdditionalCourse] has
    added a selection it clears the ECTS field of the module, so calling
    it again before a new amount is entered adds nothing and asks for an
    amount. *)
Theorem add_uses_amount_once env env2 courseId st :
  let added := fst (Planner.addAdditionalCourse env courseId st) in
  Planner.selections added <> Planner.selections st ->
  Planner.entered added courseId = Js.Null
  /\ Planner.addAdditionalCourse env2 courseId added
     = (added, [Planner.Alert Planner.EnterEcts]).
Proof.
  intros added Hchg.
  destruct (addAdditionalCourse_success env courseId st Hchg)
    as (course & Hfind & Hadd & Hfield).
  assert (Hnull : Planner.entered added courseId = Js.Null).
  { unfold Planner.entered. subst added. rewrite Hfield.
    now rewrite lookup_insert_eq. }
  split; [exact Hnull|].
  assert (Hfind' : Planner.find_course (Planner.catalog added) courseId
                   = Some course).
  { subst added. now rewrite addAdditionalCourse_catalog. }
  pose proof (addAdditionalCourse_cases env2 courseId added course
                Hfind' Hadd) as H.
  rewrite Hnull in H. exact H.
Qed.

Lemma add_uses_amount_once_witness :
  Planner.selections
    (fst (Planner.addAdditionalCourse Sample.env "AC1" Sample.entered_fraction))
  <> Planner.selections Sample.entered_fraction
  /\ Planner.addAdditionalCourse Sample2.offline "AC1"
       (fst (Planner.addAdditionalCourse Sample.env "AC1"
               Sample.entered_fraction))
     = (fst (Planner.addAdditionalCourse Sample.env "AC1"
               Sample.entered_fraction),
        [Planner.Alert Planner.EnterEcts]).
Proof.
  assert (H : Planner.selections
                (fst (Planner.addAdditionalCourse Sample.env "AC1"
                        Sample.entered_fraction))
              <> Planner.selections Sample.entered_fraction)
    by discriminate.
  split; [exact H|].
  apply (add_uses_amount_once Sample.env Sample2.offline "AC1"
           Sample.entered_fraction H).
Defined.

(** X13. [addAdditionalCourse] does nothing at all, and shows nothing,
    for a course that is unknown or is not an Additional Course module;
    and whatever it is called on, it never shows the capacity message
    with a headroom that the entered amount would fit into. *)
Theorem add_declines env courseId st :
  (match Planner.find_course (Planner.catalog st) courseId with
   | Some course => Course.is_additional_course course = false
   | None => True
   end ->
   Planner.addAdditionalCourse env courseId st = (st, []))
  /\ (forall remaining,
        In (Planner.Alert (Planner.MaxAvailable remaining))
          (snd (Planner.addAdditionalCourse env courseId st)) ->
        exists e,
          Js.parseInt (Js.to_string (Planner.entered st courseId)) = Some e
          /\ remaining < e
          /\ fst (Planner.addAdditionalCourse env courseId st) = st).
Proof.
  split.
  - unfold Planner.addAdditionalCourse.
    destruct (Planner.find_course _ _) as [course|]; [|reflexivity].
    now intros ->.
  - intros remaining. unfold Planner.addAdditionalCourse.
    destruct (Planner.find_course _ _) as [course|]; [|intros []].
    destruct (negb _); [intros []|].
    destruct (Js.parseInt _) as [e|]; [|intros [[=]|[]]].
    destruct (_ || _); [intros [[=]|[]]|].
    destruct (Z.gtb_spec e
                (Planner.cap course
                 - Planner.committed courseId (Planner.selections st)))
      as [Hgt|Hle].
    + intros [[= <-]|[]]. exists e. repeat split; auto.
    + unfold Planner.saveSelectionsToStorage.
      destruct (Planner.setItem_ok env); cbn [snd].
      * intros [].
      * intros [[=]|[[=]|[]]].
Qed.

Lemma add_declines_witness :
  Planner.find_course (Planner.catalog Sample.fresh) "FIX1"
  = Some Sample.fixed1
  /\ Planner.addAdditionalCourse Sample.env "FIX1" Sample.fresh
     = (Sample.fresh, []).
Proof.
  split; [reflexivity|].
  destruct (add_declines Sample.env "FIX1" Sample.fresh) as [H _].
  apply H. reflexivity.
Defined.


Lemma importLocalData_cases env file st r :
  Planner.importLocalData env file st = Some r ->
  (file = None /\ r = (st, []))
  \/ (exists text, file = Some text
        /\ (Json.parse text = Json.SyntaxError
            \/ Json.parse text = Json.Ok Json.Null)
        /\ r = (st, [Planner.Alert
                       (Planner.ImportFailed (Planner.error_message env))]))
  \/ (exists text data, file = Some text
        /\ Json.parse text = Json.Ok data /\ data <> Json.Null
        /\ (forall items, Json.get "selections" data <> Some (Json.Arr items))
        /\ r = (st, [Planner.Alert Planner.InvalidFile]))
  \/ (exists text data items, file = Some text
        /\ Json.parse text = Json.Ok data
        /\ Json.get "selections" data = Some (Json.Arr items)
        /\ ((Planner.confirmed env = false /\ fst r = st)
            \/ (Planner.confirmed env = true
                /\ exists sels, Selection.list_of_json items = Some sels
                     /\ fst r = fst (Planner.save env st sels)))).
Proof.
  unfold Planner.importLocalData. intros Hrun.
  destruct file as [text|]; [|left; injection Hrun as <-; now split].
  right.
  destruct (Json.parse text) as [data| |] eqn:Hparse; [| |discriminate].
  2:{ left. exists text. injection Hrun as <-. auto. }
  assert (Harr : forall data1 items, data1 = data ->
            Json.get "selections" data1 = Some (Json.Arr items) ->
            (if Planner.confirmed env
             then match Selection.list_of_json items with
                  | Some sels =>
                      let '(st', events) := Planner.save env st sels in
                      Some (st', Planner.Confirm
                                   (Js.string_of_Z (Z.of_nat (length items)) ++
                                    " Module importieren? Aktuelle Planung wird ersetzt.")%string
                                 :: events)
                  | None => None
                  end
             else Some (st, [Planner.Confirm
                               (Js.string_of_Z (Z.of_nat (length items)) ++
                                " Module importieren? Aktuelle Planung wird ersetzt.")%string]))
            = Some r ->
            exists text0 data0 items0, Some text = Some text0
              /\ Json.parse text0 = Json.Ok data0
              /\ Json.get "selections" data0 = Some (Json.Arr items0)
              /\ ((Planner.confirmed env = false /\ fst r = st)
                  \/ (Planner.confirmed env = true
                      /\ exists sels,
                           Selection.list_of_json items0 = Some sels
                           /\ fst r = fst (Planner.save env st sels)))).
  { intros data1 items -> Hget H. exists text, data, items.
    split; [reflexivity|]. split; [exact Hparse|]. split; [exact Hget|].
    destruct (Planner.confirmed env).
    - right. split; [reflexivity|].
      destruct (Selection.list_of_json items) as [sels|]; [|discriminate].
      exists sels. split; [reflexivity|].
      destruct (Planner.save env st sels) as [st1 ev1].
      now injection H as <-.
    - left. split; [reflexivity|]. now injection H as <-. }
  assert (Hinv : forall data1 v, data1 = data ->
            Json.get "selections" data1 = v -> data <> Json.Null ->
            (forall items, v <> Some (Json.Arr items)) ->
            Some (st, [Planner.Alert Planner.InvalidFile]) = Some r ->
            exists text0 data0, Some text = Some text0
              /\ Json.parse text0 = Json.Ok data0 /\ data0 <> Json.Null
              /\ (forall items,
                    Json.get "selections" data0 <> Some (Json.Arr items))
              /\ r = (st, [Planner.Alert Planner.InvalidFile])).
  { intros data1 v -> Hv Hnn Hna [= <-]. exists text, data. rewrite Hv.
    auto. }
  destruct data as [|b|z|s|xs|ms].
  { left. exists text. injection Hrun as <-. auto. }
  all: right.
  all: destruct (Json.get "selections" _) as [v|] eqn:Hget;
    [destruct v as [| | | |items|]|];
    first [ right; now apply (Harr _ items eq_refl Hget)
          | left; eapply (Hinv _ _ eq_refl Hget);
            [discriminate|discriminate|exact Hrun] ].
Qed.

(** X14. [importLocalData] replaces the store only when a file was
    chosen, its text parses, its [selections] member is an array and the
    user confirms; the store is then exactly that array. No file changes
    nothing and shows nothing; a text that does not parse, or parses to
    [null], gives the import-failed message; any other text without an
    array under [selections] gives the invalid-file message. In all
    these cases, and when the user declines, the component is left as it
    was. *)
Theorem import_declines env file st st' events :
  Planner.importLocalData env file st = Some (st', events) ->
  (Planner.selections st' <> Planner.selections st ->
   Planner.confirmed env = true
   /\ exists text data items,
        file = Some text /\ Json.parse text = Json.Ok data
        /\ Json.get "selections" data = Some (Json.Arr items)
        /\ Selection.list_of_json items = Some (Planner.selections st'))
  /\ (file = None -> st' = st /\ events = [])
  /\ (forall text, file = Some text ->
        Json.parse text = Json.SyntaxError
        \/ Json.parse text = Json.Ok Json.Null ->
        st' = st
        /\ events = [Planner.Alert
                       (Planner.ImportFailed (Planner.error_message env))])
  /\ (forall text data, file = Some text ->
        Json.parse text = Json.Ok data -> data <> Json.Null ->
        (forall items, Json.get "selections" data <> Some (Json.Arr items)) ->
        st' = st /\ events = [Planner.Alert Planner.InvalidFile])
  /\ (Planner.confirmed env = false -> st' = st).
Proof.
  intros Hrun. apply importLocalData_cases in Hrun.
  destruct Hrun as
    [[-> [= <- <-]]
    |[(text & -> & Hp & [= <- <-])
     |[(text & data & -> & Hp & Hnn & Hna & [= <- <-])
      |(text & data & items & -> & Hp & Hget & Hc)]]].
  - split; [intros H; now destruct H|]. split; [auto|].
    split; [discriminate|]. split; [discriminate|]. reflexivity.
  - split; [intros H; now destruct H|]. split; [discriminate|].
    split; [auto|]. split; [|reflexivity].
    intros text0 data0 [= <-] Hp0 Hnn0 _.
    destruct Hp as [Hp|Hp]; rewrite Hp in Hp0; [discriminate|].
    injection Hp0 as <-. now destruct Hnn0.
  - split; [intros H; now destruct H|]. split; [discriminate|].
    split; [|split; [|reflexivity]].
    + intros text0 [= <-] [Hp0|Hp0]; rewrite Hp in Hp0; [discriminate|].
      injection Hp0 as ->. now destruct Hnn.
    + auto.
  - cbn [fst] in Hc.
    assert (Hno1 : forall text0, Some text = Some text0 ->
              Json.parse text0 = Json.SyntaxError
              \/ Json.parse text0 = Json.Ok Json.Null -> False).
    { intros text0 [= <-] [Hp0|Hp0]; rewrite Hp in Hp0; [discriminate|].
      injection Hp0 as ->. discriminate Hget. }
    assert (Hno2 : forall text0 data0, Some text = Some text0 ->
              Json.parse text0 = Json.Ok data0 ->
              (forall items,
                 Json.get "selections" data0 <> Some (Json.Arr items)) ->
              False).
    { intros text0 data0 [= <-] Hp0 Hna. rewrite Hp in Hp0.
      injection Hp0 as <-. exact (Hna items Hget). }
    destruct Hc as [[Hc ->]|(Hc & sels & Hsels & ->)].
    + split; [intros H; now destruct H|]. split; [discriminate|].
      split; [intros t Ht H; destruct (Hno1 t Ht H)|].
      split; [intros t d Ht H _ Hna; destruct (Hno2 t d Ht H Hna)|].
      reflexivity.
    + split.
      { intros _. split; [exact Hc|]. exists text, data, items.
        rewrite save_selections. auto. }
      split; [discriminate|].
      split; [intros t Ht H; destruct (Hno1 t Ht H)|].
      split; [intros t d Ht H _ Hna; destruct (Hno2 t d Ht H Hna)|].
      rewrite Hc. discriminate.
Qed.

Lemma import_declines_witness :
  Planner.importLocalData Sample.env (Some Sample.doubled_backup) Sample.fresh
  = Some (fst (Planner.save Sample.env Sample.fresh [Sample.sel1; Sample.sel1']),
          Planner.Confirm "2 Module importieren? Aktuelle Planung wird ersetzt."
          :: snd (Planner.save Sample.env Sample.fresh
                    [Sample.sel1; Sample.sel1']))
  /\ (Planner.selections
        (fst (Planner.save Sample.env Sample.fresh [Sample.sel1; Sample.sel1']))
      <> Planner.selections Sample.fresh ->
      Planner.confirmed Sample.env = true
      /\ exists text data items,
           Some Sample.doubled_backup = Some text
           /\ Json.parse text = Json.Ok data
           /\ Json.get "selections" data = Some (Json.Arr items)
           /\ Selection.list_of_json items
              = Some (Planner.selections
                        (fst (Planner.save Sample.env Sample.fresh
                                [Sample.sel1; Sample.sel1'])))).
Proof.
  assert (H : Planner.importLocalData Sample.env (Some Sample.doubled_backup)
                Sample.fresh
              = Some (fst (Planner.save Sample.env Sample.fresh
                             [Sample.sel1; Sample.sel1']),
                      Planner.Confirm
                        "2 Module importieren? Aktuelle Planung wird ersetzt."
                      :: snd (Planner.save Sample.env Sample.fresh
                                [Sample.sel1; Sample.sel1']))).
  { unfold Sample.doubled_backup. rewrite import_backup. reflexivity. }
  split; [exact H|].
  exact (proj1 (import_declines _ _ _ _ _ H)).
Defined.
(** ** What the actions keep true of the store *)

Section Keeping.
Import Planner Store Machine.

Lemma tidy_save env st sels :
  Forall (tidy_selection (catalog st)) sels -> tidy (fst (save env st sels)).
Proof. unfold tidy. now rewrite save_catalog, save_selections. Qed.

Lemma tidy_toggle courses s :
  tidy_selection courses s -> tidy_selection courses (toggle s).
Proof.
  intros (course & Hfind & _ & Hects). exists course.
  split; [exact Hfind|]. split; [|exact Hects].
  unfold toggle. cbn [Selection.status]. destruct (is_completed s); auto.
Qed.

Lemma Forall_toggle_first (P : Selection.t -> Prop) matches sels :
  (forall s, P s -> P (toggle s)) ->
  Forall P sels -> Forall P (toggle_first matches sels).
Proof.
  intros HP H. induction H as [|s sels Hs Hrest IH]; cbn [toggle_first].
  - constructor.
  - destruct (matches s).
    + apply List.Forall_cons; [now apply HP|assumption].
    + apply List.Forall_cons; assumption.
Qed.

Lemma Forall_filter_kept (P : Selection.t -> Prop) keep sels :
  Forall P sels -> Forall P (List.filter keep sels).
Proof.
  intros H. induction H as [|s sels Hs _ IH]; cbn [List.filter].
  - constructor.
  - destruct (keep s); [apply List.Forall_cons; assumption|assumption].
Qed.

Lemma planCourse_tidy env courseId st :
  tidy st -> tidy (fst (planCourse env courseId st)).
Proof.
  intros Ht. unfold planCourse.
  destruct (find_course _ _) as [course|] eqn:Hfind; [|exact Ht].
  destruct (existsb _ _); [exact Ht|].
  destruct (Course.is_additional_course course) eqn:Hadd; [exact Ht|].
  apply tidy_save. apply Forall_app. split; [exact Ht|].
  constructor; [|constructor]. exists course.
  cbn [Selection.course_id Selection.status Selection.ects].
  rewrite Hadd. auto.
Qed.

Lemma addAdditionalCourse_tidy env courseId st :
  tidy st -> tidy (fst (addAdditionalCourse env courseId st)).
Proof.
  intros Ht. unfold tidy. rewrite addAdditionalCourse_catalog.
  destruct (find_course (catalog st) courseId) as [course|] eqn:Hfind.
  2:{ unfold addAdditionalCourse. rewrite Hfind. exact Ht. }
  destruct (Course.is_additional_course course) eqn:Hadd.
  2:{ unfold addAdditionalCourse. rewrite Hfind, Hadd. exact Ht. }
  pose proof (addAdditionalCourse_cases env courseId st course Hfind Hadd)
    as Hcases.
  destruct (Js.parseInt _) as [ects|]; [|rewrite Hcases; exact Ht].
  destruct (Z.ltb_spec ects 1) as [Hlt|Hge]; [rewrite Hcases; exact Ht|].
  cbv zeta in Hcases.
  destruct (Z.gtb _ _); rewrite Hcases; [exact Ht|].
  apply Forall_app. split; [exact Ht|].
  constructor; [|constructor]. exists course.
  cbn [Selection.course_id Selection.status Selection.ects].
  rewrite Hadd. split; [exact Hfind|]. split; [auto|]. now exists ects.
Qed.

Lemma removeCourse_tidy env courseId selectionId st :
  tidy st -> tidy (fst (removeCourse env courseId selectionId st)).
Proof.
  intros Ht. unfold removeCourse. apply tidy_save.
  destruct (Js.truthy selectionId); now apply Forall_filter_kept.
Qed.

Lemma toggleCompleted_tidy env courseId selectionId st :
  tidy st -> tidy (fst (toggleCompleted env courseId selectionId st)).
Proof.
  intros Ht. unfold toggleCompleted. apply tidy_save.
  apply Forall_toggle_first; [apply tidy_toggle|exact Ht].
Qed.

Lemma removeAllPlanned_tidy env st :
  tidy st -> tidy (fst (removeAllPlanned env st)).
Proof.
  intros Ht. unfold removeAllPlanned. destruct (confirmed env); [|exact Ht].
  pose proof (tidy_save env st [] (List.Forall_nil _)) as H.
  destruct (save env st []) as [st' events]. exact H.
Qed.

Lemma run_tidy env a st st' events :
  is_import a = false ->
  run env a st = Some (st', events) ->
  tidy st -> tidy st'.
Proof.
  intros Ha Hrun Ht.
  assert (Hfst : forall r : State * list event,
             Some r = Some (st', events) -> st' = fst r)
    by (intros r [= ->]; reflexivity).
  destruct a; try discriminate Ha; cbn [run] in Hrun;
    apply Hfst in Hrun; subst st'.
  - now apply planCourse_tidy.
  - exact Ht.
  - now apply addAdditionalCourse_tidy.
  - now apply removeCourse_tidy.
  - now apply toggleCompleted_tidy.
  - now apply removeAllPlanned_tidy.
Qed.

(** The credit a selection adds to the committed total of a course. *)
Lemma committed_cons courseId s sels :
  committed courseId (s :: sels)
  = (if references courseId s then Js.num_or (Selection.ects s) 0 else 0)
    + committed courseId sels.
Proof.
  change (s :: sels) with ([s] ++ sels). rewrite committed_app. f_equal.
  unfold committed. cbn [List.filter].
  destruct (references courseId s); cbn [fold_left]; lia.
Qed.

Lemma tidy_credit_not_negative courses s :
  tidy_selection courses s -> 0 <= Js.num_or (Selection.ects s) 0.
Proof.
  intros (course & _ & _ & Hects).
  destruct (Course.is_additional_course course).
  - destruct Hects as (e & -> & He). cbn [Js.num_or].
    destruct (Z.eqb e 0); lia.
  - rewrite Hects. cbn [Js.num_or]. lia.
Qed.

Lemma committed_filter courses courseId keep sels :
  Forall (tidy_selection courses) sels ->
  0 <= committed courseId (List.filter keep sels)
    <= committed courseId sels.
Proof.
  intros H. induction H as [|s sels Hs _ IH]; cbn [List.filter].
  - unfold committed. cbn. lia.
  - apply tidy_credit_not_negative in Hs.
    destruct (keep s); rewrite ?committed_cons;
      destruct (references courseId s); lia.
Qed.

Lemma committed_toggle_first courseId matches sels :
  committed courseId (toggle_first matches sels) = committed courseId sels.
Proof.
  induction sels as [|s sels IH]; [reflexivity|]. cbn [toggle_first].
  destruct (matches s); rewrite !committed_cons; [reflexivity|].
  now rewrite IH.
Qed.

Lemma within_caps_save env st sels :
  (forall courseId course,
     find_course (catalog st) courseId = Some course ->
     Course.is_additional_course course = true ->
     committed courseId sels <= Z.max 0 (cap course)) ->
  within_caps (fst (save env st sels)).
Proof. unfold within_caps. now rewrite save_catalog, save_selections. Qed.

Lemma planCourse_within_caps env courseId st :
  within_caps st -> within_caps (fst (planCourse env courseId st)).
Proof.
  intros Hc. unfold planCourse.
  destruct (find_course _ _) as [course|] eqn:Hfind; [|exact Hc].
  destruct (existsb _ _); [exact Hc|].
  destruct (Course.is_additional_course course) eqn:Hadd; [exact Hc|].
  apply within_caps_save. intros cid c Hf Ha.
  rewrite committed_app, committed_cons.
  cbn [Selection.ects Js.num_or].
  specialize (Hc cid c Hf Ha). unfold committed at 2. cbn [List.filter fold_left].
  destruct (references cid _); lia.
Qed.

Lemma addAdditionalCourse_within_caps env courseId st :
  within_caps st -> within_caps (fst (addAdditionalCourse env courseId st)).
Proof.
  intros Hc. unfold within_caps. rewrite addAdditionalCourse_catalog.
  destruct (find_course (catalog st) courseId) as [course|] eqn:Hfind.
  2:{ unfold addAdditionalCourse. rewrite Hfind. exact Hc. }
  destruct (Course.is_additional_course course) eqn:Hadd.
  2:{ unfold addAdditionalCourse. rewrite Hfind, Hadd. exact Hc. }
  pose proof (addAdditionalCourse_cases env courseId st course Hfind Hadd)
    as Hcases.
  destruct (Js.parseInt _) as [ects|]; [|rewrite Hcases; exact Hc].
  destruct (Z.ltb_spec ects 1) as [Hlt|Hge]; [rewrite Hcases; exact Hc|].
  cbv zeta in Hcases.
  destruct (Z.gtb_spec ects (cap course - committed courseId (selections st)))
    as [Hgt|Hle]; rewrite Hcases; [exact Hc|].
  intros cid c Hf Ha. rewrite committed_app, committed_cons.
  unfold references at 1. cbn [Selection.course_id Selection.ects].
  specialize (Hc cid c Hf Ha).
  replace (committed cid []) with 0 by reflexivity.
  destruct (String.eqb_spec courseId cid) as [->|_]; [|lia].
  rewrite Hfind in Hf. injection Hf as <-.
  cbn [Js.num_or]. destruct (Z.eqb_spec ects 0); lia.
Qed.

Lemma removeCourse_within_caps env courseId selectionId st :
  tidy st -> within_caps st ->
  within_caps (fst (removeCourse env courseId selectionId st)).
Proof.
  intros Ht Hc. unfold removeCourse. apply within_caps_save.
  intros cid c Hf Ha. specialize (Hc cid c Hf Ha).
  destruct (Js.truthy selectionId);
    match goal with
    | |- committed _ (List.filter ?keep _) <= _ =>
        pose proof (committed_filter (catalog st) cid keep (selections st) Ht)
    end; lia.
Qed.

Lemma toggleCompleted_within_caps env courseId selectionId st :
  within_caps st ->
  within_caps (fst (toggleCompleted env courseId selectionId st)).
Proof.
  intros Hc. unfold toggleCompleted. apply within_caps_save.
  intros cid c Hf Ha. rewrite committed_toggle_first. exact (Hc cid c Hf Ha).
Qed.

Lemma removeAllPlanned_within_caps env st :
  within_caps st -> within_caps (fst (removeAllPlanned env st)).
Proof.
  intros Hc. unfold removeAllPlanned. destruct (confirmed env); [|exact Hc].
  assert (H : within_caps (fst (save env st []))).
  { apply within_caps_save. intros cid c _ _. unfold committed. cbn. lia. }
  destruct (save env st []) as [st' events]. exact H.
Qed.

Lemma run_within_caps env a st st' events :
  is_import a = false ->
  run env a st = Some (st', events) ->
  tidy st -> within_caps st -> within_caps st'.
Proof.
  intros Ha Hrun Ht Hc.
  assert (Hfst : forall r : State * list event,
             Some r = Some (st', events) -> st' = fst r)
    by (intros r [= ->]; reflexivity).
  destruct a; try discriminate Ha; cbn [run] in Hrun;
    apply Hfst in Hrun; subst st'.
  - now apply planCourse_within_caps.
  - exact Hc.
  - now apply addAdditionalCourse_within_caps.
  - now apply removeCourse_within_caps.
  - now apply toggleCompleted_within_caps.
  - now apply removeAllPlanned_within_caps.
Qed.
End Keeping.

(** X15. The selections the actions create are well formed. From a store
    in which every selection is of a catalog course, is planned or
    completed, and carries a credit amount (of at least 1) exactly when
    its course is an Additional Course module, every store reached by
    [planCourse], [addAdditionalCourse], [removeCourse],
    [toggleCompleted], [removeAllPlanned] and typing into an ECTS field
    is again such a store. *)
Theorem store_stays_tidy start st :
  Store.tidy start ->
  Machine.reachable (fun a => negb (Machine.is_import a)) start st ->
  Store.tidy st.
Proof.
  intros Hstart Hreach.
  induction Hreach as [|st env a st' events _ IH Ha Hrun]; [exact Hstart|].
  apply negb_true_iff in Ha. exact (run_tidy _ _ _ _ _ Ha Hrun IH).
Qed.

Lemma store_stays_tidy_witness :
  Store.tidy Sample.fresh
  /\ Machine.reachable (fun a => negb (Machine.is_import a)) Sample.fresh
       (fst (Planner.planCourse Sample.env "FIX1" Sample.fresh))
  /\ Store.tidy (fst (Planner.planCourse Sample.env "FIX1" Sample.fresh)).
Proof.
  assert (H1 : Store.tidy Sample.fresh) by apply List.Forall_nil.
  assert (H2 : Machine.reachable (fun a => negb (Machine.is_import a))
                 Sample.fresh
                 (fst (Planner.planCourse Sample.env "FIX1" Sample.fresh))).
  { apply Machine.reach_step with (st := Sample.fresh) (env := Sample.env)
      (a := Machine.Plan "FIX1")
      (events := snd (Planner.planCourse Sample.env "FIX1" Sample.fresh));
      [apply Machine.reach_start|reflexivity|].
    cbn [Machine.run]. f_equal. }
  split; [exact H1|]. split; [exact H2|].
  apply (store_stays_tidy Sample.fresh _ H1 H2).
Defined.

(** X16. The cap of an Additional Course module holds in every store the
    actions reach, not only at the moment of adding: from a well-formed
    store in which the credit committed to each such module is at most
    [max_ects || 18] (or zero, where that is negative), the same is true
    after any sequence of actions other than the import. *)
Theorem committed_credit_stays_within_cap start st :
  Store.tidy start -> Store.within_caps start ->
  Machine.reachable (fun a => negb (Machine.is_import a)) start st ->
  Store.within_caps st.
Proof.
  intros Ht Hc Hreach.
  assert (H : Store.tidy st /\ Store.within_caps st).
  { induction Hreach as [|st env a st' events _ IH Ha Hrun]; [now split|].
    apply negb_true_iff in Ha. destruct IH as [IHt IHc]. split.
    - exact (run_tidy _ _ _ _ _ Ha Hrun IHt).
    - exact (run_within_caps _ _ _ _ _ Ha Hrun IHt IHc). }
  exact (proj2 H).
Qed.

Lemma committed_credit_stays_within_cap_witness :
  Store.tidy Sample.fresh /\ Store.within_caps Sample.fresh
  /\ Machine.reachable (fun a => negb (Machine.is_import a)) Sample.fresh
       (fst (Planner.addAdditionalCourse Sample.env "AC1"
               (Machine.enter "AC1" "10" Sample.fresh)))
  /\ Store.within_caps
       (fst (Planner.addAdditionalCourse Sample.env "AC1"
               (Machine.enter "AC1" "10" Sample.fresh))).
Proof.
  assert (H1 : Store.tidy Sample.fresh) by apply List.Forall_nil.
  assert (H2 : Store.within_caps Sample.fresh).
  { intros cid c _ _. change (0 <= Z.max 0 (Planner.cap c)). lia. }
  assert (H3 : Machine.reachable (fun a => negb (Machine.is_import a))
                 Sample.fresh
                 (fst (Planner.addAdditionalCourse Sample.env "AC1"
                         (Machine.enter "AC1" "10" Sample.fresh)))).
  { apply Machine.reach_step
      with (st := Machine.enter "AC1" "10" Sample.fresh) (env := Sample.env)
           (a := Machine.AddAdditionalCourse "AC1")
           (events := snd (Planner.addAdditionalCourse Sample.env "AC1"
                             (Machine.enter "AC1" "10" Sample.fresh)));
      [|reflexivity|cbn [Machine.run]; f_equal].
    apply Machine.reach_step
      with (st := Sample.fresh) (env := Sample.env)
           (a := Machine.Enter "AC1" "10") (events := []);
      [apply Machine.reach_start|reflexivity|reflexivity]. }
  split; [exact H1|]. split; [exact H2|]. split; [exact H3|].
  apply (committed_credit_stays_within_cap Sample.fresh _ H1 H2 H3).
Defined.
(** ** Credit per area *)

Section Areas.
Import Planner Store.

Lemma num_or_zero x : Js.num_or x 0 = default 0 x.
Proof.
  destruct x as [n|]; [|reflexivity]. cbn.
  destruct (Z.eqb_spec n 0); congruence.
Qed.

(** What the loop of [area_progress] has under a key once it is done. *)
Lemma ects_by_area_loop courses sels (ectsByArea : gmap string Z) k :
  Js.num_or
    (fold_left
       (fun (ectsByArea : gmap string Z) sel =>
          match find_course courses (Selection.course_id sel) with
          | None => ectsByArea
          | Some course =>
              let areaId := area_key course in
              let ects :=
                Js.num_or (Selection.ects sel)
                  (Js.num_or (Course.ects course) 0) in
              <[areaId := Js.num_or (ectsByArea !! areaId) 0 + ects]>
                ectsByArea
          end)
       sels ectsByArea !! k) 0
  = Js.num_or (ectsByArea !! k) 0 + area_sum courses k sels.
Proof.
  revert ectsByArea. induction sels as [|s sels IH]; intros m;
    cbn [fold_left].
  - unfold area_sum. cbn. lia.
  - rewrite IH. unfold area_sum. cbn [List.filter].
    destruct (find_course courses (Selection.course_id s)) as [course|]
      eqn:Hfind.
    2:{ replace (counts_towards courses k s) with false
          by (unfold counts_towards; now rewrite Hfind).
        reflexivity. }
    assert (Hcount : counts_towards courses k s
                     = String.eqb (area_key course) k)
      by (unfold counts_towards; now rewrite Hfind).
    assert (Hcredit : credit courses s
                      = Js.num_or (Selection.ects s)
                          (Js.num_or (Course.ects course) 0))
      by (unfold credit; now rewrite Hfind).
    rewrite Hcount. cbv zeta.
    destruct (String.eqb_spec (area_key course) k) as [->|Hne].
    + rewrite lookup_insert_eq. cbn [map fold_right].
      rewrite (num_or_zero (Some _)), Hcredit. cbn [default from_option id]. lia.
    + rewrite lookup_insert_ne by exact Hne. reflexivity.
Qed.

Lemma ects_by_area_sum courses sels k :
  Js.num_or (ects_by_area courses sels !! k) 0 = area_sum courses k sels.
Proof.
  unfold ects_by_area. rewrite ects_by_area_loop.
  rewrite lookup_empty. cbn. lia.
Qed.

(** A selection counted under one of the listed areas adds its credit to
    exactly one of them. *)
Lemma area_sums_cons courses s sels ids :
  fold_right Z.add 0 (map (fun k => area_sum courses k (s :: sels)) ids)
  = fold_right Z.add 0
      (map (fun k => if counts_towards courses k s
                     then credit courses s else 0) ids)
    + fold_right Z.add 0 (map (fun k => area_sum courses k sels) ids).
Proof.
  induction ids as [|k ids IH]; [reflexivity|]. cbn [map fold_right].
  rewrite IH. unfold area_sum at 1. cbn [List.filter].
  destruct (counts_towards courses k s); cbn [map fold_right];
    fold (area_sum courses k sels); lia.
Qed.

Lemma counted_once courses s ids course :
  find_course courses (Selection.course_id s) = Some course ->
  List.NoDup ids -> In (area_key course) ids ->
  fold_right Z.add 0
    (map (fun k => if counts_towards courses k s
                   then credit courses s else 0) ids)
  = credit courses s.
Proof.
  intros Hfind Hnd Hin. unfold counts_towards. rewrite Hfind.
  induction Hnd as [|k ids Hk Hnd IH]; [destruct Hin|].
  cbn [map fold_right].
  destruct (String.eqb_spec (area_key course) k) as [E|Hne].
  - subst k.
    replace (fold_right Z.add 0 _) with 0; [lia|]. symmetry.
    clear IH Hin Hnd. induction ids as [|k ids IH]; [reflexivity|].
    cbn [map fold_right].
    destruct (String.eqb_spec (area_key course) k) as [E|_].
    + exfalso. apply Hk. left. now symmetry.
    + rewrite IH; [reflexivity|]. intros H. apply Hk. now right.
  - destruct Hin as [E|Hin]; [now destruct Hne|]. now rewrite IH.
Qed.
End Areas.

(** X17. What [area_progress] reports as planned. Without rules there is
    no entry. With rules, and no area key naming a member of
    [Object.prototype], there is one entry per rule, in the order of the
    rules, and the planned ECTS of the entry of an area is the sum of
    [sel.ects || course.ects || 0] over the selections whose course is
    found in the catalog and has this area as its
    [area_id || 'unassigned']; selections of courses the catalog does
    not have count for no area. *)
Theorem area_planned_is_area_sum st :
  (Planner.rules st = None -> Planner.area_progress st = Some [])
  /\ (forall areas entries,
        Planner.rules st = Some areas ->
        Planner.area_progress st = Some entries ->
        map Planner.area_id entries = map Area.id areas
        /\ map Planner.area_planned_ects entries
           = map (fun area =>
                    Store.area_sum (Planner.catalog st) (Area.id area)
                      (Planner.selections st)) areas).
Proof.
  unfold Planner.area_progress. split; [now intros ->|].
  intros areas entries ->.
  destruct (forallb _ _); [|discriminate].
  intros [= <-]. rewrite !map_map. split; [reflexivity|].
  apply map_ext. intros area. unfold Planner.area_entry.
  cbn [Planner.area_planned_ects]. apply ects_by_area_sum.
Qed.

Lemma area_planned_is_area_sum_witness :
  Planner.rules Sample.mixed = Some [Sample.area_a; Sample.area_b]
  /\ exists entries,
       Planner.area_progress Sample.mixed = Some entries
       /\ map Planner.area_planned_ects entries
          = [Store.area_sum (Planner.catalog Sample.mixed) "area-a"
               (Planner.selections Sample.mixed);
             Store.area_sum (Planner.catalog Sample.mixed) "area-b"
               (Planner.selections Sample.mixed)].
Proof.
  split; [reflexivity|]. eexists. split; [reflexivity|].
  exact (proj2 (proj2 (area_planned_is_area_sum Sample.mixed)
                  [Sample.area_a; Sample.area_b] _ eq_refl eq_refl)).
Defined.

(** X18. The areas split the planned credit. When the rules list each
    area once, every selection is of a catalog course, the area key of
    that course is among the rules and no area key names a member of
    [Object.prototype], the planned ECTS of the entries of
    [area_progress] add up to the planned ECTS of [summary]. *)
Theorem area_credits_add_up st areas entries :
  Planner.rules st = Some areas ->
  List.NoDup (map Area.id areas) ->
  (forall sel, In sel (Planner.selections st) ->
     exists course,
       Planner.find_course (Planner.catalog st) (Selection.course_id sel)
       = Some course
       /\ In (Planner.area_key course) (map Area.id areas)) ->
  Planner.area_progress st = Some entries ->
  fold_right Z.add 0 (map Planner.area_planned_ects entries)
  = Planner.planned_ects (Planner.summary st).
Proof.
  intros Hrules Hnd Hall Hrun.
  destruct (summary_fields st) as [-> _].
  unfold Planner.area_progress in Hrun. rewrite Hrules in Hrun.
  destruct (forallb _ _); [|discriminate Hrun].
  injection Hrun as <-. rewrite map_map.
  rewrite (map_ext _ (fun area =>
             Store.area_sum (Planner.catalog st) (Area.id area)
               (Planner.selections st)))
    by (intros area; apply ects_by_area_sum).
  rewrite <- (map_map Area.id
                (fun k => Store.area_sum (Planner.catalog st) k
                            (Planner.selections st))).
  induction (Planner.selections st) as [|s sels IH].
  - clear. induction (map Area.id areas) as [|k ids IH]; [reflexivity|].
    cbn [map fold_right]. rewrite IH. reflexivity.
  - rewrite area_sums_cons, IH by (intros sel Hin; apply Hall; now right).
    destruct (Hall s (or_introl eq_refl)) as (course & Hfind & Hin).
    rewrite (counted_once _ _ _ course Hfind Hnd Hin). reflexivity.
Qed.

Lemma area_credits_add_up_witness :
  Planner.rules Sample.mixed = Some [Sample.area_a; Sample.area_b]
  /\ List.NoDup (map Area.id [Sample.area_a; Sample.area_b])
  /\ exists entries,
       Planner.area_progress Sample.mixed = Some entries
       /\ fold_right Z.add 0 (map Planner.area_planned_ects entries)
          = Planner.planned_ects (Planner.summary Sample.mixed).
Proof.
  assert (H1 : List.NoDup (map Area.id [Sample.area_a; Sample.area_b])).
  { apply List.NoDup_cons; [intros [H|[]]; discriminate H|].
    apply List.NoDup_cons; [intros []|apply List.NoDup_nil]. }
  split; [reflexivity|]. split; [exact H1|].
  eexists. split; [reflexivity|].
  apply (area_credits_add_up Sample.mixed [Sample.area_a; Sample.area_b]
           _ eq_refl H1); [|reflexivity].
  intros sel [<-|[<-|[<-|[]]]].
  - exists Sample.fixed1. split; [reflexivity|]. left. reflexivity.
  - exists Sample.fixed2. split; [reflexivity|]. left. reflexivity.
  - exists Sample.additional. split; [reflexivity|]. right. left. reflexivity.
Defined.
(** ** The merged course list *)

Section Rows.
Import Planner View.

(** What the first loop of [courses] has under a key once it is done. *)
Lemma selectionMap_loop sels (m : gmap string (list Selection.t)) k :
  default []
    (fold_left
       (fun (selectionMap : gmap string (list Selection.t)) sel =>
          <[Selection.course_id sel :=
              default [] (selectionMap !! Selection.course_id sel) ++ [sel]]>
            selectionMap)
       sels m !! k)
  = default [] (m !! k) ++ List.filter (references k) sels.
Proof.
  revert m. induction sels as [|s sels IH]; intros m; cbn [fold_left].
  - cbn [List.filter]. now rewrite app_nil_r.
  - rewrite IH. cbn [List.filter]. unfold references at 2.
    destruct (String.eqb_spec (Selection.course_id s) k) as [->|Hne].
    + rewrite lookup_insert_eq. cbn [default from_option id].
      now rewrite <- app_assoc.
    + rewrite lookup_insert_ne by exact Hne. reflexivity.
Qed.

Lemma selectionMap_lookup sels k :
  default [] (selectionMap sels !! k) = List.filter (references k) sels.
Proof.
  unfold selectionMap. rewrite selectionMap_loop, lookup_empty. reflexivity.
Qed.
End Rows.
(** ** The steps of the course list *)

Section Order.
Import Planner View.

Lemma insert_row_perm cmp c rows :
  Permutation (insert_row cmp c rows) (c :: rows).
Proof.
  induction rows as [|d rest IH]; cbn [insert_row]; [reflexivity|].
  destruct (Z.leb _ _); [reflexivity|].
  rewrite IH. apply perm_swap.
Qed.

Lemma sort_rows_perm cmp rows : Permutation (sort_rows cmp rows) rows.
Proof.
  induction rows as [|c rows IH]; [reflexivity|].
  cbn [sort_rows fold_right]. fold (sort_rows cmp rows).
  rewrite insert_row_perm. now apply perm_skip.
Qed.

Lemma filter_query_spec q rows kept :
  filter_query q rows = Some kept ->
  kept = List.filter
           (fun c => match matches_query q c with
                     | Some keep => keep
                     | None => false
                     end) rows.
Proof.
  revert kept. induction rows as [|c rows IH]; intros kept; cbn.
  - now intros [= <-].
  - destruct (matches_query q c) as [keep|]; [|discriminate].
    destruct (filter_query q rows) as [kept'|]; [|discriminate].
    intros [= <-]. rewrite (IH kept' eq_refl). now destruct keep.
Qed.
End Order.
Section Listed.
Import Planner View.

(** The steps of [courses] when it is followed and the sort key is
    known. *)
Lemma courses_steps listings selections filters sort f :
  modelled listings selections filters = true ->
  field_of (sort_by sort) = Some f ->
  courses listings selections filters sort
  = match (if Js.truthy (Some (q filters))
           then filter_query (Text.toLowerCase (q filters))
                  (merged listings selections)
           else Some (merged listings selections)) with
    | None => Throws
    | Some result =>
        Returns
          (sort_rows
             (compare_rows f (direction (String.eqb (dir sort) "desc")))
             (if Nat.ltb 0 (length (areas filters))
              then List.filter (in_areas (areas filters)) result
              else result))
    end.
Proof.
  intros Hm Hf. unfold courses. rewrite Hm, Hf. reflexivity.
Qed.

Lemma courses_known listings selections filters sort :
  courses listings selections filters sort <> Unmodelled ->
  modelled listings selections filters = true
  /\ exists f, field_of (sort_by sort) = Some f.
Proof.
  unfold courses. destruct (modelled _ _ _); [|now intros H].
  destruct (field_of _) as [f|]; [|now intros H].
  intros _. split; [reflexivity|]. now exists f.
Qed.

Lemma filter_filter_and {A} (p1 p2 : A -> bool) l :
  List.filter p2 (List.filter p1 l) = List.filter (fun x => p1 x && p2 x) l.
Proof.
  induction l as [|x l IH]; [reflexivity|]. cbn [List.filter].
  destruct (p1 x); cbn [List.filter andb]; [|exact IH].
  destruct (p2 x); now rewrite IH.
Qed.

Lemma filter_true {A} (l : list A) : List.filter (fun _ => true) l = l.
Proof. induction l as [|x l IH]; [reflexivity|]. cbn. now rewrite IH. Qed.

(** Where [courses] returns, it returns the sorted rows that pass the
    filters. *)
Lemma courses_returns listings selections filters sort rows :
  courses listings selections filters sort = Returns rows ->
  exists f,
    field_of (sort_by sort) = Some f
    /\ rows = sort_rows
                (compare_rows f (direction (String.eqb (dir sort) "desc")))
                (List.filter (shown filters) (merged listings selections)).
Proof.
  intros Hrun.
  destruct (courses_known listings selections filters sort) as [Hm [f Hf]];
    [now rewrite Hrun|].
  rewrite (courses_steps _ _ _ _ f Hm Hf) in Hrun.
  exists f. split; [exact Hf|].
  unfold shown.
  destruct (Js.truthy (Some (q filters))).
  - destruct (filter_query _ _) as [kept|] eqn:Hq; [|discriminate].
    apply filter_query_spec in Hq. subst kept.
    injection Hrun as <-. f_equal.
    destruct (Nat.ltb 0 _).
    + apply filter_filter_and.
    + apply List.filter_ext. intros c. now rewrite andb_true_r.
  - injection Hrun as <-. f_equal.
    destruct (Nat.ltb 0 _); [reflexivity|]. symmetry. apply filter_true.
Qed.


End Listed.



(** ** The statistics of the planned rows *)

Section Stats.
Import Planner View.





Lemma find_course_listed listings l :
  List.NoDup (map (fun l => Course.id (course l)) listings) ->
  In l listings ->
  find_course (map course listings) (Course.id (course l)) = Some (course l).
Proof.
  unfold find_course. induction listings as [|l0 listings IH];
    intros Hnd Hin; [destruct Hin|].
  cbn [map List.find]. inversion Hnd as [|? ? Hnot Hnd']; subst.
  destruct Hin as [->|Hin]; [now rewrite String.eqb_refl|].
  destruct (String.eqb_spec (Course.id (course l0)) (Course.id (course l)))
    as [E|_]; [|now apply IH].
  exfalso. apply Hnot. rewrite E.
  apply (in_map (fun l => Course.id (course l))). exact Hin.
Qed.







End Stats.


(** ** The helpers of the page *)

Section Helpers.
Import Planner View.

Lemma existsb_eqb_In a l : existsb (String.eqb a) l = true <-> In a l.
Proof.
  rewrite existsb_exists. split.
  - intros (x & Hin & E). apply String.eqb_eq in E. now subst.
  - intros Hin. exists a. split; [exact Hin|apply String.eqb_refl].
Qed.

Lemma existsb_eqb_app a l1 l2 :
  existsb (String.eqb a) (l1 ++ l2)
  = existsb (String.eqb a) l1 || existsb (String.eqb a) l2.
Proof. apply existsb_app. Qed.

Lemma remove_first_In a b arr :
  In b (remove_first a arr) -> In b arr.
Proof.
  induction arr as [|x arr IH]; cbn [remove_first]; [auto|].
  destruct (String.eqb x a); [now right|].
  intros [->|H]; [now left|right; now apply IH].
Qed.

Lemma remove_first_NoDup a arr :
  List.NoDup arr -> List.NoDup (remove_first a arr).
Proof.
  intros H. induction H as [|x arr Hx Hnd IH]; cbn [remove_first];
    [apply List.NoDup_nil|].
  destruct (String.eqb x a); [exact Hnd|].
  apply List.NoDup_cons; [|exact IH].
  intros Hin. apply Hx. now apply remove_first_In in Hin.
Qed.

Lemma remove_first_gone a arr :
  List.NoDup arr -> ~ In a (remove_first a arr).
Proof.
  intros H. induction H as [|x arr Hx Hnd IH]; cbn [remove_first];
    [now intros []|].
  destruct (String.eqb_spec x a) as [->|Hne]; [exact Hx|].
  intros [E|Hin]; [now destruct Hne|now apply IH].
Qed.

Lemma remove_first_other a b arr :
  b <> a -> In b arr -> In b (remove_first a arr).
Proof.
  intros Hne. induction arr as [|x arr IH]; cbn [remove_first]; [auto|].
  destruct (String.eqb_spec x a) as [->|_].
  - intros [E|H]; [now destruct Hne|exact H].
  - intros [->|H]; [now left|right; now apply IH].
Qed.

Lemma push_NoDup (a : string) arr :
  List.NoDup arr -> ~ In a arr -> List.NoDup (arr ++ [a]).
Proof.
  intros H. induction H as [|x arr Hx Hnd IH]; intros Ha; cbn [app].
  - apply List.NoDup_cons; [intros []|apply List.NoDup_nil].
  - apply List.NoDup_cons.
    + intros Hin. apply in_app_or in Hin as [Hin|[->|[]]]; [now apply Hx|].
      apply Ha. now left.
    + apply IH. intros Hin. apply Ha. now right.
Qed.

(** One array of [collapsedAreas] after a toggle. *)
Lemma toggled_array a arr :
  List.NoDup arr ->
  let arr' := if existsb (String.eqb a) arr
              then remove_first a arr else arr ++ [a] in
  List.NoDup arr'
  /\ existsb (String.eqb a) arr' = negb (existsb (String.eqb a) arr)
  /\ forall b, b <> a ->
       existsb (String.eqb b) arr' = existsb (String.eqb b) arr.
Proof.
  intros Hnd. cbv zeta.
  destruct (existsb (String.eqb a) arr) eqn:Hin.
  - split; [now apply remove_first_NoDup|]. split.
    + cbn [negb]. destruct (existsb _ (remove_first a arr)) eqn:E;
        [|reflexivity].
      apply existsb_eqb_In in E. now apply remove_first_gone in E.
    + intros b Hne.
      destruct (existsb (String.eqb b) arr) eqn:Hb.
      * apply existsb_eqb_In. apply existsb_eqb_In in Hb.
        now apply remove_first_other.
      * destruct (existsb _ (remove_first a arr)) eqn:E; [|reflexivity].
        apply existsb_eqb_In, remove_first_In, existsb_eqb_In in E.
        congruence.
  - split; [|split].
    + apply push_NoDup; [exact Hnd|].
      intros Hx. apply existsb_eqb_In in Hx. congruence.
    + rewrite existsb_eqb_app. cbn [existsb]. rewrite String.eqb_refl.
      now rewrite orb_true_r.
    + intros b Hne. rewrite existsb_eqb_app. cbn [existsb].
      destruct (String.eqb_spec b a) as [E|_]; [now destruct Hne|].
      now rewrite !orb_false_r.
Qed.

End Helpers.

(** X23. Choosing an area. [setAreaOnly] of an area that is not among
    the chosen ones makes it the only one, and [courses] then lists
    rows of that area only; [setAreaOnly] of the same area once more
    leaves no area chosen, as [clearAreas] does. The query is kept
    throughout. *)
Theorem one_area_is_listed listings selections filters sort areaId rows :
  existsb (String.eqb areaId) (View.areas filters) = false ->
  View.courses listings selections (View.setAreaOnly areaId filters) sort
  = View.Returns rows ->
  View.areas (View.setAreaOnly areaId filters) = [areaId]
  /\ Forall
       (fun c =>
          Course.area_id (View.course (View.listing c)) = Some areaId)
       rows
  /\ View.setAreaOnly areaId (View.setAreaOnly areaId filters)
     = View.clearAreas filters.
Proof.
  intros Hnew Hrun. unfold View.setAreaOnly in *. rewrite Hnew in *.
  split; [reflexivity|]. split.
  - apply courses_returns in Hrun as (f & _ & ->).
    eapply Permutation_Forall;
      [symmetry; apply sort_rows_perm|].
    apply List.Forall_forall. intros c Hc.
    apply List.filter_In in Hc as [_ Hc]. unfold View.shown in Hc.
    apply andb_true_iff in Hc as [_ Hc].
    cbn [View.areas length Nat.ltb Nat.leb] in Hc.
    unfold View.in_areas in Hc.
    destruct (Course.area_id _) as [a|]; [|discriminate].
    cbn [existsb] in Hc. rewrite orb_false_r in Hc.
    apply String.eqb_eq in Hc. now subst.
  - cbn [View.areas existsb View.q]. rewrite String.eqb_refl. reflexivity.
Qed.

Lemma one_area_is_listed_witness :
  existsb (String.eqb "area-b") (View.areas SampleView.no_filters) = false
  /\ View.courses SampleView.listings (Planner.selections SampleView.mixed)
       (View.setAreaOnly "area-b" SampleView.no_filters) SampleView.by_title
     = View.Returns
         [View.selection_row SampleView.additional_course Sample.sel_ac;
          View.available_row SampleView.additional_course 8 10]
  /\ Forall
       (fun c =>
          Course.area_id (View.course (View.listing c)) = Some "area-b")
       [View.selection_row SampleView.additional_course Sample.sel_ac;
        View.available_row SampleView.additional_course 8 10].
Proof.
  assert (H : View.courses SampleView.listings
                (Planner.selections SampleView.mixed)
                (View.setAreaOnly "area-b" SampleView.no_filters)
                SampleView.by_title
              = View.Returns
                  [View.selection_row SampleView.additional_course
                     Sample.sel_ac;
                   View.available_row SampleView.additional_course 8 10])
    by (vm_compute; reflexivity).
  split; [reflexivity|]. split; [exact H|].
  exact (proj1 (proj2 (one_area_is_listed SampleView.listings
                         (Planner.selections SampleView.mixed)
                         SampleView.no_filters SampleView.by_title "area-b"
                         _ eq_refl H))).
Defined.

(** X24. Collapsing an area. With no area twice in either array of
    [collapsedAreas], as is the case from the empty arrays the
    component starts with, [toggleAreaCollapse] turns
    [isAreaCollapsed] of that section and area into its opposite,
    leaves it as it was for every other section or area, and again
    leaves no area twice in an array. *)
Theorem collapse_toggles_one_area s areaId collapsedAreas :
  List.NoDup (View.planned collapsedAreas) ->
  List.NoDup (View.catalog_areas collapsedAreas) ->
  let toggled := View.toggleAreaCollapse s areaId collapsedAreas in
  View.isAreaCollapsed s areaId toggled
  = negb (View.isAreaCollapsed s areaId collapsedAreas)
  /\ (forall s' areaId',
        s' <> s \/ areaId' <> areaId ->
        View.isAreaCollapsed s' areaId' toggled
        = View.isAreaCollapsed s' areaId' collapsedAreas)
  /\ List.NoDup (View.planned toggled)
  /\ List.NoDup (View.catalog_areas toggled).
Proof.
  intros Hp Hc. cbv zeta. unfold View.isAreaCollapsed, View.toggleAreaCollapse.
  destruct s; cbn [View.collapsed_of].
  - destruct (toggled_array areaId _ Hp) as (Hnd & Hflip & Hother).
    cbv zeta in Hnd, Hflip, Hother.
    split; [exact Hflip|]. split; [|split; [exact Hnd|exact Hc]].
    intros s' a' Hdiff. destruct s'; cbn [View.collapsed_of View.planned
                                            View.catalog_areas];
      [|reflexivity].
    apply Hother. destruct Hdiff as [H|H]; [now destruct H|exact H].
  - destruct (toggled_array areaId _ Hc) as (Hnd & Hflip & Hother).
    cbv zeta in Hnd, Hflip, Hother.
    split; [exact Hflip|]. split; [|split; [exact Hp|exact Hnd]].
    intros s' a' Hdiff. destruct s'; cbn [View.collapsed_of View.planned
                                            View.catalog_areas];
      [reflexivity|].
    apply Hother. destruct Hdiff as [H|H]; [now destruct H|exact H].
Qed.

Lemma collapse_toggles_one_area_witness :
  List.NoDup (View.planned {| View.planned := ["area-a"];
                              View.catalog_areas := [] |})
  /\ View.isAreaCollapsed View.PlannedSection "area-a"
       (View.toggleAreaCollapse View.PlannedSection "area-a"
          {| View.planned := ["area-a"]; View.catalog_areas := [] |})
     = negb (View.isAreaCollapsed View.PlannedSection "area-a"
               {| View.planned := ["area-a"]; View.catalog_areas := [] |}).
Proof.
  assert (H1 : List.NoDup ["area-a"])
    by (apply List.NoDup_cons; [intros []|apply List.NoDup_nil]).
  split; [exact H1|].
  exact (proj1 (collapse_toggles_one_area View.PlannedSection "area-a"
                  {| View.planned := ["area-a"]; View.catalog_areas := [] |}
                  H1 (List.NoDup_nil _))).
Defined.
(** ** What a load can return *)

Section Loading.
Import Planner.

Lemma version_is_current_spec parsed :
  version_is_current parsed = true
  <-> Json.get "version" parsed = Some (Json.Str STORAGE_VERSION).
Proof.
  unfold version_is_current.
  destruct (Json.get "version" parsed) as [[| | |v| |]|];
    try (split; discriminate).
  split.
  - intros H. apply String.eqb_eq in H. now subst.
  - intros [= ->]. apply String.eqb_refl.
Qed.

(** The ways through [loadSelectionsFromStorage]. *)
Lemma loadSelectionsFromStorage_cases stored r :
  loadSelectionsFromStorage stored = Some r ->
  ((stored !! STORAGE_KEY = None \/ stored !! STORAGE_KEY = Some "")
   /\ r = ([], []))
  \/ (exists data,
        stored !! STORAGE_KEY = Some data /\ data <> ""
        /\ (Json.parse data = Json.SyntaxError
            \/ Json.parse data = Json.Ok Json.Null)
        /\ r = ([], load_failed))
  \/ (exists data parsed,
        stored !! STORAGE_KEY = Some data /\ data <> ""
        /\ Json.parse data = Json.Ok parsed /\ parsed <> Json.Null
        /\ snd r = (if version_is_current parsed then []
                    else [ConsoleLog "Storage version mismatch, migrating..."])
        /\ ((fst r = []
             /\ forall items,
                  Json.get "selections" parsed = Some (Json.Arr items) ->
                  items = [])
            \/ exists items,
                 Json.get "selections" parsed = Some (Json.Arr items)
                 /\ Selection.list_of_json items = Some (fst r))).
Proof.
  unfold loadSelectionsFromStorage. intros Hrun.
  destruct (stored !! STORAGE_KEY) as [data|] eqn:Hdata;
    [|left; injection Hrun as <-; auto].
  destruct (String.eqb_spec data "") as [->|Hne];
    [left; injection Hrun as <-; auto|].
  right.
  destruct (Json.parse data) as [parsed| |] eqn:Hparse; [| |discriminate].
  2:{ left. exists data. injection Hrun as <-. auto. }
  assert (Hrest :
            match Json.get "selections" parsed with
            | Some v =>
                if falsy v
                then Some ([], if version_is_current parsed then []
                               else [ConsoleLog
                                       "Storage version mismatch, migrating..."])
                else
                  match v with
                  | Json.Arr items =>
                      match Selection.list_of_json items with
                      | Some sels =>
                          Some (sels,
                                if version_is_current parsed then []
                                else [ConsoleLog
                                        "Storage version mismatch, migrating..."])
                      | None => None
                      end
                  | _ => None
                  end
            | None =>
                Some ([], if version_is_current parsed then []
                          else [ConsoleLog
                                  "Storage version mismatch, migrating..."])
            end = Some r ->
            parsed <> Json.Null ->
            exists data0 parsed0,
              Some data = Some data0 /\ data0 <> ""
              /\ Json.parse data0 = Json.Ok parsed0 /\ parsed0 <> Json.Null
              /\ snd r = (if version_is_current parsed0 then []
                          else [ConsoleLog
                                  "Storage version mismatch, migrating..."])
              /\ ((fst r = []
                   /\ forall items,
                        Json.get "selections" parsed0 = Some (Json.Arr items) ->
                        items = [])
                  \/ exists items,
                       Json.get "selections" parsed0 = Some (Json.Arr items)
                       /\ Selection.list_of_json items = Some (fst r))).
  { intros H Hnn. exists data, parsed.
    split; [reflexivity|]. split; [exact Hne|]. split; [exact Hparse|].
    split; [exact Hnn|].
    destruct (Json.get "selections" parsed) as [v|].
    - destruct v as [|b|z|s|items|ms]; cbn [falsy] in H;
        try (destruct b); try (destruct (Z.eqb z 0));
        try (destruct (String.eqb s "")); try discriminate H;
        try (injection H as <-; split; [reflexivity|]; left;
             split; [reflexivity|]; intros items0 [=]).
      destruct (Selection.list_of_json items) as [sels|] eqn:Hsels;
        [|discriminate H].
      injection H as <-. split; [reflexivity|]. right. now exists items.
    - injection H as <-. split; [reflexivity|]. left.
      split; [reflexivity|]. intros items [=]. }
  destruct parsed as [|b|z|s|xs|ms].
  { left. exists data. injection Hrun as <-. auto. }
  all: right; apply Hrest; [exact Hrun|discriminate].
Qed.
End Loading.

(** X26. What [loadSelectionsFromStorage] can return. A list that is not
    empty is the array stored under [selections] of the text under the
    storage key. The failure is logged exactly when that text is not
    empty and does not parse or parses to [null]; the version mismatch
    is logged exactly when it parses to another value whose [version]
    is not the string [1.0], whether or not it has selections. In every
    other case, such as an empty text or a value without [selections],
    the result is the empty list. *)
Theorem load_returns_the_stored_array stored sels events :
  Planner.loadSelectionsFromStorage stored = Some (sels, events) ->
  (sels <> [] ->
   exists data parsed items,
     stored !! Planner.STORAGE_KEY = Some data
     /\ Json.parse data = Json.Ok parsed
     /\ Json.get "selections" parsed = Some (Json.Arr items)
     /\ Selection.list_of_json items = Some sels)
  /\ (In (Planner.ConsoleError "Failed to load selections from storage:")
        events
      <-> exists data,
            stored !! Planner.STORAGE_KEY = Some data /\ data <> ""
            /\ (Json.parse data = Json.SyntaxError
                \/ Json.parse data = Json.Ok Json.Null))
  /\ (In (Planner.ConsoleLog "Storage version mismatch, migrating...") events
      <-> exists data parsed,
            stored !! Planner.STORAGE_KEY = Some data /\ data <> ""
            /\ Json.parse data = Json.Ok parsed /\ parsed <> Json.Null
            /\ Json.get "version" parsed
               <> Some (Json.Str Planner.STORAGE_VERSION)).
Proof.
  intros Hrun. apply loadSelectionsFromStorage_cases in Hrun.
  destruct Hrun as
    [[Hkey [= -> ->]]
    |[(data & Hdata & Hne & Hp & [= -> ->])
     |(data & parsed & Hdata & Hne & Hp & Hnn & Hlog & Hsels)]].
  - split; [intros H; now destruct H|]. split.
    + split; [intros []|].
      intros (data & Hdata & Hne & _).
      destruct Hkey as [Hkey|Hkey]; rewrite Hkey in Hdata;
        [discriminate|]. injection Hdata as <-. now destruct Hne.
    + split; [intros []|].
      intros (data & parsed & Hdata & Hne & _).
      destruct Hkey as [Hkey|Hkey]; rewrite Hkey in Hdata;
        [discriminate|]. injection Hdata as <-. now destruct Hne.
  - split; [intros H; now destruct H|]. split.
    + split; [|intros _; left; reflexivity].
      intros _. now exists data.
    + split; [intros [H|[]]; discriminate H|].
      intros (data0 & parsed & Hdata0 & _ & Hp0 & Hnn & _).
      rewrite Hdata in Hdata0. injection Hdata0 as <-.
      destruct Hp as [Hp|Hp]; rewrite Hp in Hp0; [discriminate|].
      injection Hp0 as <-. now destruct Hnn.
  - cbn [fst snd] in Hlog, Hsels. split; [|split].
    + intros Hsome.
      destruct Hsels as [[-> _]|(items & Hget & Hitems)];
        [now destruct Hsome|].
      now exists data, parsed, items.
    + split.
      * rewrite Hlog. destruct (Planner.version_is_current parsed);
          [intros []|intros [H|[]]; discriminate H].
      * intros (data0 & Hdata0 & _ & Hp0).
        rewrite Hdata in Hdata0. injection Hdata0 as <-.
        destruct Hp0 as [Hp0|Hp0]; rewrite Hp in Hp0; [discriminate|].
        injection Hp0 as ->. now destruct Hnn.
    + rewrite Hlog. split.
      * intros Hin. exists data, parsed.
        split; [exact Hdata|]. split; [exact Hne|]. split; [exact Hp|].
        split; [exact Hnn|]. intros Hv.
        apply version_is_current_spec in Hv. rewrite Hv in Hin.
        destruct Hin.
      * intros (data0 & parsed0 & Hdata0 & _ & Hp0 & _ & Hv).
        rewrite Hdata in Hdata0. injection Hdata0 as <-.
        rewrite Hp in Hp0. injection Hp0 as <-.
        destruct (Planner.version_is_current parsed) eqn:E;
          [|left; reflexivity].
        apply version_is_current_spec in E. now destruct Hv.
Qed.

Lemma load_returns_the_stored_array_witness :
  Planner.loadSelectionsFromStorage Sample.old_storage
  = Some ([Sample.sel1],
          [Planner.ConsoleLog "Storage version mismatch, migrating..."])
  /\ exists data parsed items,
       Sample.old_storage !! Planner.STORAGE_KEY = Some data
       /\ Json.parse data = Json.Ok parsed
       /\ Json.get "selections" parsed = Some (Json.Arr items)
       /\ Selection.list_of_json items = Some [Sample.sel1].
Proof.
  assert (H : Planner.loadSelectionsFromStorage Sample.old_storage
              = Some ([Sample.sel1],
                      [Planner.ConsoleLog
                         "Storage version mismatch, migrating..."]))
    by (vm_compute; reflexivity).
  split; [exact H|].
  apply (proj1 (load_returns_the_stored_array _ _ _ H)). discriminate.
Defined.
(** ** The credit the list offers *)

Section Offered.
Import Planner View.

Lemma rows_of_listing selectionMap l c :
  In c (rows_of selectionMap l) -> listing c = l.
Proof.
  unfold rows_of. destruct (Course.is_additional_course (course l)).
  - cbv zeta. intros H. apply in_app_or in H as [H|H].
    + apply in_map_iff in H as (s & <- & _). reflexivity.
    + destruct (Z.gtb _ _); [|destruct H].
      destruct H as [<-|[]]. reflexivity.
  - intros [<-|[]]. reflexivity.
Qed.

(** The rows of an Additional Course module that belong to no
    selection: the catalog row, there when credit is left. *)
Lemma catalog_row_of_module listings sels l c :
  In l listings ->
  Course.is_additional_course (course l) = true ->
  (In c (merged listings sels) /\ listing c = l /\ selection_id c = None
   <-> 0 < cap (course l) - committed (Course.id (course l)) sels
       /\ c = available_row l
                (cap (course l) - committed (Course.id (course l)) sels)
                (committed (Course.id (course l)) sels)).
Proof.
  intros Hin Hadd.
  assert (Hrows : rows_of (selectionMap sels) l
                  = map (selection_row l)
                      (List.filter (references (Course.id (course l))) sels)
                    ++ (if Z.gtb (cap (course l)
                                  - committed (Course.id (course l)) sels) 0
                        then [available_row l
                                (cap (course l)
                                 - committed (Course.id (course l)) sels)
                                (committed (Course.id (course l)) sels)]
                        else [])).
  { unfold rows_of. rewrite selectionMap_lookup, Hadd. reflexivity. }
  split.
  - intros (Hc & Hl & Hid). unfold merged in Hc.
    apply in_flat_map in Hc as (l' & Hl' & Hc).
    pose proof (rows_of_listing _ _ _ Hc) as E. rewrite Hl in E. subst l'.
    rewrite Hrows in Hc. apply in_app_or in Hc as [Hc|Hc].
    + apply in_map_iff in Hc as (s & <- & _). discriminate Hid.
    + destruct (Z.gtb_spec (cap (course l)
                            - committed (Course.id (course l)) sels) 0)
        as [Hpos|_]; [|destruct Hc].
      destruct Hc as [<-|[]]. split; [lia|reflexivity].
  - intros (Hpos & ->). split; [|split; reflexivity].
    unfold merged. apply in_flat_map. exists l. split; [exact Hin|].
    rewrite Hrows. apply in_or_app. right.
    destruct (Z.gtb_spec (cap (course l)
                          - committed (Course.id (course l)) sels) 0)
      as [_|Hle]; [now left|lia].
Qed.
End Offered.

(** X19. The list offers what [addAdditionalCourse] accepts. With the
    ids of the catalog all different and no filter set, let [courses]
    return its rows, and let the amount in the ECTS field of an
    Additional Course module read as the integer [e], at least 1. Then
    [addAdditionalCourse] adds the selection of [e] ECTS exactly when
    the list has a catalog row of the module (a row without selection)
    whose [remaining_ects] is at least [e]; when the list has no such
    row the store stays as it is. *)
Theorem listed_credit_is_what_add_accepts listings st sort rows l e env :
  Planner.catalog st = map View.course listings ->
  List.NoDup (map (fun l => Course.id (View.course l)) listings) ->
  In l listings ->
  Course.is_additional_course (View.course l) = true ->
  View.courses listings (Planner.selections st)
    {| View.q := ""; View.areas := [] |} sort = View.Returns rows ->
  Js.parseInt
    (Js.to_string (Planner.entered st (Course.id (View.course l))))
  = Some e ->
  1 <= e ->
  let offered :=
    exists c r,
      In c rows /\ View.listing c = l /\ View.selection_id c = None
      /\ View.remaining_ects c = Some r /\ e <= r in
  (offered <->
   Planner.selections
     (fst (Planner.addAdditionalCourse env (Course.id (View.course l)) st))
   = Planner.selections st ++
     [Selection.mk (Course.id (View.course l)) "planned"
        (Planner.generateSelectionId env) (Some e)])
  /\ (~ offered ->
      fst (Planner.addAdditionalCourse env (Course.id (View.course l)) st)
      = st).
Proof.
  intros Hcat Hnd Hl Hadd Hrun Hparse He. cbv zeta.
  assert (Hfind : Planner.find_course (Planner.catalog st)
                    (Course.id (View.course l)) = Some (View.course l))
    by (rewrite Hcat; now apply find_course_listed).
  set (R := Planner.cap (View.course l)
            - Planner.committed (Course.id (View.course l))
                (Planner.selections st)).
  assert (Hrows : forall c, In c rows
                    <-> In c (View.merged listings (Planner.selections st))).
  { apply courses_returns in Hrun as (f & _ & ->). intros c.
    rewrite (List.filter_ext _ (fun _ => true)) by reflexivity.
    rewrite filter_true.
    split; apply Permutation_in;
      [apply sort_rows_perm|symmetry; apply sort_rows_perm]. }
  assert (Hoffered :
            (exists c r,
               In c rows /\ View.listing c = l /\ View.selection_id c = None
               /\ View.remaining_ects c = Some r /\ e <= r)
            <-> e <= R).
  { split.
    - intros (c & r & Hc & Hlc & Hid & Hr & Her).
      apply Hrows in Hc.
      destruct (proj1 (catalog_row_of_module listings _ l c Hl Hadd)
                  (conj Hc (conj Hlc Hid))) as (_ & ->).
      cbn [View.remaining_ects View.available_row] in Hr.
      injection Hr as <-. exact Her.
    - intros HeR.
      exists (View.available_row l R
                (Planner.committed (Course.id (View.course l))
                   (Planner.selections st))), R.
      assert (Hpos : 0 < R) by lia.
      destruct (proj2 (catalog_row_of_module listings
                         (Planner.selections st) l _ Hl Hadd)
                  (conj Hpos eq_refl)) as (Hc & Hlc & Hid).
      split; [now apply Hrows|]. split; [exact Hlc|]. split; [exact Hid|].
      split; [reflexivity|exact HeR]. }
  pose proof (addAdditionalCourse_cases env (Course.id (View.course l)) st
                (View.course l) Hfind Hadd) as Hcases.
  rewrite Hparse in Hcases.
  destruct (Z.ltb_spec e 1) as [Hlt|_]; [lia|].
  cbv zeta in Hcases. fold R in Hcases.
  destruct (Z.gtb_spec e R) as [Hgt|Hle].
  - split.
    + split.
      * intros H. apply Hoffered in H. lia.
      * rewrite Hcases. cbn [fst]. intros H. symmetry in H.
        now apply app_one_not_same in H.
    + intros _. now rewrite Hcases.
  - split.
    + split; [intros _; exact Hcases|]. intros _. now apply Hoffered.
    + intros Hno. destruct Hno. now apply Hoffered.
Qed.

Lemma listed_credit_is_what_add_accepts_witness :
  View.courses SampleView.listings
    (Planner.selections (Machine.enter "AC1" "5" SampleView.mixed))
    {| View.q := ""; View.areas := [] |} SampleView.by_title
  = View.Returns SampleView.listed
  /\ In (View.available_row SampleView.additional_course 8 10)
       SampleView.listed
  /\ Planner.selections
       (fst (Planner.addAdditionalCourse Sample.env "AC1"
               (Machine.enter "AC1" "5" SampleView.mixed)))
     = [Sample.sel1; Sample.sel2; Sample.sel_ac;
        Selection.mk "AC1" "planned"
          (Planner.generateSelectionId Sample.env) (Some 5)].
Proof.
  assert (H1 : List.NoDup
                 (map (fun l => Course.id (View.course l))
                    SampleView.listings)).
  { apply List.NoDup_cons; [intros [H|[H|[]]]; discriminate H|].
    apply List.NoDup_cons; [intros [H|[]]; discriminate H|].
    apply List.NoDup_cons; [intros []|apply List.NoDup_nil]. }
  assert (H2 : View.courses SampleView.listings
                 (Planner.selections
                    (Machine.enter "AC1" "5" SampleView.mixed))
                 {| View.q := ""; View.areas := [] |} SampleView.by_title
               = View.Returns SampleView.listed)
    by (vm_compute; reflexivity).
  assert (H3 : In (View.available_row SampleView.additional_course 8 10)
                 SampleView.listed)
    by (right; left; reflexivity).
  split; [exact H2|]. split; [exact H3|].
  apply (proj1 (listed_credit_is_what_add_accepts SampleView.listings
                  (Machine.enter "AC1" "5" SampleView.mixed)
                  SampleView.by_title SampleView.listed
                  SampleView.additional_course 5 Sample.env
                  eq_refl H1 (or_intror (or_intror (or_introl eq_refl)))
                  eq_refl H2 eq_refl ltac:(lia))).
  exists (View.available_row SampleView.additional_course 8 10), 8.
  split; [exact H3|]. repeat split. lia.
Defined.
